(** * Dispatch firmware, multicast encoding and Program container of tt-metal

    A shallow embedding of
    - [tt_metal/hw/firmware/src/idle_erisc.cc]  (module [IdleErisc]),
    - [tt_metal/impl/dispatch/command_queue.hpp] (module [CommandQueue]),
    - [tt_metal/impl/program.hpp]                (modules [ProgramHpp] and
      [ProgramAdders]),
    - [tt_metal/op_library/bmm/multi_core_reuse/bmm_op_multi_core_reuse.cpp]
      (module [BmmMultiCoreReuse]),
    - [ttnn/cpp/ttnn/operations/data_movement/transpose/transpose.cpp]
      (module [Transpose]),
    together with the properties the specification states about them and
    further properties of the code. *)

From Stdlib Require Import ZArith Lia List String Bool.
From stdpp Require Import base numbers list.
Import ListNotations.
Local Open Scope Z_scope.

(** 32-bit unsigned arithmetic of the RISC-V management cores. *)
Definition wrap32 (z : Z) : Z := z mod 2 ^ 32.

(* ===================================================================== *)
(** * idle_erisc.cc                                                       *)
(* ===================================================================== *)
Module IdleErisc.

(** ** Mailbox structures (fields as the firmware accesses them) *)

Record kernel_config_msg_t := Build_kernel_config {
  enables : Z;
  brisc_noc_id : Z;
  cb_offset : Z;
  kernel_text_offset : nat -> Z;   (* fixed-size array, indexed by processor *)
  mode : Z;
  host_assigned_id : Z
}.

Record launch_msg_t := Build_launch_msg {
  kernel_config : kernel_config_msg_t
}.

Record go_msg_t := Build_go_msg {
  signal : Z;
  master_x : Z;
  master_y : Z;
  dispatch_message_offset : Z
}.

(** [slave_sync] is a union: [slave_sync_all] is its 32-bit view, the byte
    [dm1] is stored into it with [slave_sync_store_dm1] below. *)
Record mailboxes_t := Build_mailboxes {
  launch : list launch_msg_t;
  launch_msg_rd_ptr : Z;
  go_message : go_msg_t;
  slave_sync_all : Z
}.

(** Memory-mapped registers and L1 words outside the mailbox. *)
Definition regfile := Z -> Z.

Definition WRITE_REG (addr val : Z) (r : regfile) : regfile :=
  fun a => if a =? addr then val else r a.

(** ** What the included headers provide

    None of [dev_msgs.h], [noc_parameters.h], [noc_nonblocking_api.h],
    [firmware_common.h], [risc_common.h], [stream_io_map.h] is part of the
    sources at hand: their constants, macros and helpers are parameters of
    the development.  [kernel_at] stands for the kernel binaries the host
    placed in L1: what calling the code at an address with an argument does
    to the register file, [None] when the call never returns. *)
Class Platform := {
  (* dev_msgs.h *)
  RUN_MSG_GO : Z;
  RUN_MSG_DONE : Z;
  RUN_SYNC_MSG_GO : Z;
  RUN_SYNC_MSG_ALL_SLAVES_DONE : Z;
  DISPATCH_MODE_DEV : Z;
  DISPATCH_CLASS_MASK_ETH_DM0 : Z;
  DISPATCH_CLASS_MASK_ETH_DM1 : Z;
  DISPATCH_CLASS_ETH_DM0 : Z;
  ProgrammableCoreType_IDLE_ETH : Z;
  EthProcessorTypes_DM0 : nat;
  launch_msg_buffer_num_entries : Z;
  slave_sync_store_dm1 : Z -> Z -> Z;   (* union word -> dm1 byte -> union word *)
  (* circular_buffer.h, stream_io_map.h *)
  NUM_CIRCULAR_BUFFERS : Z;
  get_cb_tiles_received_ptr : Z -> Z;
  get_cb_tiles_acked_ptr : Z -> Z;
  (* noc_parameters.h, noc_nonblocking_api.h, dataflow_api.h *)
  NOC_XY_ADDR : Z -> Z -> Z -> Z;
  NOC_X : Z -> Z -> Z;                  (* reads the global noc_index *)
  NOC_Y : Z -> Z -> Z;
  DISPATCH_MESSAGE_ADDR : Z;
  NCRISC_AT_CMD_BUF : Z;
  NOC_UNICAST_WRITE_VC : Z;
  MEM_NOC_ATOMIC_RET_VAL_ADDR : Z;
  MEM_SLAVE_IERISC_FIRMWARE_BASE : Z;
  ARCH_BLACKHOLE : bool;                (* #ifdef ARCH_BLACKHOLE *)
  (* firmware_common.h, risc_common.h *)
  firmware_config_init : mailboxes_t -> Z -> Z -> Z;
  RISC_POST_HEARTBEAT : Z -> Z;
  risc_init : regfile -> regfile;
  noc_init : Z -> regfile -> regfile;
  deassert_all_reset : regfile -> regfile;
  (* kernel text in L1 *)
  kernel_at : Z -> Z -> regfile -> option regfile
}.

(** ** Machine state *)

(** Program points of [main]; the names follow the WAYPOINT strings. *)
Inductive label :=
| L_top            (* line 120: head of while(1), before init_sync_registers *)
| L_GW             (* line 123: polling go_message.signal *)
| L_GD             (* lines 132-145: go seen, decoding the launch message *)
| L_R              (* lines 148-156: kernel call *)
| L_SEW            (* line 91: polling slave_sync.all *)
| L_SED            (* line 160: storing RUN_MSG_DONE *)
| L_notify         (* lines 163-172 *)
| L_idle_forever   (* lines 175-177, non-blackhole only *)
| L_in_kernel      (* the kernel called at line 153 never returned *)
| L_undefined.     (* launch[] indexed outside the array *)

(** What the firmware reads from volatile memory and what it emits. *)
Inductive event :=
| Ev_go_poll (v : Z)                 (* value read from go_message.signal *)
| Ev_kernel_call (target arg : Z)    (* line 153 *)
| Ev_sync_poll (v : Z)               (* value read from slave_sync.all *)
| Ev_go_done                         (* line 160 *)
| Ev_mode_read (m : Z)               (* value read from kernel_config.mode, line 163 *)
| Ev_atomic_inc (noc cmd_buf addr vc incr wrap : Z) (linked : bool).  (* line 170 *)

Record machine := Build_machine {
  pc : label;
  mailboxes : mailboxes_t;
  regs : regfile;
  noc_index : Z;
  heartbeat : Z;
  (* locals of the loop body *)
  l_launch_msg_rd_ptr : Z;
  l_enables : Z;
  l_kernel_config_base : Z;
  (* history *)
  trace : list event
}.

(** Field updates. *)
Definition set_pc (l : label) (s : machine) : machine :=
  Build_machine l (mailboxes s) (regs s) (noc_index s) (heartbeat s)
    (l_launch_msg_rd_ptr s) (l_enables s) (l_kernel_config_base s) (trace s).
Definition set_mailboxes (mb : mailboxes_t) (s : machine) : machine :=
  Build_machine (pc s) mb (regs s) (noc_index s) (heartbeat s)
    (l_launch_msg_rd_ptr s) (l_enables s) (l_kernel_config_base s) (trace s).
Definition set_regs (r : regfile) (s : machine) : machine :=
  Build_machine (pc s) (mailboxes s) r (noc_index s) (heartbeat s)
    (l_launch_msg_rd_ptr s) (l_enables s) (l_kernel_config_base s) (trace s).
Definition set_heartbeat (h : Z) (s : machine) : machine :=
  Build_machine (pc s) (mailboxes s) (regs s) (noc_index s) h
    (l_launch_msg_rd_ptr s) (l_enables s) (l_kernel_config_base s) (trace s).
Definition emit (e : event) (s : machine) : machine :=
  Build_machine (pc s) (mailboxes s) (regs s) (noc_index s) (heartbeat s)
    (l_launch_msg_rd_ptr s) (l_enables s) (l_kernel_config_base s) (trace s ++ [e]).

Definition set_signal (v : Z) (mb : mailboxes_t) : mailboxes_t :=
  Build_mailboxes (launch mb) (launch_msg_rd_ptr mb)
    (Build_go_msg v (master_x (go_message mb)) (master_y (go_message mb))
       (dispatch_message_offset (go_message mb)))
    (slave_sync_all mb).
Definition set_slave_sync_all (v : Z) (mb : mailboxes_t) : mailboxes_t :=
  Build_mailboxes (launch mb) (launch_msg_rd_ptr mb) (go_message mb) v.
Definition set_launch_msg_rd_ptr (v : Z) (mb : mailboxes_t) : mailboxes_t :=
  Build_mailboxes (launch mb) v (go_message mb) (slave_sync_all mb).
Definition set_go_message (g : go_msg_t) (mb : mailboxes_t) : mailboxes_t :=
  Build_mailboxes (launch mb) (launch_msg_rd_ptr mb) g (slave_sync_all mb).
Definition set_launch (i : nat) (lm : launch_msg_t) (mb : mailboxes_t) : mailboxes_t :=
  Build_mailboxes (<[i := lm]> (launch mb)) (launch_msg_rd_ptr mb) (go_message mb)
    (slave_sync_all mb).
Definition clear_enables (lm : launch_msg_t) : launch_msg_t :=
  let k := kernel_config lm in
  Build_launch_msg
    (Build_kernel_config 0 (brisc_noc_id k) (cb_offset k) (kernel_text_offset k)
       (mode k) (host_assigned_id k)).

Section Firmware.
Context `{P : Platform}.

(** ** The functions of the translation unit

    WAYPOINT, the DeviceZone profiler macros, DEBUG_SANITIZE_NOC_ADDR,
    CLEAR_PREVIOUS_LAUNCH_MESSAGE_ENTRY_FOR_WATCHER, RECORD_STACK_USAGE,
    DIRTY_STACK_MEMORY, [do_crt1], [conditionally_disable_l1_cache] and
    [flush_erisc_icache] act on debug and profiler buffers, the stack, the
    C runtime image and the caches, none of which is part of [machine]. *)

Definition set_deassert_addresses (r : regfile) : regfile :=
  if ARCH_BLACKHOLE then WRITE_REG 0xFFB14008 MEM_SLAVE_IERISC_FIRMWARE_BASE r else r.

(** One pass of the loop body of [init_sync_registers]. *)
Definition init_sync_operand (r : regfile) (operand : Z) : regfile :=
  WRITE_REG (get_cb_tiles_acked_ptr operand) 0
    (WRITE_REG (get_cb_tiles_received_ptr operand) 0 r).

Definition init_sync_registers (r : regfile) : regfile :=
  fold_left init_sync_operand (seqZ 0 NUM_CIRCULAR_BUFFERS) r.

Definition run_slave_eriscs (enables : Z) (mb : mailboxes_t) : mailboxes_t :=
  if Z.land enables DISPATCH_CLASS_MASK_ETH_DM1 =? 0 then mb
  else set_slave_sync_all (slave_sync_store_dm1 (slave_sync_all mb) RUN_SYNC_MSG_GO) mb.

(** One evaluation of the loop condition of [wait_slave_eriscs]. *)
Definition wait_slave_eriscs (s : machine) : machine :=
  let v := slave_sync_all (mailboxes s) in
  let s := emit (Ev_sync_poll v) s in
  if v =? RUN_SYNC_MSG_ALL_SLAVES_DONE then set_pc L_SED s
  else set_heartbeat (RISC_POST_HEARTBEAT (heartbeat s)) s.

(** [main], lines 98-114: everything before [while (1)]. *)
Definition main_init (s : machine) : machine :=
  let heartbeat := 0 in
  let r := risc_init (regs s) in
  let mb := set_slave_sync_all RUN_SYNC_MSG_ALL_SLAVES_DONE (mailboxes s) in
  let r := set_deassert_addresses r in
  let r := noc_init MEM_NOC_ATOMIC_RET_VAL_ADDR r in
  let r := deassert_all_reset r in
  let mb := set_signal RUN_MSG_DONE mb in
  let mb := set_launch_msg_rd_ptr 0 mb in
  Build_machine L_top mb r (noc_index s) heartbeat
    (l_launch_msg_rd_ptr s) (l_enables s) (l_kernel_config_base s) [].

(** Lines 123-126, one evaluation of the loop condition. *)
Definition wait_go (s : machine) : machine :=
  let v := signal (go_message (mailboxes s)) in
  let s := emit (Ev_go_poll v) s in
  if v =? RUN_MSG_GO then set_pc L_GD s
  else set_heartbeat (RISC_POST_HEARTBEAT (heartbeat s)) s.

(** Lines 132-145. *)
Definition decode_launch (s : machine) : machine :=
  let mb := mailboxes s in
  let launch_msg_rd_ptr := launch_msg_rd_ptr mb in
  match launch mb !! Z.to_nat launch_msg_rd_ptr with
  | None => set_pc L_undefined s
  | Some launch_msg =>
      let noc_index := brisc_noc_id (kernel_config launch_msg) in
      let enables := enables (kernel_config launch_msg) in
      let mb := run_slave_eriscs enables mb in
      let kernel_config_base :=
        firmware_config_init mb ProgrammableCoreType_IDLE_ETH DISPATCH_CLASS_ETH_DM0 in
      Build_machine L_R mb (regs s) noc_index (heartbeat s)
        launch_msg_rd_ptr enables kernel_config_base (trace s)
  end.

(** Lines 151-152: the function pointer that is called. *)
Definition kernel_address (kernel_config_base : Z) (mb : mailboxes_t) : option Z :=
  match launch mb !! Z.to_nat (launch_msg_rd_ptr mb) with
  | None => None
  | Some lm =>
      Some (wrap32 (kernel_config_base
                    + kernel_text_offset (kernel_config lm) EthProcessorTypes_DM0))
  end.

(** Lines 148-156. *)
Definition run_kernel (s : machine) : machine :=
  if Z.land (l_enables s) DISPATCH_CLASS_MASK_ETH_DM0 =? 0 then set_pc L_SEW s
  else
    match kernel_address (l_kernel_config_base s) (mailboxes s) with
    | None => set_pc L_undefined s
    | Some kernel_address =>
        let s := emit (Ev_kernel_call kernel_address kernel_address) s in
        match kernel_at kernel_address kernel_address (regs s) with
        | Some r => set_pc L_SEW (set_regs r s)
        | None => set_pc L_in_kernel s
        end
    end.

(** Line 160. *)
Definition signal_done (s : machine) : machine :=
  set_pc L_notify
    (emit Ev_go_done (set_mailboxes (set_signal RUN_MSG_DONE (mailboxes s)) s)).

(** Lines 165-167. *)
Definition dispatch_addr (noc_index : Z) (g : go_msg_t) : Z :=
  NOC_XY_ADDR (NOC_X noc_index (master_x g)) (NOC_Y noc_index (master_x g))
    (wrap32 (DISPATCH_MESSAGE_ADDR + dispatch_message_offset g)).

(** Lines 163-178. *)
Definition notify_dispatcher (s : machine) : machine :=
  let mb := mailboxes s in
  let rd := l_launch_msg_rd_ptr s in
  match launch mb !! Z.to_nat rd with
  | None => set_pc L_undefined s
  | Some launch_msg =>
      let m := mode (kernel_config launch_msg) in
      let s := emit (Ev_mode_read m) s in
      let s :=
        if m =? DISPATCH_MODE_DEV then
          let mb := set_launch (Z.to_nat rd) (clear_enables launch_msg) mb in
          let dispatch_addr := dispatch_addr (noc_index s) (go_message mb) in
          let s :=
            emit (Ev_atomic_inc (noc_index s) NCRISC_AT_CMD_BUF dispatch_addr
                    NOC_UNICAST_WRITE_VC 1 31 false) s in
          let mb :=
            set_launch_msg_rd_ptr
              (Z.land (wrap32 (rd + 1)) (wrap32 (launch_msg_buffer_num_entries - 1))) mb in
          set_mailboxes mb s
        else s in
      set_pc (if ARCH_BLACKHOLE then L_top else L_idle_forever) s
  end.

(** One step of the management core. *)
Definition fw_step (s : machine) : machine :=
  match pc s with
  | L_top => set_pc L_GW (set_regs (init_sync_registers (regs s)) s)
  | L_GW => wait_go s
  | L_GD => decode_launch s
  | L_R => run_kernel s
  | L_SEW => wait_slave_eriscs s
  | L_SED => signal_done s
  | L_notify => notify_dispatcher s
  | L_idle_forever => set_heartbeat (RISC_POST_HEARTBEAT (heartbeat s)) s
  | L_in_kernel => s
  | L_undefined => s
  end.

(** ** The other agents on the mailbox

    The dispatcher writes the go message and the launch ring, the slave
    processors write [slave_sync]; nobody but the firmware writes
    [launch_msg_rd_ptr]. *)
Inductive env_action :=
| Host_write_go (g : go_msg_t)
| Host_write_launch (i : nat) (lm : launch_msg_t)
| Slave_write_sync (v : Z).

Definition env_step (e : env_action) (s : machine) : machine :=
  match e with
  | Host_write_go g => set_mailboxes (set_go_message g (mailboxes s)) s
  | Host_write_launch i lm => set_mailboxes (set_launch i lm (mailboxes s)) s
  | Slave_write_sync v => set_mailboxes (set_slave_sync_all v (mailboxes s)) s
  end.

Inductive action :=
| Fw
| Env (e : env_action).

Definition step (s : machine) (a : action) : machine :=
  match a with
  | Fw => fw_step s
  | Env e => env_step e s
  end.

(** A schedule is an interleaving of firmware steps and writes of others. *)
Definition run (sched : list action) (s : machine) : machine :=
  fold_left step sched s.

Definition env_run (es : list env_action) (s : machine) : machine :=
  run (map Env es) s.

(** ** Reading the history *)

Definition is_go_seen (e : event) : bool :=
  match e with Ev_go_poll v => v =? RUN_MSG_GO | _ => false end.
Definition is_go_done (e : event) : bool :=
  match e with Ev_go_done => true | _ => false end.
Definition is_atomic_inc (e : event) : bool :=
  match e with Ev_atomic_inc _ _ _ _ _ _ _ => true | _ => false end.
Definition is_kernel_call (e : event) : bool :=
  match e with Ev_kernel_call _ _ => true | _ => false end.
Definition is_dev_launch (e : event) : bool :=
  match e with Ev_mode_read m => m =? DISPATCH_MODE_DEV | _ => false end.

Definition is_mode_read (e : event) : bool :=
  match e with Ev_mode_read _ => true | _ => false end.

Definition count (f : event -> bool) (t : list event) : nat :=
  length (List.filter f t).

(** Launches completed with [mode == DISPATCH_MODE_DEV]. *)
Definition dev_launches (t : list event) : nat := count is_dev_launch t.

(** The mode the firmware reads at line 163: that of the slot it decoded. *)
Definition launch_mode (s : machine) : option Z :=
  match launch (mailboxes s) !! Z.to_nat (l_launch_msg_rd_ptr s) with
  | Some lm => Some (mode (kernel_config lm))
  | None => None
  end.

(** The enabled DM0 kernel returns: when the enables decoded in [s] have the
    DM0 bit, so that line 153 makes the call, the code at the address that
    is called returns.  Nothing is asked of a kernel that is not enabled. *)
Definition kernel_returns (s : machine) : Prop :=
  Z.land (l_enables s) DISPATCH_CLASS_MASK_ETH_DM0 <> 0 ->
  forall a, kernel_address (l_kernel_config_base s) (mailboxes s) = Some a ->
            is_Some (kernel_at a a (regs s)).

(** The firmware sits in [wait_slave_eriscs]: the others write the mailbox
    and every poll of [slave_sync.all] finds a slave that is not done. *)
Inductive waits : machine -> machine -> Prop :=
| waits_here s : waits s s
| waits_env s s' e : waits s s' -> waits s (env_step e s')
| waits_poll s s' :
    waits s s' ->
    slave_sync_all (mailboxes s') <> RUN_SYNC_MSG_ALL_SLAVES_DONE ->
    waits s (fw_step s').

(** Every store of RUN_MSG_DONE at line 160 directly follows a poll that
    read ALL_SLAVES_DONE, and every atomic increment directly follows that
    store and the read of the mode. *)
Definition done_only_after_slaves_done (t : list event) : Prop :=
  (forall pre post,
      t = pre ++ Ev_go_done :: post ->
      exists pre', pre = pre' ++ [Ev_sync_poll RUN_SYNC_MSG_ALL_SLAVES_DONE]) /\
  (forall pre post noc cmd_buf addr vc incr wrap linked,
      t = pre ++ Ev_atomic_inc noc cmd_buf addr vc incr wrap linked :: post ->
      exists pre' m,
        pre = pre' ++ [Ev_sync_poll RUN_SYNC_MSG_ALL_SLAVES_DONE; Ev_go_done;
                       Ev_mode_read m]).

(** ** Auxiliary notions for the invariants *)

(** A launch message has been decoded and not yet acknowledged. *)
Definition in_flight (l : label) : bool :=
  match l with
  | L_R | L_SEW | L_SED | L_notify | L_in_kernel => true
  | _ => false
  end.

(** Events other than the done store and the acknowledgement. *)
Definition quiet (e : event) : Prop :=
  is_go_done e = false /\ is_atomic_inc e = false.

(** The shape of the history, with what the program point adds to it. *)
Definition shape_inv (s : machine) : Prop :=
  done_only_after_slaves_done (trace s) /\
  (pc s = L_SED ->
   exists pre, trace s = pre ++ [Ev_sync_poll RUN_SYNC_MSG_ALL_SLAVES_DONE]) /\
  (pc s = L_notify ->
   exists pre, trace s = (pre ++ [Ev_sync_poll RUN_SYNC_MSG_ALL_SLAVES_DONE])
                         ++ [Ev_go_done]).

End Firmware.

(** ** A platform to run the firmware on

    Token values, ring capacity and address layout chosen for evaluating
    the firmware on concrete mailboxes: go/done and sync tokens are distinct,
    the ring has four entries, a NOC address carries the Y coordinate above
    the X coordinate above a 36-bit local address, and [NOC_X]/[NOC_Y] are
    the identity as in command_queue.hpp, lines 106-107.  The kernel at any
    address returns at once. *)
Definition sample_platform (blackhole : bool) : Platform := {|
  RUN_MSG_GO := 0x80;
  RUN_MSG_DONE := 0;
  RUN_SYNC_MSG_GO := 0x80;
  RUN_SYNC_MSG_ALL_SLAVES_DONE := 0;
  DISPATCH_MODE_DEV := 0;
  DISPATCH_CLASS_MASK_ETH_DM0 := 1;
  DISPATCH_CLASS_MASK_ETH_DM1 := 2;
  DISPATCH_CLASS_ETH_DM0 := 0;
  ProgrammableCoreType_IDLE_ETH := 2;
  EthProcessorTypes_DM0 := 0%nat;
  launch_msg_buffer_num_entries := 4;
  slave_sync_store_dm1 := fun all v => Z.lor (Z.land all 0xFFFFFF00) (Z.land v 0xFF);
  NUM_CIRCULAR_BUFFERS := 32;
  get_cb_tiles_received_ptr := fun operand => 0xFFB40000 + operand * 0x1000 + 0x28;
  get_cb_tiles_acked_ptr := fun operand => 0xFFB40000 + operand * 0x1000 + 0x2C;
  NOC_XY_ADDR := fun x y addr => Z.lor (Z.lor (Z.shiftl y 42) (Z.shiftl x 36)) addr;
  NOC_X := fun _ x => x;
  NOC_Y := fun _ y => y;
  DISPATCH_MESSAGE_ADDR := 0xFFB70000;
  NCRISC_AT_CMD_BUF := 3;
  NOC_UNICAST_WRITE_VC := 1;
  MEM_NOC_ATOMIC_RET_VAL_ADDR := 4;
  MEM_SLAVE_IERISC_FIRMWARE_BASE := 0x12000;
  ARCH_BLACKHOLE := blackhole;
  firmware_config_init := fun _ _ _ => 0x9000;
  RISC_POST_HEARTBEAT := fun h => wrap32 (h + 1);
  risc_init := fun r => r;
  noc_init := fun _ r => r;
  deassert_all_reset := fun r => r;
  kernel_at := fun _ _ r => Some r
|}.

(** A launch message with the given [enables] and [mode]. *)
Definition sample_launch_msg (en md : Z) : launch_msg_t :=
  Build_launch_msg (Build_kernel_config en 0 0 (fun _ => 0x140) md 7).

(** Memory as it may be found at power-on: four launch slots, the
    dispatcher at NOC coordinates (1, 2). *)
Definition sample_mailboxes (en md : Z) : mailboxes_t :=
  Build_mailboxes
    [sample_launch_msg en md; sample_launch_msg en md;
     sample_launch_msg en md; sample_launch_msg en md]
    3 (Build_go_msg 0x55 1 2 0) 0xDEAD.

Definition power_on (en md : Z) : machine :=
  Build_machine L_top (sample_mailboxes en md) (fun _ => 0xBAD) 0 0 0 0 0 [].

(** The dispatcher's go message for [power_on]. *)
Definition sample_go : go_msg_t := Build_go_msg 0x80 1 2 0.

(** Boot is followed by one launch: the loop head, the dispatcher's go, and
    the firmware steps up to the notification of the dispatcher. *)
Definition one_launch : list action :=
  [Fw; Env (Host_write_go sample_go); Fw; Fw; Fw; Fw; Fw; Fw].

(** [power_on] booted, the loop head passed and the go message written:
    the firmware is about to poll [go_message.signal]. *)
Definition go_posted (blackhole : bool) (en md : Z) : machine :=
  @run (sample_platform blackhole) [Fw; Env (Host_write_go sample_go)]
    (@main_init (sample_platform blackhole) (power_on en md)).

End IdleErisc.

(* ===================================================================== *)
(** * command_queue.hpp                                                   *)
(* ===================================================================== *)
Module CommandQueue.

(** [enum class TransferType : u8]: a value of the type is any byte; the
    enumerators name seven of them. *)
Definition TransferType := Z.
Definition TransferType_B : TransferType := 0.
Definition TransferType_N : TransferType := 1.
Definition TransferType_T0 : TransferType := 2.
Definition TransferType_T1 : TransferType := 3.
Definition TransferType_T2 : TransferType := 4.
Definition TransferType_CB : TransferType := 5.
Definition TransferType_SEM : TransferType := 6.

(** A call either returns or leaves through TT_THROW with a message. *)
Inductive result (A : Type) :=
| Returns (a : A)
| TT_THROW (msg : string).
Arguments Returns {A} a.
Arguments TT_THROW {A} msg.

Definition transfer_type_to_string (transfer_type : TransferType) : result string :=
  if transfer_type =? TransferType_B then Returns "B"%string
  else if transfer_type =? TransferType_N then Returns "NC"%string
  else if transfer_type =? TransferType_T0 then Returns "T0"%string
  else if transfer_type =? TransferType_T1 then Returns "T1"%string
  else if transfer_type =? TransferType_T2 then Returns "T2"%string
  else TT_THROW "Invalid riscv type"%string.

Section Multicast.
(** [NOC_ADDR_NODE_ID_BITS] comes from noc_parameters.h, which is not among
    the sources. *)
Variable NOC_ADDR_NODE_ID_BITS : Z.

(** The macro text; [<<] binds tighter than [|]. *)
Definition NOC_MULTICAST_ENCODING (x_start y_start x_end y_end : Z) : Z :=
  Z.lor
    (Z.lor
       (Z.lor (Z.shiftl x_start (2 * NOC_ADDR_NODE_ID_BITS))
              (Z.shiftl y_start (3 * NOC_ADDR_NODE_ID_BITS)))
       x_end)
    (Z.shiftl y_end NOC_ADDR_NODE_ID_BITS).

(** The encoding as it is stored: the [u32] slot of [transfer_info]. *)
Definition noc_multicast_encoding_u32 (x_start y_start x_end y_end : Z) : Z :=
  wrap32 (NOC_MULTICAST_ENCODING x_start y_start x_end y_end).

(** Field number [i] (from the least significant end) of an encoded word. *)
Definition node_id_field (i : Z) (w : Z) : Z :=
  Z.land (Z.shiftr w (i * NOC_ADDR_NODE_ID_BITS)) (Z.ones NOC_ADDR_NODE_ID_BITS).

(** Reads back [(x_start, y_start, x_end, y_end)]. *)
Definition multicast_decode (w : Z) : Z * Z * Z * Z :=
  (node_id_field 2 w, node_id_field 3 w, node_id_field 0 w, node_id_field 1 w).

End Multicast.

End CommandQueue.

(* ===================================================================== *)
(** * program.hpp                                                         *)
(* ===================================================================== *)
Module ProgramHpp.

(** The data members of [class Program] and the member functions whose
    bodies are in the header. *)
Section Program.
(** Kernels, buffers and semaphores are held by pointer; the pointee types
    and the coordinate and processor types are declared in other headers. *)
Variables Kernel ComputeKernel DataMovementKernel CircularBuffer Semaphore : Type.
Variables CoreCoord RISCV : Type.

(** [std::map<CoreCoord, std::map<RISCV, std::vector<u32>>>] *)
Definition RuntimeArgs : Type := list (CoreCoord * list (RISCV * list Z)).

Record KernelGroup := Build_KernelGroup {
  compute : option ComputeKernel;
  riscv_0 : option DataMovementKernel;
  riscv_1 : option DataMovementKernel
}.

Record Program := Build_Program {
  kernels_ : list Kernel;
  circular_buffers_ : list CircularBuffer;
  semaphores_ : list Semaphore;
  core_to_runtime_args_ : RuntimeArgs
}.

(** [Program() {}] *)
Definition Program_default : Program := Build_Program [] [] [] [].

(** A member function takes the object and gives back a result and the
    object after the call. *)
Definition method (A : Type) : Type := Program -> A * Program.

(** Bodies given in the header. *)
Definition kernels : method (list Kernel) := fun p => (kernels_ p, p).
Definition circular_buffers : method (list CircularBuffer) :=
  fun p => (circular_buffers_ p, p).
Definition semaphores : method (list Semaphore) := fun p => (semaphores_ p, p).
Definition runtime_args : method RuntimeArgs := fun p => (core_to_runtime_args_ p, p).

Definition add_kernel (kernel : Kernel) : method unit :=
  fun p => (tt, Build_Program (kernels_ p ++ [kernel]) (circular_buffers_ p)
                  (semaphores_ p) (core_to_runtime_args_ p)).
Definition add_circular_buffer (circular_buffer : CircularBuffer) : method unit :=
  fun p => (tt, Build_Program (kernels_ p) (circular_buffers_ p ++ [circular_buffer])
                  (semaphores_ p) (core_to_runtime_args_ p)).
Definition add_semaphore (semaphore : Semaphore) : method unit :=
  fun p => (tt, Build_Program (kernels_ p) (circular_buffers_ p)
                  (semaphores_ p ++ [semaphore]) (core_to_runtime_args_ p)).

End Program.

Arguments add_kernel {Kernel CircularBuffer Semaphore CoreCoord RISCV} kernel _.
Arguments kernels {Kernel CircularBuffer Semaphore CoreCoord RISCV} _.

End ProgramHpp.

(* ===================================================================== *)
(** * bmm_op_multi_core_reuse.cpp                                         *)
(* ===================================================================== *)
Module BmmMultiCoreReuse.

(** A call either gives a value, stops at a TT_ASSERT, or leaves defined
    behaviour (division by zero, overflow of an [int] loop counter). *)
Inductive outcome (A : Type) :=
| Ok (a : A)
| Assert_failed (line : Z)
| Undefined.
Arguments Ok {A} a.
Arguments Assert_failed {A} line.
Arguments Undefined {A}.

Definition bind {A B : Type} (o : outcome A) (k : A -> outcome B) : outcome B :=
  match o with
  | Ok a => k a
  | Assert_failed l => Assert_failed l
  | Undefined => Undefined
  end.

(** The call does not stop at a TT_ASSERT. *)
Definition no_assert {A : Type} (o : outcome A) : Prop :=
  forall l, o <> Assert_failed l.

Definition INT_MAX : Z := 2 ^ 31 - 1.

(** [int i = u] for a [uint32_t u], then [(std::size_t) i]. *)
Definition int_of_u32 (u : Z) : Z := if u <=? INT_MAX then u else u - 2 ^ 32.
Definition size_t_of_int (i : Z) : Z := i mod 2 ^ 64.

(** [tt_xy_pair] *)
Definition tt_xy_pair : Type := Z * Z.

Inductive DataMovementProcessor := RISCV_0 | RISCV_1.
Inductive NOC := RISCV_0_default | RISCV_1_default.
Inductive kernel_handle := mm_reader_kernel | unary_writer_kernel.

(** The calls into host_api.hpp, with their arguments other than the
    program and the device; the data format of every circular buffer is
    Float16_b and the math fidelity HiFi4.  [CreateComputeKernel] is handed
    [mm_args], the object [InitializeCompileTimeComputeKernelArgs] returned
    for [compute_kernel_args] just before: its [compile_args] are those. *)
Inductive api_call :=
| CreateCircularBuffer (index : Z) (core : tt_xy_pair)
    (num_tiles size_in_bytes l1_address : Z)
| CreateDataMovementKernel (file_name : string) (core : tt_xy_pair)
    (processor_type : DataMovementProcessor) (noc : NOC)
| InitializeCompileTimeComputeKernelArgs (core : tt_xy_pair) (compile_args : list Z)
| CreateComputeKernel (file_name : string) (core : tt_xy_pair)
    (compile_args : list Z) (fp32_dest_acc_en math_approx_mode : bool)
| WriteRuntimeArgsToDevice (kernel : kernel_handle) (core : tt_xy_pair)
    (runtime_args : list Z).

(** The [uint32_t] parameters of [create_program]. *)
Record params := Build_params {
  single_tile_size : Z;
  num_cores_x : Z;
  M : Z;
  N : Z;
  K : Z;
  in0_block_w : Z;
  out_subblock_h : Z;
  out_subblock_w : Z;
  per_core_M : Z;
  per_core_N : Z;
  in0_dram_addr : Z;
  in1_dram_addr : Z;
  out_dram_addr : Z
}.

Section CreateProgram.
(** TT_ASSERT checks its condition in builds with DEBUG and is empty
    otherwise. *)
Variable DEBUG : bool.

Definition TT_ASSERT {A : Type} (line : Z) (condition : bool) (k : outcome A) : outcome A :=
  if DEBUG && negb condition then Assert_failed line else k.

Variable p : params.

(** Lines 22-27. *)
Definition in0_block_tiles : Z := wrap32 (per_core_M p * in0_block_w p).
Definition in0_CB_size : Z := wrap32 (wrap32 (in0_block_tiles * 2) * single_tile_size p).
Definition in1_block_tiles : Z := wrap32 (per_core_N p * in0_block_w p).
Definition in1_CB_size : Z := wrap32 (wrap32 (in1_block_tiles * 2) * single_tile_size p).
Definition out_CB_tiles : Z := wrap32 (per_core_M p * per_core_N p).
Definition out_CB_size : Z := wrap32 (out_CB_tiles * single_tile_size p).

(** Lines 33-43. *)
Definition num_blocks : Z := K p / in0_block_w p.
Definition in0_num_subblocks : Z := per_core_M p / out_subblock_h p.
Definition in0_block_num_tiles : Z :=
  wrap32 (wrap32 (out_subblock_h p * in0_block_w p) * in0_num_subblocks).
Definition in0_subblock_num_tiles : Z := wrap32 (out_subblock_h p * in0_block_w p).
Definition in1_num_subblocks : Z := per_core_N p / out_subblock_w p.
Definition in1_block_num_tiles : Z :=
  wrap32 (wrap32 (out_subblock_w p * in0_block_w p) * in1_num_subblocks).
Definition in1_per_core_w : Z := wrap32 (out_subblock_w p * in1_num_subblocks).
Definition out_subblock_num_tiles : Z := wrap32 (out_subblock_h p * out_subblock_w p).

(** Lines 45-60. *)
Definition compute_kernel_args : list Z :=
  [ in0_block_w p; in0_num_subblocks; in0_block_num_tiles; in0_subblock_num_tiles;
    in1_num_subblocks; in1_block_num_tiles; in1_per_core_w;
    num_blocks;
    out_subblock_h p; out_subblock_w p; out_subblock_num_tiles ].

(** Lines 65-67: the core of the block numbered [num_blocks_read]. *)
Definition core_of_block (num_blocks_read : Z) : tt_xy_pair :=
  (size_t_of_int (int_of_u32 (num_blocks_read mod num_cores_x p)),
   size_t_of_int (int_of_u32 (num_blocks_read / num_cores_x p))).

(** Lines 68-102: the addresses handed out from [l1_valid_address]. *)
Definition l1_start : Z := 200 * 1024.
Definition src0_cb_addr : Z := l1_start.
Definition src1_cb_addr : Z := wrap32 (src0_cb_addr + in0_CB_size).
Definition output_cb_addr : Z := wrap32 (src1_cb_addr + in1_CB_size).
Definition l1_valid_address_end : Z := wrap32 (output_cb_addr + out_CB_size).
Definition cb0_tiles : Z := wrap32 (in0_block_tiles * 2).
Definition cb1_tiles : Z := wrap32 (in1_block_tiles * 2).

(** Lines 158-180. *)
Definition mm_reader_args (output_idx_y output_idx_x : Z) : list Z :=
  [ in0_dram_addr p;
    wrap32 (wrap32 (K p * per_core_M p) * output_idx_y);
    1;
    K p;
    in0_block_w p;
    in0_block_w p;
    per_core_M p;
    wrap32 (in0_block_w p * per_core_M p);
    in1_dram_addr p;
    wrap32 (per_core_N p * output_idx_x);
    1;
    N p;
    wrap32 (in0_block_w p * N p);
    per_core_N p;
    in0_block_w p;
    wrap32 (per_core_N p * in0_block_w p);
    K p / in0_block_w p ].

(** Lines 182-195. *)
Definition writer_args (output_idx_y output_idx_x : Z) : list Z :=
  [ out_dram_addr p;
    wrap32 (wrap32 (output_idx_x * per_core_N p)
            + wrap32 (wrap32 (output_idx_y * per_core_M p) * N p));
    1;
    N p;
    out_subblock_w p;
    wrap32 (out_subblock_h p * N p);
    out_subblock_w p;
    out_subblock_h p;
    wrap32 (out_subblock_w p * out_subblock_h p);
    per_core_N p / out_subblock_w p;
    per_core_M p / out_subblock_h p ].

(** Lines 65-198, one pass of the inner loop body: the calls. *)
Definition block_calls (num_blocks_read output_idx_y output_idx_x : Z) : list api_call :=
  let core := core_of_block num_blocks_read in
  [ CreateCircularBuffer 0 core cb0_tiles (wrap32 (cb0_tiles * single_tile_size p))
      src0_cb_addr;
    CreateCircularBuffer 1 core cb1_tiles (wrap32 (cb1_tiles * single_tile_size p))
      src1_cb_addr;
    CreateCircularBuffer 16 core out_CB_tiles out_CB_size output_cb_addr;
    CreateCircularBuffer 24 core out_CB_tiles out_CB_size output_cb_addr;
    CreateDataMovementKernel "kernels/dataflow/reader_matmul_tile_layout.cpp" core
      RISCV_1 RISCV_1_default;
    CreateDataMovementKernel "kernels/dataflow/writer_matmul_tile_layout.cpp" core
      RISCV_0 RISCV_0_default;
    InitializeCompileTimeComputeKernelArgs core compute_kernel_args;
    CreateComputeKernel "kernels/compute/matmul_large_block_zm.cpp" core
      compute_kernel_args false false;
    WriteRuntimeArgsToDevice mm_reader_kernel core
      (mm_reader_args output_idx_y output_idx_x);
    WriteRuntimeArgsToDevice unary_writer_kernel core
      (writer_args output_idx_y output_idx_x) ].

(** The same with the TT_ASSERT of line 126. *)
Definition block_body (num_blocks_read output_idx_y output_idx_x : Z)
    : outcome (list api_call) :=
  TT_ASSERT 126 (l1_valid_address_end <? 1024 * 1024)
    (Ok (block_calls num_blocks_read output_idx_y output_idx_x)).

(** The loops of lines 63-64 thread [num_blocks_read] and the calls made. *)
Definition loop_state : Type := Z * list api_call.

Definition inner_step (output_idx_y : Z) (st : outcome loop_state) (output_idx_x : Z)
    : outcome loop_state :=
  bind st (fun '(num_blocks_read, calls) =>
  bind (block_body num_blocks_read output_idx_y output_idx_x) (fun cs =>
  Ok (wrap32 (num_blocks_read + 1), calls ++ cs))).

Definition outer_step (st : outcome loop_state) (output_idx_y : Z) : outcome loop_state :=
  bind st (fun st0 =>
  if per_core_N p =? 0 then Undefined
  else if INT_MAX <? N p / per_core_N p then Undefined
  else if (0 <? N p / per_core_N p) && (num_cores_x p =? 0) then Undefined
  else fold_left (inner_step output_idx_y) (seqZ 0 (N p / per_core_N p)) (Ok st0)).

(** [create_program]: the calls it makes on the new Program, in order. *)
Definition create_program : outcome (list api_call) :=
  TT_ASSERT 28 (in0_CB_size <=? 130 * 1024)
  (TT_ASSERT 29 (in1_CB_size <=? 130 * 1024)
  (TT_ASSERT 30 (out_CB_size <=? 540 * 1024)
  (if (in0_block_w p =? 0) || (out_subblock_h p =? 0) || (out_subblock_w p =? 0)
      || (per_core_M p =? 0)
   then Undefined
   else if INT_MAX <? M p / per_core_M p then Undefined
   else
     bind (fold_left outer_step (seqZ 0 (M p / per_core_M p)) (Ok (0, [])))
          (fun st => Ok (snd st))))).

End CreateProgram.

(** The cores named by the compute kernels of a list of calls. *)
Definition compute_cores (calls : list api_call) : list tt_xy_pair :=
  flat_map (fun c => match c with
                     | CreateComputeKernel _ core _ _ _ => [core]
                     | _ => []
                     end) calls.

(** The circular buffers created on a core: (index, address, size). *)
Definition cbs_on (core : tt_xy_pair) (calls : list api_call) : list (Z * Z * Z) :=
  flat_map (fun c => match c with
                     | CreateCircularBuffer i c' _ sz addr =>
                         if (fst c' =? fst core) && (snd c' =? snd core)
                         then [(i, addr, sz)] else []
                     | _ => []
                     end) calls.

(** Every parameter is a [uint32_t]. *)
Definition is_u32 (z : Z) : Prop := 0 <= z < 2 ^ 32.

Definition params_u32 (p : params) : Prop :=
  is_u32 (single_tile_size p) /\ is_u32 (num_cores_x p) /\
  is_u32 (M p) /\ is_u32 (N p) /\ is_u32 (K p) /\
  is_u32 (in0_block_w p) /\ is_u32 (out_subblock_h p) /\ is_u32 (out_subblock_w p) /\
  is_u32 (per_core_M p) /\ is_u32 (per_core_N p) /\
  is_u32 (in0_dram_addr p) /\ is_u32 (in1_dram_addr p) /\ is_u32 (out_dram_addr p).

(** ** matmul_multi_core_reuse_: what it hands to create_program

    [TILE_HEIGHT] and [TILE_WIDTH] come from common/constants.hpp, which is
    not among the sources. *)
Section Matmul.
Variables TILE_HEIGHT TILE_WIDTH : Z.

(** A shape is [std::array<uint32_t, 4>]. *)
Definition shape4 : Type := Z * Z * Z * Z.
Definition dim0 (s : shape4) : Z := fst (fst (fst s)).
Definition dim1 (s : shape4) : Z := snd (fst (fst s)).
Definition dim2 (s : shape4) : Z := snd (fst s).
Definition dim3 (s : shape4) : Z := snd s.

(** The conditions on the shapes asserted at lines 225-241 and 258-260. *)
Definition shape_asserts (bcast_batch : bool) (ashape bshape : shape4) : bool :=
  (if bcast_batch then wrap32 (dim0 bshape * dim1 bshape) =? 1
   else (dim1 ashape =? dim1 bshape) && (dim0 ashape =? dim0 bshape))
  && (wrap32 (dim0 ashape * dim1 ashape) =? 1)
  && (wrap32 (dim0 bshape * dim1 bshape) =? 1)
  && (dim3 ashape =? dim2 bshape)
  && (dim2 ashape mod TILE_HEIGHT =? 0)
  && (dim3 ashape mod TILE_WIDTH =? 0)
  && (dim2 bshape mod TILE_HEIGHT =? 0)
  && (dim3 bshape mod TILE_WIDTH =? 0)
  && ((dim2 ashape / TILE_HEIGHT) mod 16 =? 0)
  && ((dim3 bshape / TILE_WIDTH) mod 16 =? 0)
  && ((dim3 ashape / TILE_WIDTH) mod 2 =? 0).

(** Lines 222, 249-256 and 294-303: the arguments of the call of
    create_program. *)
Definition matmul_params (ashape bshape : shape4)
    (num_cores_x in0_dram_addr in1_dram_addr out_dram_addr : Z) : params :=
  let Mt := dim2 ashape / TILE_HEIGHT in
  let Kt := dim3 ashape / TILE_WIDTH in
  let Nt := dim3 bshape / TILE_WIDTH in
  Build_params (2 * 1024) num_cores_x Mt Nt Kt 2 4 2 16 16
    in0_dram_addr in1_dram_addr out_dram_addr.

(** Line 268. *)
Definition num_blocks_total (ashape bshape : shape4) : Z :=
  wrap32 ((dim2 ashape / TILE_HEIGHT / 16) * (dim3 bshape / TILE_WIDTH / 16)).

(** Line 274. *)
Definition cshape (ashape bshape : shape4) : shape4 :=
  (dim0 ashape, dim1 ashape, dim2 ashape, dim3 bshape).

End Matmul.

End BmmMultiCoreReuse.

(* ===================================================================== *)
(** * program.hpp: the private adders                                     *)
(* ===================================================================== *)
Module ProgramAdders.
Import ProgramHpp.

Section Adders.
Variables Kernel CircularBuffer Semaphore CoreCoord RISCV : Type.

(** A call of one of the three private adders, which the friend functions
    ([CreateDataMovementKernel], [CreateComputeKernel],
    [CreateCircularBuffers], [CreateSemaphore]) use to fill a program. *)
Inductive add_call :=
| Add_kernel (kernel : Kernel)
| Add_circular_buffer (circular_buffer : CircularBuffer)
| Add_semaphore (semaphore : Semaphore).

Definition run_add (c : add_call)
  : method Kernel CircularBuffer Semaphore CoreCoord RISCV unit :=
  match c with
  | Add_kernel kernel => add_kernel kernel
  | Add_circular_buffer circular_buffer =>
      add_circular_buffer Kernel CircularBuffer Semaphore CoreCoord RISCV circular_buffer
  | Add_semaphore semaphore =>
      add_semaphore Kernel CircularBuffer Semaphore CoreCoord RISCV semaphore
  end.

(** The calls one after the other on the same object. *)
Definition run_adds (cs : list add_call)
    (p : Program Kernel CircularBuffer Semaphore CoreCoord RISCV)
  : Program Kernel CircularBuffer Semaphore CoreCoord RISCV :=
  fold_left (fun q c => snd (run_add c q)) cs p.

Definition added_kernels (cs : list add_call) : list Kernel :=
  flat_map (fun c => match c with Add_kernel k => [k] | _ => [] end) cs.
Definition added_circular_buffers (cs : list add_call) : list CircularBuffer :=
  flat_map (fun c => match c with Add_circular_buffer b => [b] | _ => [] end) cs.
Definition added_semaphores (cs : list add_call) : list Semaphore :=
  flat_map (fun c => match c with Add_semaphore s => [s] | _ => [] end) cs.

End Adders.

Arguments Add_kernel {Kernel CircularBuffer Semaphore} kernel.
Arguments Add_circular_buffer {Kernel CircularBuffer Semaphore} circular_buffer.
Arguments Add_semaphore {Kernel CircularBuffer Semaphore} semaphore.
Arguments run_adds {Kernel CircularBuffer Semaphore CoreCoord RISCV} cs p.
Arguments added_kernels {Kernel CircularBuffer Semaphore} cs.
Arguments added_circular_buffers {Kernel CircularBuffer Semaphore} cs.
Arguments added_semaphores {Kernel CircularBuffer Semaphore} cs.

End ProgramAdders.

(* ===================================================================== *)
(** * transpose.cpp                                                       *)
(* ===================================================================== *)
Module Transpose.

(** [TransposeOpDim] and [Layout] are declared in other headers; these are
    the enumerators the source uses. *)
Inductive TransposeOpDim := WH | HC | CN | NH | NW | CW.
Inductive Layout := ROW_MAJOR | TILE.

(** The two axes an enumerator names, N = 0, C = 1, H = 2, W = 3, lower
    axis first. *)
Definition axes (d : TransposeOpDim) : Z * Z :=
  match d with
  | WH => (2, 3)
  | HC => (1, 2)
  | CN => (0, 1)
  | NH => (0, 2)
  | NW => (0, 3)
  | CW => (1, 3)
  end.

(** What [transpose_] reads of its tensor argument. *)
Record tensor := Build_tensor {
  get_layout : Layout;
  element_size : Z;
  padded_shape_m1 : Z;           (* a.get_padded_shape()[-1] *)
  padded_shape_m2 : Z;           (* a.get_padded_shape()[-2] *)
  shape_m2 : Z;                  (* a.shape()[-2] *)
  BUFFER_ALIGNMENT : Z;          (* DRAM_ALIGNMENT or L1_ALIGNMENT, by buffer type *)
  arch_is_GRAYSKULL : bool;
  is_sharded : bool;
  rm_enough_available_space : bool
}.

(** What [transpose_] ends in: [ttnn::permute] with a permutation, or the
    [Transpose] device operation, on the tensor itself or on its conversion
    to tiles (and back). *)
Inductive plan :=
| Permute (permutation : list Z)
| Run (via_tile : bool) (transpose_dim : TransposeOpDim).

Section Transpose_.
Variable FACE_WIDTH : Z.

Definition tiled_only (a : tensor) (transpose_dim : TransposeOpDim) : bool :=
  let W := padded_shape_m1 a in
  let H := padded_shape_m2 a in
  match transpose_dim with
  | HC =>
      let tiled_only := match get_layout a with TILE => true | ROW_MAJOR => false end in
      if negb tiled_only
         && negb (wrap32 (W * element_size a) mod BUFFER_ALIGNMENT a =? 0)
      then true else tiled_only
  | CN => true
  | WH =>
      if negb (wrap32 (W * element_size a) mod FACE_WIDTH =? 0)
         || negb (wrap32 (H * element_size a) mod FACE_WIDTH =? 0)
      then true
      else if arch_is_GRAYSKULL a then shape_m2 a >? 256
      else if negb (is_sharded a)
              && match get_layout a with ROW_MAJOR => true | TILE => false end
              && negb (rm_enough_available_space a)
      then true
      else false
  | _ => false
  end.

Definition transpose_ (a : tensor) (transpose_dim : TransposeOpDim) : plan :=
  match transpose_dim with
  | NH => Permute [2; 1; 0; 3]
  | NW => Permute [3; 1; 2; 0]
  | CW => Permute [0; 3; 2; 1]
  | _ =>
      match get_layout a with
      | ROW_MAJOR =>
          if tiled_only a transpose_dim then Run true transpose_dim
          else Run false transpose_dim
      | TILE => Run false transpose_dim
      end
  end.

(** ** [transpose_nd] *)

(** [std::swap(v[i], v[j])]; an index outside the vector is undefined. *)
Definition swap (v : list Z) (i j : nat) : option (list Z) :=
  match v !! i, v !! j with
  | Some a, Some b => Some (<[j := a]> (<[i := b]> v))
  | _, _ => None
  end.

Definition transpose_nd (rank dim1 dim2 : Z) : option (list Z) :=
  let permutation := seqZ 0 rank in
  swap permutation (Z.to_nat dim1) (Z.to_nat dim2).

(** ** [ExecuteTranspose::invoke] *)

(** The lambda handed to [launch_with_autoformat]. *)
Inductive launched :=
| TT_FATAL (msg : string)
| Assert_false (msg : string)
| Moved_to_mem_config
| Transposed (p : plan).

Variable DEBUG : bool.

Definition launch (a : tensor) (padded_shape : Z -> Z)
    (normalized_dim1 normalized_dim2 : Z) : launched :=
  if negb (normalized_dim1 <=? 3)
  then TT_FATAL "dimension has to be 0-3 only corresponding to N,C,H,W"
  else if negb (normalized_dim2 <=? 3)
  then TT_FATAL "dimension has to be 0-3 only corresponding to N,C,H,W"
  else if (normalized_dim1 =? normalized_dim2)
          || ((padded_shape normalized_dim1 =? 1) && (padded_shape normalized_dim2 =? 1))
  then Moved_to_mem_config
  else
    let '(normalized_dim1, normalized_dim2) :=
      if normalized_dim1 >? normalized_dim2
      then (normalized_dim2, normalized_dim1)
      else (normalized_dim1, normalized_dim2) in
    if (normalized_dim2 =? 3) && (normalized_dim1 =? 0) then Transposed (transpose_ a NW)
    else if (normalized_dim2 =? 3) && (normalized_dim1 =? 1) then Transposed (transpose_ a CW)
    else if (normalized_dim2 =? 3) && (normalized_dim1 =? 2) then Transposed (transpose_ a WH)
    else if (normalized_dim2 =? 2) && (normalized_dim1 =? 0) then Transposed (transpose_ a NH)
    else if (normalized_dim2 =? 2) && (normalized_dim1 =? 1) then Transposed (transpose_ a HC)
    else if (normalized_dim2 =? 1) && (normalized_dim1 =? 0) then Transposed (transpose_ a CN)
    else if DEBUG then Assert_false "Unsupported transpose dims"
    else Transposed (transpose_ a NW).

Inductive invoked :=
| Through_transpose_nd (permutation : option (list Z))
| Through_launch (typecast : bool) (r : launched) (squeeze_from_4D : bool).

(** [normalized_dim1], [normalized_dim2] are what [get_normalized_index]
    returned, [dtype_is_BFLOAT8_B] and [input_is_sharded] are read from the
    input brought to rank 4; [a] and [padded_shape] describe the tensor the
    lambda gets. *)
Definition invoke (initial_rank normalized_dim1 normalized_dim2 : Z)
    (dtype_is_BFLOAT8_B input_is_sharded : bool) (a : tensor) (padded_shape : Z -> Z)
  : invoked :=
  let continue normalized_dim1 normalized_dim2 :=
    let wh := (normalized_dim1 =? 2) && (normalized_dim2 =? 3)
              || (normalized_dim2 =? 2) && (normalized_dim1 =? 3) in
    let cn := (normalized_dim1 =? 0) && (normalized_dim2 =? 1)
              || (normalized_dim2 =? 0) && (normalized_dim1 =? 1) in
    let bfloat8_supported := cn || wh in
    let typecast := dtype_is_BFLOAT8_B && negb bfloat8_supported && negb input_is_sharded in
    Through_launch typecast (launch a padded_shape normalized_dim1 normalized_dim2)
                   (initial_rank <? 4) in
  if initial_rank <? 4 then
    let rank_diff := wrap32 (4 - initial_rank) in
    continue (wrap32 (normalized_dim1 + rank_diff)) (wrap32 (normalized_dim2 + rank_diff))
  else if initial_rank >? 4 then
    Through_transpose_nd (transpose_nd initial_rank normalized_dim1 normalized_dim2)
  else continue normalized_dim1 normalized_dim2.

End Transpose_.

(** The plan runs the device operation along [d]. *)
Definition runs_along (d : TransposeOpDim) (r : launched) : Prop :=
  exists via_tile, r = Transposed (Run via_tile d).

End Transpose.

(* ===================================================================== *)
(** * Properties of the dispatch firmware                                 *)
(* ===================================================================== *)
Import IdleErisc.

Ltac unfold_fw :=
  unfold fw_step, wait_go, decode_launch, run_kernel, kernel_address,
    wait_slave_eriscs, signal_done, notify_dispatcher, env_step,
    set_pc, set_regs, set_mailboxes, set_heartbeat, emit in *.

Section FirmwareFacts.
Context `{P : Platform}.

Lemma run_snoc (sched : list action) (a : action) (s : machine) :
  run (sched ++ [a]) s = step (run sched s) a.
Proof. unfold run. now rewrite fold_left_app. Qed.

Lemma run_app (sched1 sched2 : list action) (s : machine) :
  run (sched1 ++ sched2) s = run sched2 (run sched1 s).
Proof. unfold run. now rewrite fold_left_app. Qed.

Lemma env_run_snoc (es : list env_action) (e : env_action) (s : machine) :
  env_run (es ++ [e]) s = env_step e (env_run es s).
Proof. unfold env_run. rewrite map_app. simpl. now rewrite run_snoc. Qed.

(** Writes of the other agents touch the mailbox only. *)
Lemma env_step_frame (e : env_action) (s : machine) :
  pc (env_step e s) = pc s /\ regs (env_step e s) = regs s /\
  trace (env_step e s) = trace s /\
  l_launch_msg_rd_ptr (env_step e s) = l_launch_msg_rd_ptr s /\
  l_enables (env_step e s) = l_enables s /\
  l_kernel_config_base (env_step e s) = l_kernel_config_base s /\
  noc_index (env_step e s) = noc_index s /\
  launch_msg_rd_ptr (mailboxes (env_step e s)) = launch_msg_rd_ptr (mailboxes s) /\
  length (launch (mailboxes (env_step e s))) = length (launch (mailboxes s)).
Proof.
  destruct e; simpl; repeat split; try reflexivity.
  apply length_insert.
Qed.

Lemma env_run_frame (es : list env_action) (s : machine) :
  pc (env_run es s) = pc s /\ regs (env_run es s) = regs s /\
  trace (env_run es s) = trace s /\
  l_launch_msg_rd_ptr (env_run es s) = l_launch_msg_rd_ptr s /\
  l_enables (env_run es s) = l_enables s /\
  l_kernel_config_base (env_run es s) = l_kernel_config_base s /\
  noc_index (env_run es s) = noc_index s /\
  launch_msg_rd_ptr (mailboxes (env_run es s)) = launch_msg_rd_ptr (mailboxes s) /\
  length (launch (mailboxes (env_run es s))) = length (launch (mailboxes s)).
Proof.
  induction es as [|e es IH] using rev_ind.
  - repeat split; reflexivity.
  - rewrite env_run_snoc.
    destruct (env_step_frame e (env_run es s)) as (a1 & a2 & a3 & a4 & a5 & a6 & a7 & a8 & a9).
    destruct IH as (b1 & b2 & b3 & b4 & b5 & b6 & b7 & b8 & b9).
    repeat split; congruence.
Qed.

(** *** init_sync_registers *)

Lemma init_sync_operand_keeps_zero (r : regfile) (operand a : Z) :
  r a = 0 -> init_sync_operand r operand a = 0.
Proof.
  intros H. unfold init_sync_operand, WRITE_REG.
  repeat case_match; auto.
Qed.

Lemma init_sync_operand_clears (r : regfile) (operand : Z) :
  init_sync_operand r operand (get_cb_tiles_received_ptr operand) = 0 /\
  init_sync_operand r operand (get_cb_tiles_acked_ptr operand) = 0.
Proof.
  unfold init_sync_operand, WRITE_REG. split.
  - rewrite Z.eqb_refl. now case_match.
  - now rewrite Z.eqb_refl.
Qed.

Lemma fold_init_sync_keeps_zero (l : list Z) (r : regfile) (a : Z) :
  r a = 0 -> fold_left init_sync_operand l r a = 0.
Proof.
  revert r. induction l as [|x l IH]; intros r H; simpl; auto.
  apply IH. now apply init_sync_operand_keeps_zero.
Qed.

Lemma fold_init_sync_clears (l : list Z) (r : regfile) (operand : Z) :
  In operand l ->
  fold_left init_sync_operand l r (get_cb_tiles_received_ptr operand) = 0 /\
  fold_left init_sync_operand l r (get_cb_tiles_acked_ptr operand) = 0.
Proof.
  revert r. induction l as [|x l IH]; intros r Hin; simpl in *; [tauto|].
  destruct Hin as [->|Hin]; [|now apply IH].
  split; apply fold_init_sync_keeps_zero; apply init_sync_operand_clears.
Qed.

Lemma init_sync_registers_clears (r : regfile) (operand : Z) :
  0 <= operand < NUM_CIRCULAR_BUFFERS ->
  init_sync_registers r (get_cb_tiles_received_ptr operand) = 0 /\
  init_sync_registers r (get_cb_tiles_acked_ptr operand) = 0.
Proof.
  intros H. apply fold_init_sync_clears.
  apply list_elem_of_In, elem_of_seqZ. lia.
Qed.

(** The registers stay as [init_sync_registers] left them while the
    firmware waits for the go signal. *)
Lemma regs_at_go_wait (sched : list action) (s0 : machine) :
  pc (run sched (main_init s0)) = L_GW \/ pc (run sched (main_init s0)) = L_GD ->
  exists r, regs (run sched (main_init s0)) = init_sync_registers r.
Proof.
  induction sched as [|a sched IH] using rev_ind.
  - intros [H|H]; discriminate H.
  - rewrite run_snoc.
    set (s := run sched (main_init s0)) in *.
    destruct a as [|e]; unfold step.
    + intros H. destruct (pc s) eqn:Hpc; unfold_fw; rewrite ?Hpc in *; simpl in *;
        repeat case_match; simpl in *; try (destruct H; discriminate);
        try (apply IH; auto; fail).
      eexists; reflexivity.
    + destruct (env_step_frame e s) as (-> & -> & _). exact IH.
Qed.

End FirmwareFacts.

Section FirmwareInvariants.
Context `{P : Platform}.

Lemma count_snoc (f : event -> bool) (t : list event) (e : event) :
  count f (t ++ [e]) = (count f t + if f e then 1 else 0)%nat.
Proof.
  unfold count. rewrite List.filter_app, length_app. simpl.
  destruct (f e); reflexivity.
Qed.

Lemma count_app (f : event -> bool) (t u : list event) :
  count f (t ++ u) = (count f t + count f u)%nat.
Proof. unfold count. now rewrite List.filter_app, length_app. Qed.

(** *** The read pointer *)

Lemma rd_ptr_bitmask (n k : Z) :
  0 <= n < 32 -> 0 <= k ->
  Z.land (wrap32 (k mod 2 ^ n + 1)) (wrap32 (2 ^ n - 1)) = (k + 1) mod 2 ^ n.
Proof.
  intros Hn Hk.
  assert (H0 : 0 < 2 ^ n) by (apply Z.pow_pos_nonneg; lia).
  assert (H1 : 2 ^ n <= 2 ^ 31) by (apply Z.pow_le_mono_r; lia).
  assert (H2 : (2 : Z) ^ 31 < 2 ^ 32) by (apply Z.pow_lt_mono_r; lia).
  pose proof (Z.mod_pos_bound k (2 ^ n) H0) as Hb.
  unfold wrap32.
  rewrite (Z.mod_small (k mod 2 ^ n + 1)) by lia.
  rewrite (Z.mod_small (2 ^ n - 1)) by lia.
  replace (2 ^ n - 1) with (Z.ones n) by (rewrite Z.ones_equiv; lia).
  rewrite Z.land_ones by lia.
  now rewrite Zplus_mod_idemp_l.
Qed.

(** The locals of the loop body agree with the mailbox while a launch is
    in flight, and the slot they point at is inside the ring. *)
Lemma locals_in_flight (sched : list action) (s0 : machine) :
  in_flight (pc (run sched (main_init s0))) = true ->
  l_launch_msg_rd_ptr (run sched (main_init s0))
  = launch_msg_rd_ptr (mailboxes (run sched (main_init s0))) /\
  (Z.to_nat (l_launch_msg_rd_ptr (run sched (main_init s0)))
   < length (launch (mailboxes (run sched (main_init s0)))))%nat.
Proof.
  induction sched as [|a sched IH] using rev_ind.
  - discriminate.
  - rewrite run_snoc.
    set (s := run sched (main_init s0)) in *.
    destruct a as [|e]; unfold step.
    + destruct (pc s) eqn:Hpc; unfold_fw; rewrite ?Hpc in *; simpl in *;
        unfold run_slave_eriscs, set_slave_sync_all, set_signal, set_launch,
          set_launch_msg_rd_ptr in *;
        repeat case_match; simpl in *; try discriminate; intros _;
        try (apply IH; reflexivity);
        try (split; [reflexivity | eapply lookup_lt_Some; eassumption]).
      all: destruct (IH eq_refl) as [? ?]; exfalso;
        match goal with
        | H : _ !! _ = None |- _ => apply lookup_ge_None in H; lia
        end.
    + destruct (env_step_frame e s) as (-> & _ & _ & -> & _ & _ & _ & -> & ->).
      exact IH.
Qed.

Lemma rd_ptr_invariant (n : Z) (sched : list action) (s0 : machine) :
  0 <= n < 32 ->
  launch_msg_buffer_num_entries = 2 ^ n ->
  launch_msg_rd_ptr (mailboxes (run sched (main_init s0)))
  = Z.of_nat (dev_launches (trace (run sched (main_init s0))))
    mod launch_msg_buffer_num_entries.
Proof.
  intros Hn HN.
  induction sched as [|a sched IH] using rev_ind.
  - simpl. rewrite Z.mod_0_l; [reflexivity|]. rewrite HN.
    apply Z.pow_nonzero; lia.
  - pose proof (locals_in_flight sched s0) as Hloc.
    rewrite run_snoc.
    set (s := run sched (main_init s0)) in *.
    destruct a as [|e]; unfold step.
    + destruct (pc s) eqn:Hpc; unfold_fw; rewrite ?Hpc in *; simpl in *;
        unfold run_slave_eriscs, set_slave_sync_all, set_signal, set_launch,
          set_launch_msg_rd_ptr, dev_launches in *;
        repeat case_match; simpl in *; rewrite ?count_snoc; simpl;
        rewrite ?Nat.add_0_r; try exact IH.
      all: match goal with H : (_ =? DISPATCH_MODE_DEV) = _ |- _ => rewrite H end;
        simpl; rewrite ?Nat.add_0_r; try exact IH.
      (* DISPATCH_MODE_DEV: the pointer advances *)
      all: destruct (Hloc eq_refl) as [Hl _]; rewrite Hl, IH, HN;
        rewrite rd_ptr_bitmask by lia; f_equal; lia.
    + destruct (env_step_frame e s) as (_ & _ & -> & _ & _ & _ & _ & -> & _).
      exact IH.
Qed.

(** Nobody changes the number of slots of the ring. *)
Lemma launch_length_invariant (sched : list action) (s0 : machine) :
  length (launch (mailboxes (run sched (main_init s0))))
  = length (launch (mailboxes s0)).
Proof.
  induction sched as [|a sched IH] using rev_ind.
  - reflexivity.
  - rewrite run_snoc.
    set (s := run sched (main_init s0)) in *.
    destruct a as [|e]; unfold step.
    + destruct (pc s) eqn:Hpc; unfold_fw; rewrite ?Hpc; simpl;
        unfold run_slave_eriscs, set_slave_sync_all, set_signal, set_launch,
          set_launch_msg_rd_ptr;
        repeat case_match; simpl; rewrite ?length_insert; exact IH.
    + destruct (env_step_frame e s) as (_ & _ & _ & _ & _ & _ & _ & _ & ->).
      exact IH.
Qed.

(** Without ARCH_BLACKHOLE the loop body is entered once: lines 175-177
    keep the firmware after its first launch. *)
Lemma non_blackhole_single_launch (sched : list action) (s0 : machine) :
  ARCH_BLACKHOLE = false ->
  (count is_go_seen (trace (run sched (main_init s0))) <= 1)%nat /\
  (pc (run sched (main_init s0)) = L_top \/ pc (run sched (main_init s0)) = L_GW ->
   count is_go_seen (trace (run sched (main_init s0))) = 0%nat).
Proof.
  intros Hbh.
  induction sched as [|a sched IH] using rev_ind.
  - split; [unfold count; simpl; lia | reflexivity].
  - rewrite run_snoc.
    set (s := run sched (main_init s0)) in *.
    destruct IH as [IH1 IH2].
    destruct a as [|e]; unfold step.
    + destruct (pc s) eqn:Hpc; unfold_fw; rewrite ?Hpc; simpl;
        repeat case_match; simpl; rewrite ?count_snoc; simpl;
        rewrite ?Nat.add_0_r;
        try (split; [exact IH1 | intros [Hc|Hc]; try discriminate Hc; auto; fail]);
        try congruence.
      * (* go seen *)
        rewrite IH2 by auto.
        match goal with H : (_ =? RUN_MSG_GO) = true |- _ => rewrite H end.
        split; [simpl; lia | intros [Hc|Hc]; discriminate Hc].
      * match goal with H : (_ =? RUN_MSG_GO) = false |- _ => rewrite H end.
        rewrite Nat.add_0_r. split; [exact IH1 | intros _; auto].
    + destruct (env_step_frame e s) as (-> & _ & -> & _).
      split; assumption.
Qed.

End FirmwareInvariants.

Section TraceShape.
Context `{P : Platform}.

Lemma snoc_decompose (t pre post : list event) (e x : event) :
  t ++ [e] = pre ++ x :: post ->
  (post = [] /\ pre = t /\ x = e) \/
  (exists post', post = post' ++ [e] /\ t = pre ++ x :: post').
Proof.
  destruct post as [|p post' _] using rev_ind; intros H.
  - left. apply app_inj_tail in H. destruct H; auto.
  - right. exists post'.
    change (pre ++ x :: post' ++ [p]) with (pre ++ (x :: post') ++ [p]) in H.
    rewrite app_assoc in H. apply app_inj_tail in H.
    destruct H as [-> ->]. auto.
Qed.

Lemma shape_quiet (t : list event) (e : event) :
  quiet e -> done_only_after_slaves_done t -> done_only_after_slaves_done (t ++ [e]).
Proof.
  intros [Q1 Q2] [H1 H2]. split.
  - intros pre post E. apply snoc_decompose in E as [(_ & _ & E)|(post' & _ & E)].
    + rewrite <- E in Q1. discriminate Q1.
    + eapply H1; exact E.
  - intros pre post ? ? ? ? ? ? ? E.
    apply snoc_decompose in E as [(_ & _ & E)|(post' & _ & E)].
    + rewrite <- E in Q2. discriminate Q2.
    + eapply H2; exact E.
Qed.

Lemma shape_go_done (t : list event) :
  done_only_after_slaves_done (t ++ [Ev_sync_poll RUN_SYNC_MSG_ALL_SLAVES_DONE]) ->
  done_only_after_slaves_done
    ((t ++ [Ev_sync_poll RUN_SYNC_MSG_ALL_SLAVES_DONE]) ++ [Ev_go_done]).
Proof.
  intros [H1 H2]. split.
  - intros pre post E. apply snoc_decompose in E as [(_ & -> & _)|(post' & _ & E)].
    + eexists; reflexivity.
    + eapply H1; exact E.
  - intros pre post ? ? ? ? ? ? ? E.
    apply snoc_decompose in E as [(_ & _ & E)|(post' & _ & E)].
    + discriminate E.
    + eapply H2; exact E.
Qed.

Lemma shape_atomic_inc (t : list event) (m noc cmd_buf addr vc incr wrap : Z)
    (linked : bool) :
  let t' := ((t ++ [Ev_sync_poll RUN_SYNC_MSG_ALL_SLAVES_DONE]) ++ [Ev_go_done])
            ++ [Ev_mode_read m] in
  done_only_after_slaves_done t' ->
  done_only_after_slaves_done
    (t' ++ [Ev_atomic_inc noc cmd_buf addr vc incr wrap linked]).
Proof.
  intros t' [H1 H2]. split.
  - intros pre post E. apply snoc_decompose in E as [(_ & _ & E)|(post' & _ & E)].
    + discriminate E.
    + eapply H1; exact E.
  - intros pre post ? ? ? ? ? ? ? E.
    apply snoc_decompose in E as [(_ & -> & _)|(post' & _ & E)].
    + exists t, m. unfold t'. now rewrite <- !app_assoc.
    + eapply H2; exact E.
Qed.

Lemma shape_inv_fw_step (s : machine) : shape_inv s -> shape_inv (fw_step s).
Proof.
  intros (Hs & Hsed & Hnot).
  assert (Hq : forall e, quiet e -> done_only_after_slaves_done (trace s ++ [e]))
    by (intros e He; now apply shape_quiet).
  destruct (pc s) eqn:Hpc; unfold shape_inv; unfold_fw; rewrite ?Hpc; simpl.
  - (* L_top *) split; [exact Hs | split; discriminate].
  - (* L_GW *)
    case_match; simpl; (split; [apply Hq; split; reflexivity|]); split; discriminate.
  - (* L_GD *)
    case_match; simpl; (split; [exact Hs|]); split; discriminate.
  - (* L_R *)
    repeat case_match; simpl;
      (split; [first [exact Hs | apply Hq; split; reflexivity]|]);
      split; discriminate.
  - (* L_SEW *)
    case_match eqn:E; simpl.
    + apply Z.eqb_eq in E. rewrite E.
      split; [apply Hq; split; reflexivity|].
      split; [intros _; eexists; reflexivity | discriminate].
    + split; [apply Hq; split; reflexivity|].
      split; intros Hc; try rewrite Hpc in Hc; discriminate Hc.
  - (* L_SED *)
    destruct (Hsed eq_refl) as [pre Hpre]. rewrite Hpre in *.
    split; [now apply shape_go_done|]. split; [discriminate|].
    intros _. eexists; reflexivity.
  - (* L_notify *)
    destruct (Hnot eq_refl) as [pre Hpre]. rewrite Hpre in *.
    repeat case_match; simpl;
      (split; [first [apply shape_atomic_inc; apply Hq; split; reflexivity
                     | apply Hq; split; reflexivity | exact Hs]|]);
      split; discriminate.
  - (* L_idle_forever *)
    split; [exact Hs|]. split; intros Hc; try rewrite Hpc in Hc; discriminate Hc.
  - (* L_in_kernel *)
    rewrite ?Hpc. split; [exact Hs|]. split; intros Hc; try rewrite Hpc in Hc; discriminate Hc.
  - (* L_undefined *)
    rewrite ?Hpc. split; [exact Hs|]. split; intros Hc; try rewrite Hpc in Hc; discriminate Hc.
Qed.

Lemma shape_inv_reachable (sched : list action) (s0 : machine) :
  shape_inv (run sched (main_init s0)).
Proof.
  induction sched as [|a sched IH] using rev_ind.
  - split; [|split; discriminate].
    split; intros; destruct pre; discriminate.
  - rewrite run_snoc. destruct a as [|e]; unfold step.
    + now apply shape_inv_fw_step.
    + unfold shape_inv.
      destruct (env_step_frame e (run sched (main_init s0))) as (-> & _ & -> & _).
      exact IH.
Qed.

End TraceShape.

(* ===================================================================== *)
(** * The claims about the dispatch firmware                              *)
(* ===================================================================== *)

(** C2. With a ring of [N = 2^n] launch messages, after any run of the
    firmware from boot the mailbox field [launch_msg_rd_ptr] equals
    [k mod N], where [k] is the number of launches completed with
    [mode == DISPATCH_MODE_DEV]; and the step that completes such a launch
    moves the pointer from [rd] to [(rd + 1) & (N - 1)], which is
    [(rd + 1) mod N], and makes [k] one larger. *)
Theorem launch_msg_rd_ptr_counts_dev_launches
    `{P : Platform} (n : Z) (sched : list action) (s0 : machine) :
  0 <= n < 32 ->
  launch_msg_buffer_num_entries = 2 ^ n ->
  let N := launch_msg_buffer_num_entries in
  let s := run sched (main_init s0) in
  launch_msg_rd_ptr (mailboxes s) = Z.of_nat (dev_launches (trace s)) mod N /\
  (pc s = L_notify -> launch_mode s = Some DISPATCH_MODE_DEV ->
   let rd := launch_msg_rd_ptr (mailboxes s) in
   launch_msg_rd_ptr (mailboxes (fw_step s)) = Z.land (rd + 1) (N - 1) /\
   launch_msg_rd_ptr (mailboxes (fw_step s)) = (rd + 1) mod N /\
   dev_launches (trace (fw_step s)) = S (dev_launches (trace s))).
Proof.
  intros Hn HN N s.
  pose proof (rd_ptr_invariant n sched s0 Hn HN) as Hrd.
  split; [exact Hrd|].
  intros Hpc Hmode rd.
  pose proof (rd_ptr_invariant n (sched ++ [Fw]) s0 Hn HN) as Hrd'.
  rewrite run_snoc in Hrd'. simpl in Hrd'. fold s in Hrd, Hrd'.
  assert (Hk : dev_launches (trace (fw_step s)) = S (dev_launches (trace s))).
  { unfold launch_mode in Hmode. unfold fw_step, notify_dispatcher. rewrite Hpc.
    destruct (launch (mailboxes s) !! Z.to_nat (l_launch_msg_rd_ptr s)) as [lm|];
      [|discriminate].
    injection Hmode as Hmode. rewrite Hmode, Z.eqb_refl. simpl.
    unfold dev_launches. rewrite !count_snoc. simpl.
    rewrite Z.eqb_refl. lia. }
  assert (H0 : 0 < N) by (unfold N; rewrite HN; apply Z.pow_pos_nonneg; lia).
  assert (Hmod : launch_msg_rd_ptr (mailboxes (fw_step s)) = (rd + 1) mod N).
  { rewrite Hrd', Hk. unfold rd. rewrite Hrd. fold N.
    rewrite Zplus_mod_idemp_l. f_equal. lia. }
  split; [|split; [exact Hmod | exact Hk]].
  rewrite Hmod. unfold N. rewrite HN.
  replace (2 ^ n - 1) with (Z.ones n) by (rewrite Z.ones_equiv; lia).
  rewrite Z.land_ones by lia. reflexivity.
Qed.

Lemma launch_msg_rd_ptr_counts_dev_launches_witness :
  0 <= 2 < 32 /\
  @launch_msg_buffer_num_entries (sample_platform true) = 2 ^ 2 /\
  launch_msg_rd_ptr
    (mailboxes (@run (sample_platform true) (one_launch ++ one_launch)
                  (@main_init (sample_platform true) (power_on 1 0))))
  = Z.of_nat
      (@dev_launches (sample_platform true)
         (trace (@run (sample_platform true) (one_launch ++ one_launch)
                   (@main_init (sample_platform true) (power_on 1 0)))))
    mod 4.
Proof.
  assert (Hn : 0 <= 2 < 32) by lia.
  split; [exact Hn|]. split; [reflexivity|].
  apply (proj1 (@launch_msg_rd_ptr_counts_dev_launches (sample_platform true) 2
                  (one_launch ++ one_launch) (power_on 1 0) Hn eq_refl)).
Defined.

(** C4. In every run of the firmware from boot, each store of RUN_MSG_DONE
    into [go_message.signal] made by the loop directly follows a poll of
    [slave_sync.all] that read RUN_SYNC_MSG_ALL_SLAVES_DONE, and each atomic
    increment to the dispatcher directly follows that poll, the store and
    the read of the mode.  In the wait loop, a poll that finds
    [slave_sync.all] different from RUN_SYNC_MSG_ALL_SLAVES_DONE keeps the
    firmware in the loop with the mailbox untouched: nothing is signalled or
    acknowledged while a slave is found not done. *)
Theorem done_and_ack_only_after_slaves_done
    `{P : Platform} (sched : list action) (s0 : machine) :
  let s := run sched (main_init s0) in
  done_only_after_slaves_done (trace s) /\
  (pc s = L_SED ->
   exists pre, trace s = pre ++ [Ev_sync_poll RUN_SYNC_MSG_ALL_SLAVES_DONE]) /\
  (pc s = L_notify ->
   exists pre, trace s = (pre ++ [Ev_sync_poll RUN_SYNC_MSG_ALL_SLAVES_DONE])
                         ++ [Ev_go_done]) /\
  (pc s = L_SEW ->
   slave_sync_all (mailboxes s) <> RUN_SYNC_MSG_ALL_SLAVES_DONE ->
   pc (fw_step s) = L_SEW /\ mailboxes (fw_step s) = mailboxes s /\
   trace (fw_step s) = trace s ++ [Ev_sync_poll (slave_sync_all (mailboxes s))]).
Proof.
  intros s. destruct (shape_inv_reachable sched s0) as (H1 & H2 & H3). fold s in H1, H2, H3.
  split; [exact H1|]. split; [exact H2|]. split; [exact H3|].
  intros Hpc Hne. unfold fw_step, wait_slave_eriscs. rewrite Hpc.
  destruct (slave_sync_all (mailboxes s) =? RUN_SYNC_MSG_ALL_SLAVES_DONE) eqn:E;
    [apply Z.eqb_eq in E; contradiction|].
  simpl. repeat split. exact Hpc.
Qed.

Lemma done_and_ack_only_after_slaves_done_witness :
  let P := sample_platform false in
  exists pre',
    [Ev_go_poll 0x80; Ev_kernel_call 0x9140 0x9140; Ev_sync_poll 0]
    = pre' ++ [Ev_sync_poll RUN_SYNC_MSG_ALL_SLAVES_DONE].
Proof.
  intros P.
  apply (proj1 (proj1 (@done_and_ack_only_after_slaves_done P one_launch (power_on 1 0)))
           [Ev_go_poll 0x80; Ev_kernel_call 0x9140 0x9140; Ev_sync_poll 0]
           [Ev_mode_read 0;
            Ev_atomic_inc 0 3 (NOC_XY_ADDR 1 1 0xFFB70000) 1 1 31 false]).
  vm_compute. reflexivity.
Defined.

(** C5. [init_sync_registers] leaves 0 in the tiles-received and the
    tiles-acked register of every operand below NUM_CIRCULAR_BUFFERS; it is
    what the loop does first in every iteration; and in every state in which
    the firmware waits for the go signal or has just seen it, both registers
    of the operand read 0. *)
Theorem init_sync_registers_clears_cb_counters
    `{P : Platform} (operand : Z) :
  0 <= operand < NUM_CIRCULAR_BUFFERS ->
  (forall r : regfile,
      init_sync_registers r (get_cb_tiles_received_ptr operand) = 0 /\
      init_sync_registers r (get_cb_tiles_acked_ptr operand) = 0) /\
  (forall s : machine,
      pc s = L_top ->
      pc (fw_step s) = L_GW /\ regs (fw_step s) = init_sync_registers (regs s)) /\
  (forall (sched : list action) (s0 : machine),
      let s := run sched (main_init s0) in
      pc s = L_GW \/ pc s = L_GD ->
      regs s (get_cb_tiles_received_ptr operand) = 0 /\
      regs s (get_cb_tiles_acked_ptr operand) = 0).
Proof.
  intros Hop. split; [|split].
  - intros r. now apply init_sync_registers_clears.
  - intros s Hpc. unfold fw_step. rewrite Hpc. split; reflexivity.
  - intros sched s0 s Hpc.
    destruct (regs_at_go_wait sched s0 Hpc) as [r Hr]. fold s in Hr.
    rewrite Hr. now apply init_sync_registers_clears.
Qed.

Lemma init_sync_registers_clears_cb_counters_witness :
  0 <= 31 < @NUM_CIRCULAR_BUFFERS (sample_platform true) /\
  @init_sync_registers (sample_platform true) (fun _ => 0xBAD)
    (@get_cb_tiles_received_ptr (sample_platform true) 31) = 0 /\
  @init_sync_registers (sample_platform true) (fun _ => 0xBAD)
    (@get_cb_tiles_acked_ptr (sample_platform true) 31) = 0.
Proof.
  assert (Hop : 0 <= 31 < @NUM_CIRCULAR_BUFFERS (sample_platform true))
    by (simpl; lia).
  split; [exact Hop|].
  apply (proj1 (@init_sync_registers_clears_cb_counters (sample_platform true) 31 Hop)).
Defined.

(** C9. Boot leaves [slave_sync.all == RUN_SYNC_MSG_ALL_SLAVES_DONE],
    [go_message.signal == RUN_MSG_DONE] and [launch_msg_rd_ptr == 0] at the
    head of the dispatch loop, before the first wait for a go signal; and,
    the go and done tokens being different, the firmware polling on its own
    keeps the mailbox so and sees no go: a host reading the mailbox before
    any launch finds DONE and ring position 0. *)
Theorem boot_mailbox_state
    `{P : Platform} (s0 : machine) :
  let boot := main_init s0 in
  (pc boot = L_top /\ trace boot = [] /\
   slave_sync_all (mailboxes boot) = RUN_SYNC_MSG_ALL_SLAVES_DONE /\
   signal (go_message (mailboxes boot)) = RUN_MSG_DONE /\
   launch_msg_rd_ptr (mailboxes boot) = 0) /\
  (pc (fw_step boot) = L_GW /\ mailboxes (fw_step boot) = mailboxes boot /\
   trace (fw_step boot) = []) /\
  (RUN_MSG_GO <> RUN_MSG_DONE ->
   forall n : nat,
     let s := Nat.iter n fw_step boot in
     (pc s = L_top \/ pc s = L_GW) /\
     slave_sync_all (mailboxes s) = RUN_SYNC_MSG_ALL_SLAVES_DONE /\
     signal (go_message (mailboxes s)) = RUN_MSG_DONE /\
     launch_msg_rd_ptr (mailboxes s) = 0 /\
     count is_go_seen (trace s) = 0%nat).
Proof.
  intros boot. split; [repeat split|]. split; [repeat split|].
  intros Hne n s. subst s.
  induction n as [|n IH].
  - simpl. repeat split. now left.
  - rewrite Nat.iter_succ.
    set (s := Nat.iter n fw_step boot) in *.
    destruct IH as (Hpc & Hsync & Hsig & Hrd & Hgo).
    destruct Hpc as [Hpc|Hpc]; unfold fw_step, wait_go; rewrite Hpc.
    + simpl. repeat split; auto.
    + rewrite Hsig.
      destruct (RUN_MSG_DONE =? RUN_MSG_GO) eqn:E;
        [apply Z.eqb_eq in E; congruence|].
      simpl. rewrite count_snoc. simpl. rewrite E.
      repeat split; auto. lia.
Qed.

Lemma boot_mailbox_state_witness :
  @RUN_MSG_GO (sample_platform false) <> @RUN_MSG_DONE (sample_platform false) /\
  signal (go_message (mailboxes
    (Nat.iter 5 (@fw_step (sample_platform false))
       (@main_init (sample_platform false) (power_on 1 0)))))
  = @RUN_MSG_DONE (sample_platform false) /\
  launch_msg_rd_ptr (mailboxes
    (Nat.iter 5 (@fw_step (sample_platform false))
       (@main_init (sample_platform false) (power_on 1 0)))) = 0.
Proof.
  assert (H : @RUN_MSG_GO (sample_platform false) <> @RUN_MSG_DONE (sample_platform false))
    by discriminate.
  split; [exact H|].
  pose proof (proj2 (proj2 (@boot_mailbox_state (sample_platform false) (power_on 1 0)))
                H 5%nat) as T.
  split; [exact (proj1 (proj2 (proj2 T))) | exact (proj1 (proj2 (proj2 (proj2 T))))].
Defined.

Section Handshake.
Context `{P : Platform}.

(** *** The phases of one iteration of the loop *)

Lemma phase_go (s : machine) (es : list env_action) :
  pc s = L_GW ->
  signal (go_message (mailboxes s)) = RUN_MSG_GO ->
  pc (env_run es (fw_step s)) = L_GD /\
  trace (env_run es (fw_step s)) = trace s ++ [Ev_go_poll RUN_MSG_GO].
Proof.
  intros Hpc Hgo.
  destruct (env_run_frame es (fw_step s)) as (-> & _ & -> & _).
  unfold fw_step, wait_go. rewrite Hpc, Hgo, Z.eqb_refl. split; reflexivity.
Qed.

Lemma phase_decode (s : machine) (es : list env_action) :
  pc s = L_GD ->
  (Z.to_nat (launch_msg_rd_ptr (mailboxes s)) < length (launch (mailboxes s)))%nat ->
  let s' := env_run es (fw_step s) in
  pc s' = L_R /\ trace s' = trace s /\
  l_launch_msg_rd_ptr s' = launch_msg_rd_ptr (mailboxes s') /\
  (Z.to_nat (l_launch_msg_rd_ptr s') < length (launch (mailboxes s')))%nat.
Proof.
  intros Hpc Hlt s'. subst s'.
  destruct (env_run_frame es (fw_step s)) as (-> & _ & -> & -> & _ & _ & _ & -> & ->).
  unfold fw_step, decode_launch. rewrite Hpc.
  destruct (lookup_lt_is_Some_2 _ _ Hlt) as [lm Hlm]. rewrite Hlm. simpl.
  unfold run_slave_eriscs, set_slave_sync_all.
  case_match; simpl; repeat split; auto.
Qed.

Lemma phase_kernel (s : machine) :
  pc s = L_R ->
  l_launch_msg_rd_ptr s = launch_msg_rd_ptr (mailboxes s) ->
  (Z.to_nat (l_launch_msg_rd_ptr s) < length (launch (mailboxes s)))%nat ->
  kernel_returns s ->
  pc (fw_step s) = L_SEW /\
  l_launch_msg_rd_ptr (fw_step s) = l_launch_msg_rd_ptr s /\
  length (launch (mailboxes (fw_step s))) = length (launch (mailboxes s)) /\
  exists evs, trace (fw_step s) = trace s ++ evs /\ count is_go_seen evs = 0%nat /\
              count is_go_done evs = 0%nat /\ count is_atomic_inc evs = 0%nat.
Proof.
  intros Hpc Hrd Hlt Hret.
  unfold fw_step, run_kernel. rewrite Hpc.
  destruct (Z.eqb_spec (Z.land (l_enables s) DISPATCH_CLASS_MASK_ETH_DM0) 0)
    as [Hoff|Hon].
  - simpl. repeat split. exists []. rewrite app_nil_r. repeat split.
  - unfold kernel_returns in Hret. specialize (Hret Hon).
    destruct (kernel_address (l_kernel_config_base s) (mailboxes s)) as [a|] eqn:Ha.
    + destruct (Hret a eq_refl) as [r Hr]. simpl. rewrite Hr. simpl.
      repeat split. eexists; repeat split.
    + exfalso. unfold kernel_address in Ha. rewrite <- Hrd in Ha.
      destruct (lookup_lt_is_Some_2 _ _ Hlt) as [lm Hlm].
      rewrite Hlm in Ha. discriminate Ha.
Qed.

Lemma waits_frame (s s' : machine) :
  waits s s' ->
  pc s = L_SEW ->
  pc s' = L_SEW /\
  l_launch_msg_rd_ptr s' = l_launch_msg_rd_ptr s /\
  length (launch (mailboxes s')) = length (launch (mailboxes s)) /\
  exists evs, trace s' = trace s ++ evs /\ count is_go_seen evs = 0%nat /\
              count is_go_done evs = 0%nat /\ count is_atomic_inc evs = 0%nat.
Proof.
  intros W Hpc. induction W as [s | s s' e W IH | s s' W IH Hsync].
  - repeat split; auto. exists []. rewrite app_nil_r. repeat split.
  - destruct (env_step_frame e s') as (-> & _ & -> & -> & _ & _ & _ & _ & ->).
    now apply IH.
  - destruct (IH Hpc) as (Hpc' & Hrd & Hlen & evs & Ht & Hg & Hd & Ha).
    unfold fw_step, wait_slave_eriscs. rewrite Hpc'.
    destruct (slave_sync_all (mailboxes s') =? RUN_SYNC_MSG_ALL_SLAVES_DONE) eqn:E;
      [apply Z.eqb_eq in E; contradiction|].
    simpl. repeat split; auto.
    exists (evs ++ [Ev_sync_poll (slave_sync_all (mailboxes s'))]).
    rewrite Ht, <- app_assoc, !count_snoc, Hg, Hd, Ha. repeat split.
Qed.

Lemma phase_done (s : machine) (es es' : list env_action) :
  pc s = L_SEW ->
  slave_sync_all (mailboxes s) = RUN_SYNC_MSG_ALL_SLAVES_DONE ->
  (Z.to_nat (l_launch_msg_rd_ptr s) < length (launch (mailboxes s)))%nat ->
  let s1 := fw_step (env_run es (fw_step s)) in
  let s2 := env_run es' s1 in
  signal (go_message (mailboxes s1)) = RUN_MSG_DONE /\
  pc (fw_step s2) = (if ARCH_BLACKHOLE then L_top else L_idle_forever) /\
  exists m evs,
    launch_mode s2 = Some m /\
    trace (fw_step s2) = trace s ++ evs /\
    count is_go_seen evs = 0%nat /\
    count is_go_done evs = 1%nat /\
    count is_atomic_inc evs = (if (m =? DISPATCH_MODE_DEV)%Z then 1 else 0)%nat.
Proof.
  intros Hpc Hsync Hlt s1 s2.
  assert (H1 : pc (fw_step s) = L_SED /\
               trace (fw_step s)
               = trace s ++ [Ev_sync_poll RUN_SYNC_MSG_ALL_SLAVES_DONE] /\
               l_launch_msg_rd_ptr (fw_step s) = l_launch_msg_rd_ptr s /\
               length (launch (mailboxes (fw_step s))) = length (launch (mailboxes s))).
  { unfold fw_step, wait_slave_eriscs. rewrite Hpc, Hsync, Z.eqb_refl.
    repeat split. }
  destruct H1 as (Hpc1 & Ht1 & Hrd1 & Hlen1).
  destruct (env_run_frame es (fw_step s)) as (Hpc2 & _ & Ht2 & Hrd2 & _ & _ & _ & _ & Hlen2).
  assert (H3 : forall u, pc u = L_SED ->
               pc (fw_step u) = L_notify /\
               signal (go_message (mailboxes (fw_step u))) = RUN_MSG_DONE /\
               trace (fw_step u) = trace u ++ [Ev_go_done] /\
               l_launch_msg_rd_ptr (fw_step u) = l_launch_msg_rd_ptr u /\
               length (launch (mailboxes (fw_step u))) = length (launch (mailboxes u))).
  { intros u Hu. unfold fw_step, signal_done. rewrite Hu. repeat split. }
  specialize (H3 (env_run es (fw_step s)) (eq_trans Hpc2 Hpc1)). fold s1 in H3.
  destruct H3 as (Hpc3 & Hsig & Ht3 & Hrd3 & Hlen3).
  destruct (env_run_frame es' s1) as (Hpc4 & _ & Ht4 & Hrd4 & _ & _ & _ & _ & Hlen4).
  fold s2 in Hpc4, Ht4, Hrd4, Hlen4.
  split; [exact Hsig|].
  assert (Hlt' : (Z.to_nat (l_launch_msg_rd_ptr s2) < length (launch (mailboxes s2)))%nat)
    by congruence.
  destruct (lookup_lt_is_Some_2 _ _ Hlt') as [lm Hlm].
  assert (Ht : trace s2 = trace s ++ [Ev_sync_poll RUN_SYNC_MSG_ALL_SLAVES_DONE; Ev_go_done]).
  { rewrite Ht4, Ht3, Ht2, Ht1, <- app_assoc. reflexivity. }
  unfold launch_mode. rewrite Hlm.
  unfold fw_step, notify_dispatcher. rewrite Hpc4, Hpc3, Hlm.
  split; [reflexivity|].
  exists (mode (kernel_config lm)).
  destruct (mode (kernel_config lm) =? DISPATCH_MODE_DEV) eqn:E; simpl; rewrite Ht.
  - eexists. split; [reflexivity|]. rewrite <- !app_assoc. simpl.
    repeat split.
  - eexists. split; [reflexivity|]. rewrite <- !app_assoc. simpl.
    repeat split.
Qed.

End Handshake.

(** C3, as the firmware has it.  The ring has [N = 2^n] launch slots.  Take
    any run from boot that has the firmware polling for go, and an iteration
    of the loop that sees RUN_MSG_GO; the other agents may write the mailbox
    between any two steps of the firmware.  If the DM0 kernel, when it is
    enabled, returns (nothing is assumed of a kernel that is not enabled,
    which is not called) and, after any number of polls that found a slave
    not done,
    [slave_sync.all] equals RUN_SYNC_MSG_ALL_SLAVES_DONE, then the firmware
    stores RUN_MSG_DONE into [go_message.signal] and leaves the iteration,
    having stored DONE exactly once and having issued exactly one atomic
    increment when the mode it read is DISPATCH_MODE_DEV and none when it is
    not. *)
Theorem handshake_done_and_ack
    `{P : Platform} (n : Z) (sched : list action) (s0 s_w : machine)
    (es1 es2 es3 es4 : list env_action) :
  0 <= n < 32 ->
  launch_msg_buffer_num_entries = 2 ^ n ->
  length (launch (mailboxes s0)) = Z.to_nat launch_msg_buffer_num_entries ->
  let s := run sched (main_init s0) in
  pc s = L_GW ->
  signal (go_message (mailboxes s)) = RUN_MSG_GO ->
  let s1 := env_run es1 (fw_step s) in
  let s2 := env_run es2 (fw_step s1) in
  kernel_returns s2 ->
  waits (fw_step s2) s_w ->
  slave_sync_all (mailboxes s_w) = RUN_SYNC_MSG_ALL_SLAVES_DONE ->
  let s3 := fw_step (env_run es3 (fw_step s_w)) in
  let s4 := env_run es4 s3 in
  signal (go_message (mailboxes s3)) = RUN_MSG_DONE /\
  pc (fw_step s4) = (if ARCH_BLACKHOLE then L_top else L_idle_forever) /\
  exists m evs,
    launch_mode s4 = Some m /\
    trace (fw_step s4) = trace s ++ evs /\
    count is_go_seen evs = 1%nat /\
    count is_go_done evs = 1%nat /\
    count is_atomic_inc evs = (if (m =? DISPATCH_MODE_DEV)%Z then 1 else 0)%nat.
Proof.
  intros Hn HN Hlen s Hpc Hgo s1 s2 Hret W Hsync s3 s4.
  destruct (phase_go s es1 Hpc Hgo) as (Hpc1 & Ht1). fold s1 in Hpc1, Ht1.
  assert (Hlt : (Z.to_nat (launch_msg_rd_ptr (mailboxes s1))
                 < length (launch (mailboxes s1)))%nat).
  { destruct (env_run_frame es1 (fw_step s)) as (_ & _ & _ & _ & _ & _ & _ & Hrd & Hl).
    fold s1 in Hrd, Hl. rewrite Hrd, Hl.
    assert (Hmb : mailboxes (fw_step s) = mailboxes s).
    { unfold fw_step, wait_go. rewrite Hpc. now case_match. }
    rewrite Hmb. unfold s. rewrite launch_length_invariant, Hlen.
    rewrite (rd_ptr_invariant n sched s0 Hn HN), HN.
    assert (0 < 2 ^ n) by (apply Z.pow_pos_nonneg; lia).
    pose proof (Z.mod_pos_bound
                  (Z.of_nat (dev_launches (trace (run sched (main_init s0))))) (2 ^ n)).
    lia. }
  destruct (phase_decode s1 es2 Hpc1 Hlt) as (Hpc2 & Ht2 & Hrd2 & Hlt2).
  fold s2 in Hpc2, Ht2, Hrd2, Hlt2.
  destruct (phase_kernel s2 Hpc2 Hrd2 Hlt2 Hret)
    as (Hpc3 & Hrd3 & Hlen3 & evk & Ht3 & Hk0 & Hk1 & Hk2).
  destruct (waits_frame _ _ W Hpc3) as (Hpc4 & Hrd4 & Hlen4 & evw & Ht4 & Hw0 & Hw1 & Hw2).
  assert (Hlt4 : (Z.to_nat (l_launch_msg_rd_ptr s_w) < length (launch (mailboxes s_w)))%nat)
    by congruence.
  destruct (phase_done s_w es3 es4 Hpc4 Hsync Hlt4)
    as (Hsig & Hpc5 & m & evd & Hm & Ht5 & Hd0 & Hd1 & Hd2).
  fold s3 in Hsig, Hpc5, Hm, Ht5. fold s4 in Hpc5, Hm, Ht5.
  split; [exact Hsig|]. split; [exact Hpc5|].
  exists m, ([Ev_go_poll RUN_MSG_GO] ++ evk ++ evw ++ evd).
  split; [exact Hm|]. split.
  - rewrite Ht5, Ht4, Ht3, Ht2, Ht1, <- !app_assoc. reflexivity.
  - rewrite !count_app, Hk0, Hk1, Hk2, Hw0, Hw1, Hw2, Hd0, Hd1, Hd2.
    unfold count. simpl. rewrite Z.eqb_refl. repeat split.
Qed.

Lemma handshake_done_and_ack_witness :
  let P := sample_platform false in
  let s := go_posted false 1 0 in
  let s_w := fw_step (fw_step (fw_step s)) in
  let s3 := fw_step (fw_step s_w) in
  pc s = L_GW /\
  signal (go_message (mailboxes s)) = RUN_MSG_GO /\
  slave_sync_all (mailboxes s_w) = RUN_SYNC_MSG_ALL_SLAVES_DONE /\
  signal (go_message (mailboxes s3)) = RUN_MSG_DONE /\
  pc (fw_step s3) = L_idle_forever /\
  exists m evs,
    launch_mode s3 = Some m /\
    trace (fw_step s3) = trace s ++ evs /\
    count is_go_seen evs = 1%nat /\
    count is_go_done evs = 1%nat /\
    count is_atomic_inc evs = (if (m =? DISPATCH_MODE_DEV)%Z then 1 else 0)%nat.
Proof.
  intros P s s_w s3.
  assert (Hn : 0 <= 2 < 32) by lia.
  assert (H1 : pc s = L_GW) by reflexivity.
  assert (H2 : signal (go_message (mailboxes s)) = RUN_MSG_GO) by reflexivity.
  assert (H4 : kernel_returns (env_run [] (fw_step (env_run [] (fw_step s)))))
    by (intros _ a _; eexists; reflexivity).
  assert (H5 : slave_sync_all (mailboxes s_w) = RUN_SYNC_MSG_ALL_SLAVES_DONE)
    by reflexivity.
  split; [exact H1|]. split; [exact H2|]. split; [exact H5|].
  exact (@handshake_done_and_ack P 2 [Fw; Env (Host_write_go sample_go)]
           (power_on 1 0) s_w [] [] [] [] Hn eq_refl eq_refl H1 H2 H4
           (waits_here s_w) H5).
Defined.

(** C3 as stated fails when the launch is not in DISPATCH_MODE_DEV: the
    handshake completes, RUN_MSG_DONE is stored, and no atomic increment is
    issued. *)
Lemma handshake_without_ack :
  let P := sample_platform false in
  let s := run one_launch (main_init (power_on 1 1)) in
  count is_go_seen (trace s) = 1%nat /\
  count is_go_done (trace s) = 1%nat /\
  signal (go_message (mailboxes s)) = RUN_MSG_DONE /\
  pc s = L_idle_forever /\
  count is_atomic_inc (trace s) = 0%nat /\
  count is_atomic_inc (trace s) <> 1%nat.
Proof. vm_compute. repeat split. discriminate. Qed.

(** *** The acknowledgement *)

(** What line 170 sends, on any platform. *)
Lemma notify_dispatcher_ack `{P : Platform} (s : machine) :
  pc s = L_notify ->
  launch_mode s = Some DISPATCH_MODE_DEV ->
  let g := go_message (mailboxes s) in
  trace (fw_step s)
  = trace s ++
    [Ev_mode_read DISPATCH_MODE_DEV;
     Ev_atomic_inc (noc_index s) NCRISC_AT_CMD_BUF
       (NOC_XY_ADDR (NOC_X (noc_index s) (master_x g)) (NOC_Y (noc_index s) (master_x g))
          (wrap32 (DISPATCH_MESSAGE_ADDR + dispatch_message_offset g)))
       NOC_UNICAST_WRITE_VC 1 31 false].
Proof.
  intros Hpc Hmode g. unfold launch_mode in Hmode.
  unfold fw_step, notify_dispatcher. rewrite Hpc.
  destruct (launch (mailboxes s) !! Z.to_nat (l_launch_msg_rd_ptr s)) as [lm|];
    [|discriminate].
  injection Hmode as ->. rewrite Z.eqb_refl. simpl.
  now rewrite <- app_assoc.
Qed.

(** C1, evaluated.  The dispatcher sits at NOC coordinates (1, 2), the
    launch is in DISPATCH_MODE_DEV with offset 0.  The firmware issues one
    atomic increment, on the atomics command buffer with the unicast-write
    virtual channel, increment 1, wrap 31, not linked; its address is
    [NOC_XY_ADDR (NOC_X 1, NOC_Y 1, DISPATCH_MESSAGE_ADDR)]: the Y coordinate
    is taken from [master_x], and the address differs from the one with
    [master_y] as Y. *)
Theorem ack_address_takes_y_from_master_x :
  let P := sample_platform false in
  let s := run one_launch (main_init (power_on 1 0)) in
  let g := go_message (mailboxes s) in
  master_x g = 1 /\ master_y g = 2 /\ dispatch_message_offset g = 0 /\
  exists addr,
    List.filter is_atomic_inc (trace s)
    = [Ev_atomic_inc 0 NCRISC_AT_CMD_BUF addr NOC_UNICAST_WRITE_VC 1 31 false] /\
    addr = NOC_XY_ADDR (NOC_X 0 (master_x g)) (NOC_Y 0 (master_x g))
             (wrap32 (DISPATCH_MESSAGE_ADDR + dispatch_message_offset g)) /\
    addr <> NOC_XY_ADDR (NOC_X 0 (master_x g)) (NOC_Y 0 (master_y g))
              (wrap32 (DISPATCH_MESSAGE_ADDR + dispatch_message_offset g)).
Proof.
  vm_compute. repeat split.
  eexists. split; [reflexivity|]. split; [reflexivity|]. discriminate.
Qed.



(* ===================================================================== *)
(** * command_queue.hpp: multicast encoding and transfer type names       *)
(* ===================================================================== *)
Import CommandQueue.

Section MulticastFacts.
Variable bits : Z.
Hypothesis bits_nonneg : 0 <= bits.

Lemma testbit_above (v k : Z) :
  0 <= v < 2 ^ bits -> bits <= k -> Z.testbit v k = false.
Proof.
  intros Hv Hk. rewrite <- (Z.mod_small v (2 ^ bits)) by lia.
  apply Z.mod_pow2_bits_high. lia.
Qed.

(** Bit [k] of field [i] of a word is bit [k + i * bits] of the word. *)
Lemma node_id_field_spec (i w k : Z) :
  0 <= i -> 0 <= k ->
  Z.testbit (node_id_field bits i w) k
  = Z.testbit w (k + i * bits) && (k <? bits).
Proof.
  intros Hi Hk. unfold node_id_field.
  rewrite Z.land_spec, Z.shiftr_spec, Z.testbit_ones_nonneg by lia.
  destruct (Z.ltb_spec k bits); destruct (Z.leb_spec 0 k); try lia; reflexivity.
Qed.

Lemma encoding_testbit (x_start y_start x_end y_end j : Z) :
  0 <= j ->
  Z.testbit (NOC_MULTICAST_ENCODING bits x_start y_start x_end y_end) j
  = Z.testbit x_start (j - 2 * bits) || Z.testbit y_start (j - 3 * bits)
    || Z.testbit x_end j || Z.testbit y_end (j - bits).
Proof.
  intros Hj. unfold NOC_MULTICAST_ENCODING.
  now rewrite !Z.lor_spec, !Z.shiftl_spec by lia.
Qed.

Lemma multicast_decode_encoding (x_start y_start x_end y_end : Z) :
  0 <= x_start < 2 ^ bits -> 0 <= y_start < 2 ^ bits ->
  0 <= x_end < 2 ^ bits -> 0 <= y_end < 2 ^ bits ->
  multicast_decode bits (NOC_MULTICAST_ENCODING bits x_start y_start x_end y_end)
  = (x_start, y_start, x_end, y_end).
Proof.
  intros Hxs Hys Hxe Hye. unfold multicast_decode.
  repeat f_equal; apply Z.bits_inj'; intros k Hk;
    rewrite node_id_field_spec, encoding_testbit by lia;
    (destruct (Z.ltb_spec k bits);
     [ rewrite andb_true_r | rewrite andb_false_r; symmetry; now apply testbit_above ]).
  - replace (k + 2 * bits - 2 * bits) with k by lia.
    rewrite (Z.testbit_neg_r y_start) by lia.
    rewrite (testbit_above x_end) by (auto; lia).
    rewrite (testbit_above y_end) by (auto; lia).
    now rewrite !orb_false_r.
  - replace (k + 3 * bits - 3 * bits) with k by lia.
    rewrite (testbit_above x_start) by (auto; lia).
    rewrite (testbit_above x_end) by (auto; lia).
    rewrite (testbit_above y_end) by (auto; lia).
    now rewrite !orb_false_r.
  - replace (k + 0 * bits) with k by lia.
    rewrite (Z.testbit_neg_r x_start) by lia.
    rewrite (Z.testbit_neg_r y_start) by lia.
    rewrite (Z.testbit_neg_r y_end) by lia.
    now rewrite !orb_false_r.
  - replace (k + 1 * bits - bits) with k by lia.
    rewrite (Z.testbit_neg_r x_start) by lia.
    rewrite (Z.testbit_neg_r y_start) by lia.
    rewrite (testbit_above x_end) by (auto; lia).
    now rewrite !orb_false_r.
Qed.

Lemma encoding_fits (x_start y_start x_end y_end : Z) :
  4 * bits <= 32 ->
  0 <= x_start < 2 ^ bits -> 0 <= y_start < 2 ^ bits ->
  0 <= x_end < 2 ^ bits -> 0 <= y_end < 2 ^ bits ->
  0 <= NOC_MULTICAST_ENCODING bits x_start y_start x_end y_end < 2 ^ 32.
Proof.
  intros Hb Hxs Hys Hxe Hye.
  assert (Hnn : 0 <= NOC_MULTICAST_ENCODING bits x_start y_start x_end y_end).
  { unfold NOC_MULTICAST_ENCODING.
    repeat (apply Z.lor_nonneg; split); try apply Z.shiftl_nonneg; lia. }
  split; [exact Hnn|].
  set (w := NOC_MULTICAST_ENCODING bits x_start y_start x_end y_end) in *.
  destruct (Z.eq_dec w 0) as [->|Hnz]; [reflexivity|].
  apply Z.log2_lt_pow2; [lia|].
  destruct (Z.lt_ge_cases (Z.log2 w) 32) as [Hlt|Hge]; [exact Hlt|exfalso].
  assert (Hbit : Z.testbit w (Z.log2 w) = true) by (apply Z.bit_log2; lia).
  unfold w at 1 in Hbit. rewrite encoding_testbit in Hbit by lia.
  rewrite (testbit_above x_start), (testbit_above y_start),
    (testbit_above x_end), (testbit_above y_end) in Hbit by (auto; lia).
  discriminate Hbit.
Qed.

End MulticastFacts.

(** C7. When four fields of NOC_ADDR_NODE_ID_BITS bits fit in 32 bits and
    each coordinate is below 2^NOC_ADDR_NODE_ID_BITS, the encoding is a
    32-bit word (storing it in a [u32] changes nothing), field 2 holds
    [x_start], field 3 [y_start], field 0 [x_end] and field 1 [y_end], and
    two quadruples of such coordinates with the same encoding are equal. *)
Theorem NOC_MULTICAST_ENCODING_injective
    (NOC_ADDR_NODE_ID_BITS x_start y_start x_end y_end : Z) :
  0 <= NOC_ADDR_NODE_ID_BITS -> 4 * NOC_ADDR_NODE_ID_BITS <= 32 ->
  0 <= x_start < 2 ^ NOC_ADDR_NODE_ID_BITS ->
  0 <= y_start < 2 ^ NOC_ADDR_NODE_ID_BITS ->
  0 <= x_end < 2 ^ NOC_ADDR_NODE_ID_BITS ->
  0 <= y_end < 2 ^ NOC_ADDR_NODE_ID_BITS ->
  let w := NOC_MULTICAST_ENCODING NOC_ADDR_NODE_ID_BITS x_start y_start x_end y_end in
  0 <= w < 2 ^ 32 /\
  noc_multicast_encoding_u32 NOC_ADDR_NODE_ID_BITS x_start y_start x_end y_end = w /\
  multicast_decode NOC_ADDR_NODE_ID_BITS w = (x_start, y_start, x_end, y_end) /\
  (forall x_start' y_start' x_end' y_end' : Z,
      0 <= x_start' < 2 ^ NOC_ADDR_NODE_ID_BITS ->
      0 <= y_start' < 2 ^ NOC_ADDR_NODE_ID_BITS ->
      0 <= x_end' < 2 ^ NOC_ADDR_NODE_ID_BITS ->
      0 <= y_end' < 2 ^ NOC_ADDR_NODE_ID_BITS ->
      NOC_MULTICAST_ENCODING NOC_ADDR_NODE_ID_BITS x_start' y_start' x_end' y_end' = w ->
      (x_start', y_start', x_end', y_end') = (x_start, y_start, x_end, y_end)).
Proof.
  intros Hb H32 Hxs Hys Hxe Hye w.
  pose proof (encoding_fits _ Hb _ _ _ _ H32 Hxs Hys Hxe Hye) as Hfit. fold w in Hfit.
  pose proof (multicast_decode_encoding _ Hb _ _ _ _ Hxs Hys Hxe Hye) as Hdec.
  fold w in Hdec.
  split; [exact Hfit|]. split; [|split; [exact Hdec|]].
  - unfold noc_multicast_encoding_u32, wrap32. fold w. apply Z.mod_small. exact Hfit.
  - intros xs' ys' xe' ye' Hxs' Hys' Hxe' Hye' E.
    rewrite <- Hdec, <- E. symmetry.
    now apply multicast_decode_encoding.
Qed.

Lemma NOC_MULTICAST_ENCODING_injective_witness :
  4 * 6 <= 32 /\
  NOC_MULTICAST_ENCODING 6 1 2 3 4 = 0x81103 /\
  multicast_decode 6 0x81103 = (1, 2, 3, 4).
Proof.
  assert (Hb : 0 <= 6) by lia.
  assert (H32 : 4 * 6 <= 32) by lia.
  assert (H1 : 0 <= 1 < 2 ^ 6) by lia.
  assert (H2 : 0 <= 2 < 2 ^ 6) by lia.
  assert (H3 : 0 <= 3 < 2 ^ 6) by lia.
  assert (H4 : 0 <= 4 < 2 ^ 6) by lia.
  split; [exact H32|]. split; [reflexivity|].
  exact (proj1 (proj2 (proj2 (NOC_MULTICAST_ENCODING_injective 6 1 2 3 4 Hb H32 H1 H2 H3 H4)))).
Defined.

(** C10. [transfer_type_to_string] returns "B", "NC", "T0", "T1", "T2" for
    the five RISC-V transfer types and throws "Invalid riscv type" for CB,
    for SEM and for every other value of the type. *)
Theorem transfer_type_to_string_cases (t : TransferType) :
  transfer_type_to_string TransferType_B = Returns "B"%string /\
  transfer_type_to_string TransferType_N = Returns "NC"%string /\
  transfer_type_to_string TransferType_T0 = Returns "T0"%string /\
  transfer_type_to_string TransferType_T1 = Returns "T1"%string /\
  transfer_type_to_string TransferType_T2 = Returns "T2"%string /\
  transfer_type_to_string TransferType_CB = TT_THROW "Invalid riscv type"%string /\
  transfer_type_to_string TransferType_SEM = TT_THROW "Invalid riscv type"%string /\
  (t <> TransferType_B -> t <> TransferType_N -> t <> TransferType_T0 ->
   t <> TransferType_T1 -> t <> TransferType_T2 ->
   transfer_type_to_string t = TT_THROW "Invalid riscv type"%string).
Proof.
  repeat (split; [reflexivity|]).
  intros HB HN H0 H1 H2. unfold transfer_type_to_string.
  repeat match goal with
         | |- context [t =? ?c] =>
             destruct (Z.eqb_spec t c); [contradiction|]
         end.
  reflexivity.
Qed.

Lemma transfer_type_to_string_cases_witness :
  transfer_type_to_string 200 = TT_THROW "Invalid riscv type"%string.
Proof.
  apply (proj2 (proj2 (proj2 (proj2 (proj2 (proj2 (proj2
            (transfer_type_to_string_cases 200)))))))); discriminate.
Defined.

(* ===================================================================== *)
(** * Further properties of the dispatch firmware                         *)
(* ===================================================================== *)

Section FirmwareSafety.
Context `{P : Platform}.

(** Steps that keep the program point keep it along a whole run. *)
Lemma halted_forever (s : machine) (sched : list action) :
  pc s = L_idle_forever \/ pc s = L_in_kernel \/ pc s = L_undefined ->
  pc (run sched s) = pc s /\ trace (run sched s) = trace s /\
  regs (run sched s) = regs s.
Proof.
  intros Hpc. induction sched as [|a sched IH] using rev_ind.
  - repeat split.
  - rewrite run_snoc. destruct IH as (IH1 & IH2 & IH3).
    set (u := run sched s) in *.
    destruct a as [|e]; unfold step.
    + rewrite <- IH1 in Hpc.
      destruct Hpc as [Hu|[Hu|Hu]]; unfold fw_step; rewrite Hu; simpl;
        repeat split; congruence.
    + destruct (env_step_frame e u) as (-> & -> & -> & _). repeat split; assumption.
Qed.

Lemma rd_ptr_in_ring (n : Z) (sched : list action) (s0 : machine) :
  0 <= n < 32 ->
  launch_msg_buffer_num_entries = 2 ^ n ->
  length (launch (mailboxes s0)) = Z.to_nat launch_msg_buffer_num_entries ->
  0 <= launch_msg_rd_ptr (mailboxes (run sched (main_init s0)))
    < launch_msg_buffer_num_entries /\
  (Z.to_nat (launch_msg_rd_ptr (mailboxes (run sched (main_init s0))))
   < length (launch (mailboxes (run sched (main_init s0)))))%nat.
Proof.
  intros Hn HN Hlen.
  rewrite launch_length_invariant, Hlen, (rd_ptr_invariant n sched s0 Hn HN), HN.
  assert (0 < 2 ^ n) by (apply Z.pow_pos_nonneg; lia).
  pose proof (Z.mod_pos_bound
                (Z.of_nat (dev_launches (trace (run sched (main_init s0))))) (2 ^ n)).
  lia.
Qed.

End FirmwareSafety.

(** X1. With a ring of [N = 2^n] launch messages whose array has [N]
    slots, no run of the firmware from boot indexes [launch[]] outside the
    array: the read pointer stays in [0, N) and the program point of an
    out-of-bounds access is never reached, whatever the dispatcher and the
    slaves write. *)
Theorem launch_ring_never_overrun
    `{P : Platform} (n : Z) (sched : list action) (s0 : machine) :
  0 <= n < 32 ->
  launch_msg_buffer_num_entries = 2 ^ n ->
  length (launch (mailboxes s0)) = Z.to_nat launch_msg_buffer_num_entries ->
  let s := run sched (main_init s0) in
  pc s <> L_undefined /\
  0 <= launch_msg_rd_ptr (mailboxes s) < launch_msg_buffer_num_entries /\
  length (launch (mailboxes s)) = Z.to_nat launch_msg_buffer_num_entries.
Proof.
  intros Hn HN Hlen s.
  split; [|split; [apply (rd_ptr_in_ring n sched s0 Hn HN Hlen)
                  | unfold s; now rewrite launch_length_invariant]].
  subst s. induction sched as [|a sched IH] using rev_ind.
  - discriminate.
  - rewrite run_snoc.
    destruct (rd_ptr_in_ring n sched s0 Hn HN Hlen) as [_ Hlt].
    pose proof (locals_in_flight sched s0) as Hloc.
    set (s := run sched (main_init s0)) in *.
    destruct a as [|e]; unfold step.
    + destruct (lookup_lt_is_Some_2 _ _ Hlt) as [lm Hlm].
      destruct (pc s) eqn:Hpc; try contradiction;
        unfold fw_step, wait_go, decode_launch, run_kernel, kernel_address,
          wait_slave_eriscs, signal_done, notify_dispatcher; rewrite ?Hpc, ?Hlm;
        simpl; repeat case_match; simpl; rewrite ?Hpc; try discriminate.
      all: destruct (Hloc eq_refl) as [Hl _]; congruence.
    + destruct (env_step_frame e s) as (-> & _). exact IH.
Qed.

Lemma launch_ring_never_overrun_witness :
  let P := sample_platform true in
  let s := run (one_launch ++ one_launch ++ one_launch) (main_init (power_on 3 0)) in
  pc s <> L_undefined /\ 0 <= launch_msg_rd_ptr (mailboxes s) < 4.
Proof.
  intros P s.
  assert (Hn : 0 <= 2 < 32) by lia.
  destruct (@launch_ring_never_overrun P 2 (one_launch ++ one_launch ++ one_launch)
              (power_on 3 0) Hn eq_refl eq_refl) as (H1 & H2 & _).
  split; [exact H1 | exact H2].
Defined.

Section HandshakeCounting.
Context `{P : Platform}.

(** How the numbers of go observations, done stores, mode reads, kernel
    calls and acknowledgements stand to each other at each program point. *)
Lemma handshake_counts (sched : list action) (s0 : machine) :
  let s := run sched (main_init s0) in
  let go := count is_go_seen (trace s) in
  let done := count is_go_done (trace s) in
  let modes := count is_mode_read (trace s) in
  let calls := count is_kernel_call (trace s) in
  count is_atomic_inc (trace s) = dev_launches (trace s) /\
  (dev_launches (trace s) <= modes)%nat /\
  match pc s with
  | L_top | L_GW | L_idle_forever => go = done /\ modes = done /\ (calls <= done)%nat
  | L_GD | L_R => go = S done /\ modes = done /\ (calls <= done)%nat
  | L_SEW | L_SED | L_in_kernel => go = S done /\ modes = done /\ (calls <= S done)%nat
  | L_notify => go = done /\ S modes = done /\ (calls <= done)%nat
  | L_undefined =>
      (go = S done /\ modes = done /\ (calls <= done)%nat) \/
      (go = done /\ S modes = done /\ (calls <= done)%nat)
  end.
Proof.
  induction sched as [|a sched IH] using rev_ind.
  - simpl. unfold dev_launches, count. simpl. repeat split; lia.
  - rewrite run_snoc. simpl in IH.
    set (s := run sched (main_init s0)) in *.
    destruct a as [|e]; unfold step.
    + destruct IH as (Hack & Hdev & IH). unfold dev_launches in *.
      destruct (pc s) eqn:Hpc; unfold fw_step; rewrite Hpc.
      * simpl. auto.
      * unfold wait_go.
        destruct (signal (go_message (mailboxes s)) =? RUN_MSG_GO) eqn:E;
          simpl; rewrite !count_snoc; simpl; rewrite ?E, ?Hpc; intuition lia.
      * unfold decode_launch.
        destruct (launch (mailboxes s) !! Z.to_nat (launch_msg_rd_ptr (mailboxes s)));
          simpl; intuition lia.
      * unfold run_kernel, kernel_address.
        destruct (Z.land (l_enables s) DISPATCH_CLASS_MASK_ETH_DM0 =? 0);
          [simpl; intuition lia|].
        destruct (launch (mailboxes s) !! Z.to_nat (launch_msg_rd_ptr (mailboxes s)));
          [|simpl; intuition lia].
        simpl. destruct (kernel_at _ _ _); simpl; rewrite !count_snoc; simpl;
          intuition lia.
      * unfold wait_slave_eriscs.
        destruct (slave_sync_all (mailboxes s) =? RUN_SYNC_MSG_ALL_SLAVES_DONE);
          simpl; rewrite !count_snoc; simpl; rewrite ?Hpc; intuition lia.
      * unfold signal_done. simpl. rewrite !count_snoc. simpl. intuition lia.
      * unfold notify_dispatcher.
        destruct (launch (mailboxes s) !! Z.to_nat (l_launch_msg_rd_ptr s)) as [lm|];
          [|simpl; intuition lia].
        destruct (mode (kernel_config lm) =? DISPATCH_MODE_DEV) eqn:E;
          destruct ARCH_BLACKHOLE; simpl; rewrite !count_snoc; simpl; rewrite ?E;
          intuition lia.
      * simpl. rewrite Hpc. auto.
      * rewrite Hpc. auto.
      * rewrite Hpc. auto.
    + destruct (env_step_frame e s) as (-> & _ & -> & _). exact IH.
Qed.

End HandshakeCounting.

(** X2. In every run from boot, under any interleaving with the writes of
    the dispatcher and the slaves: the stores of RUN_MSG_DONE never outnumber
    the go signals seen and lag them by at most one; the atomic increments
    are as many as the launches completed in DISPATCH_MODE_DEV and never
    more than the stores of DONE; the kernel is called at most once per go
    seen. *)
Theorem handshake_counts_balanced
    `{P : Platform} (sched : list action) (s0 : machine) :
  let t := trace (run sched (main_init s0)) in
  (count is_go_done t <= count is_go_seen t <= S (count is_go_done t))%nat /\
  count is_atomic_inc t = dev_launches t /\
  (count is_atomic_inc t <= count is_go_done t)%nat /\
  (count is_kernel_call t <= count is_go_seen t)%nat.
Proof.
  intros t. destruct (handshake_counts sched s0) as (Hack & Hdev & H).
  fold t in Hack, Hdev, H.
  destruct (pc (run sched (main_init s0))); intuition lia.
Qed.

(* ===================================================================== *)
(** * Dispatch firmware: further properties                               *)
(* ===================================================================== *)

(** X3. Without ARCH_BLACKHOLE the firmware serves one launch: in any run
    from boot it sees at most one go, calls at most one kernel, stores DONE
    at most once and sends at most one acknowledgement; and once it has read
    the mode of that launch it sits in the heartbeat loop of lines 175-177,
    where nothing that the dispatcher or the slaves write makes it emit
    anything again. *)
Theorem non_blackhole_serves_one_launch
    `{P : Platform} (sched : list action) (s0 : machine) :
  ARCH_BLACKHOLE = false ->
  let s := run sched (main_init s0) in
  (count is_go_seen (trace s) <= 1)%nat /\
  (count is_kernel_call (trace s) <= 1)%nat /\
  (count is_go_done (trace s) <= 1)%nat /\
  (count is_atomic_inc (trace s) <= 1)%nat /\
  (count is_mode_read (trace s) = 1%nat ->
   pc s = L_idle_forever /\
   forall sched' : list action,
     pc (run sched' s) = L_idle_forever /\ trace (run sched' s) = trace s).
Proof.
  intros Hbh s.
  destruct (non_blackhole_single_launch sched s0 Hbh) as [Hgo Hidle].
  destruct (handshake_counts sched s0) as (Hack & Hdev & H).
  fold s in Hgo, Hidle, Hack, Hdev, H.
  assert (Hpc : count is_mode_read (trace s) = 1%nat -> pc s = L_idle_forever).
  { intros Hm. destruct (pc s) eqn:Hpc; try reflexivity; exfalso;
      try (specialize (Hidle ltac:(auto))); intuition lia. }
  split; [exact Hgo|].
  split; [destruct (pc s); intuition lia|].
  split; [destruct (pc s); intuition lia|].
  split; [destruct (pc s); intuition lia|].
  intros Hm. split; [now apply Hpc|].
  intros sched'.
  destruct (halted_forever s sched' (or_introl (Hpc Hm))) as (E1 & E2 & _).
  split; [now rewrite E1, Hpc | exact E2].
Qed.

Lemma non_blackhole_serves_one_launch_witness :
  let P := sample_platform false in
  let s := run one_launch (main_init (power_on 1 0)) in
  count is_mode_read (trace s) = 1%nat /\
  pc (run (Env (Host_write_go sample_go) :: one_launch) s) = L_idle_forever /\
  trace (run (Env (Host_write_go sample_go) :: one_launch) s) = trace s.
Proof.
  intros P s.
  assert (Hm : count is_mode_read (trace s) = 1%nat) by reflexivity.
  split; [exact Hm|].
  destruct (@non_blackhole_serves_one_launch P one_launch (power_on 1 0) eq_refl)
    as (_ & _ & _ & _ & H).
  exact (proj2 (H Hm) (Env (Host_write_go sample_go) :: one_launch)).
Defined.

(** X4. If the kernel called at line 153 does not return, the firmware is
    never heard of again: whatever is written to the mailbox afterwards,
    it stores no RUN_MSG_DONE and sends no acknowledgement, its history ends
    with the kernel call. *)
Theorem kernel_that_hangs_blocks_the_handshake
    `{P : Platform} (s : machine) (a : Z) (sched : list action) :
  pc s = L_R ->
  Z.land (l_enables s) DISPATCH_CLASS_MASK_ETH_DM0 <> 0 ->
  kernel_address (l_kernel_config_base s) (mailboxes s) = Some a ->
  kernel_at a a (regs s) = None ->
  let s' := run sched (fw_step s) in
  pc s' = L_in_kernel /\
  trace s' = trace s ++ [Ev_kernel_call a a] /\
  count is_go_done (trace s') = count is_go_done (trace s) /\
  count is_atomic_inc (trace s') = count is_atomic_inc (trace s).
Proof.
  intros Hpc Hbit Ha Hk s'.
  assert (H1 : pc (fw_step s) = L_in_kernel /\
               trace (fw_step s) = trace s ++ [Ev_kernel_call a a]).
  { unfold fw_step, run_kernel. rewrite Hpc, Ha.
    destruct (Z.land (l_enables s) DISPATCH_CLASS_MASK_ETH_DM0 =? 0) eqn:E;
      [apply Z.eqb_eq in E; contradiction|].
    simpl. rewrite Hk. split; reflexivity. }
  destruct H1 as [Hp Ht].
  destruct (halted_forever (fw_step s) sched (or_intror (or_introl Hp))) as (E1 & E2 & _).
  fold s' in E1, E2.
  rewrite E1, E2, Hp, Ht, !count_snoc. simpl. repeat split; lia.
Qed.

(** A platform like [sample_platform] whose kernels never return. *)
Lemma kernel_that_hangs_blocks_the_handshake_witness :
  let P0 := sample_platform true in
  let P := Build_Platform RUN_MSG_GO RUN_MSG_DONE RUN_SYNC_MSG_GO
             RUN_SYNC_MSG_ALL_SLAVES_DONE DISPATCH_MODE_DEV DISPATCH_CLASS_MASK_ETH_DM0
             DISPATCH_CLASS_MASK_ETH_DM1 DISPATCH_CLASS_ETH_DM0
             ProgrammableCoreType_IDLE_ETH EthProcessorTypes_DM0
             launch_msg_buffer_num_entries slave_sync_store_dm1 NUM_CIRCULAR_BUFFERS
             get_cb_tiles_received_ptr get_cb_tiles_acked_ptr NOC_XY_ADDR NOC_X NOC_Y
             DISPATCH_MESSAGE_ADDR NCRISC_AT_CMD_BUF NOC_UNICAST_WRITE_VC
             MEM_NOC_ATOMIC_RET_VAL_ADDR MEM_SLAVE_IERISC_FIRMWARE_BASE true
             firmware_config_init RISC_POST_HEARTBEAT risc_init noc_init
             deassert_all_reset (fun _ _ _ => None) in
  let s := @fw_step P (@fw_step P (go_posted true 1 0)) in
  pc s = L_R /\
  count is_go_done (trace (@run P [Fw; Env (Slave_write_sync 0); Fw; Fw; Fw] (@fw_step P s)))
  = 0%nat.
Proof.
  intros P0 P s.
  assert (H1 : pc s = L_R) by reflexivity.
  assert (H2 : Z.land (l_enables s) DISPATCH_CLASS_MASK_ETH_DM0 <> 0) by discriminate.
  split; [exact H1|].
  exact (proj1 (proj2 (proj2
           (@kernel_that_hangs_blocks_the_handshake P s 0x9140
              [Fw; Env (Slave_write_sync 0); Fw; Fw; Fw] H1 H2 eq_refl eq_refl)))).
Defined.

(** X5. While [slave_sync.all] differs from RUN_SYNC_MSG_ALL_SLAVES_DONE
    and no slave writes it, the firmware stays in [wait_slave_eriscs]: each
    step is one poll and one heartbeat, the mailbox is left alone, and
    RUN_MSG_DONE is not stored. *)
Theorem stuck_slave_keeps_firmware_waiting
    `{P : Platform} (s : machine) (n : nat) :
  pc s = L_SEW ->
  slave_sync_all (mailboxes s) <> RUN_SYNC_MSG_ALL_SLAVES_DONE ->
  let s' := Nat.iter n fw_step s in
  pc s' = L_SEW /\
  mailboxes s' = mailboxes s /\
  heartbeat s' = Nat.iter n RISC_POST_HEARTBEAT (heartbeat s) /\
  trace s' = trace s ++ repeat (Ev_sync_poll (slave_sync_all (mailboxes s))) n /\
  count is_go_done (trace s') = count is_go_done (trace s).
Proof.
  intros Hpc Hne s'. subst s'.
  induction n as [|n IH].
  - simpl. rewrite app_nil_r. repeat split. exact Hpc.
  - rewrite !Nat.iter_succ.
    set (u := Nat.iter n fw_step s) in *.
    destruct IH as (Hp & Hmb & Hhb & Ht & Hc).
    unfold fw_step, wait_slave_eriscs. rewrite Hp, Hmb.
    destruct (slave_sync_all (mailboxes s) =? RUN_SYNC_MSG_ALL_SLAVES_DONE) eqn:E;
      [apply Z.eqb_eq in E; contradiction|].
    simpl. rewrite count_snoc, Hc. simpl.
    split; [exact Hp|]. split; [exact Hmb|]. split; [now rewrite Hhb|].
    split; [|lia].
    rewrite Ht, <- app_assoc. f_equal.
    now rewrite repeat_cons.
Qed.

Lemma stuck_slave_keeps_firmware_waiting_witness :
  let P := sample_platform true in
  let s := fw_step (fw_step (fw_step (go_posted true 3 0))) in
  pc s = L_SEW /\
  slave_sync_all (mailboxes s) <> RUN_SYNC_MSG_ALL_SLAVES_DONE /\
  pc (Nat.iter 7 fw_step s) = L_SEW /\
  count is_go_done (trace (Nat.iter 7 fw_step s)) = 0%nat.
Proof.
  intros P s.
  assert (H1 : pc s = L_SEW) by reflexivity.
  assert (H2 : slave_sync_all (mailboxes s) <> RUN_SYNC_MSG_ALL_SLAVES_DONE)
    by discriminate.
  split; [exact H1|]. split; [exact H2|].
  destruct (@stuck_slave_keeps_firmware_waiting P s 7 H1 H2) as (A & _ & _ & _ & B).
  split; [exact A | exact B].
Defined.

Section InitSyncFrame.
Context `{P : Platform}.

Lemma init_sync_operand_frame (r : regfile) (operand a : Z) :
  a <> get_cb_tiles_received_ptr operand ->
  a <> get_cb_tiles_acked_ptr operand ->
  init_sync_operand r operand a = r a.
Proof.
  intros H1 H2. unfold init_sync_operand, WRITE_REG.
  destruct (Z.eqb_spec a (get_cb_tiles_acked_ptr operand)); [contradiction|].
  destruct (Z.eqb_spec a (get_cb_tiles_received_ptr operand)); [contradiction|].
  reflexivity.
Qed.

Lemma fold_init_sync_frame (l : list Z) (r : regfile) (a : Z) :
  (forall operand, In operand l ->
     a <> get_cb_tiles_received_ptr operand /\ a <> get_cb_tiles_acked_ptr operand) ->
  fold_left init_sync_operand l r a = r a.
Proof.
  revert r. induction l as [|x l IH]; intros r H; simpl; [reflexivity|].
  rewrite IH by (intros; apply H; now right).
  apply init_sync_operand_frame; apply H; now left.
Qed.

Lemma fold_init_sync_zero_or_kept (l : list Z) (r : regfile) (a : Z) :
  fold_left init_sync_operand l r a = 0 \/ fold_left init_sync_operand l r a = r a.
Proof.
  revert r. induction l as [|x l IH]; intros r; simpl; [now right|].
  destruct (IH (init_sync_operand r x)) as [H|H]; [now left|].
  rewrite H. unfold init_sync_operand, WRITE_REG.
  repeat case_match; auto.
Qed.

End InitSyncFrame.

(** X6. [init_sync_registers] writes nothing but zeros and nothing but the
    tiles-received and tiles-acked registers of the operands below
    NUM_CIRCULAR_BUFFERS: every other address keeps its value, every address
    holds 0 or its old value, and running it twice is running it once. *)
Theorem init_sync_registers_touches_only_cb_counters
    `{P : Platform} (r : regfile) (a : Z) :
  ((forall operand, 0 <= operand < NUM_CIRCULAR_BUFFERS ->
      a <> get_cb_tiles_received_ptr operand /\ a <> get_cb_tiles_acked_ptr operand) ->
   init_sync_registers r a = r a) /\
  (init_sync_registers r a = 0 \/ init_sync_registers r a = r a) /\
  init_sync_registers (init_sync_registers r) a = init_sync_registers r a.
Proof.
  split; [|split].
  - intros H. apply fold_init_sync_frame.
    intros operand Hin. apply H.
    apply list_elem_of_In, elem_of_seqZ in Hin. lia.
  - apply fold_init_sync_zero_or_kept.
  - destruct (Z.eq_dec (init_sync_registers r a) 0) as [Hz|Hnz].
    + rewrite Hz. now apply fold_init_sync_keeps_zero.
    + apply fold_init_sync_frame. intros operand Hin.
      destruct (fold_init_sync_clears _ r operand Hin) as [H1 H2].
      split; intros ->; contradiction.
Qed.

Lemma init_sync_registers_touches_only_cb_counters_witness :
  let P := sample_platform true in
  init_sync_registers (fun _ => 0xBAD) 0xFFB14008 = 0xBAD.
Proof.
  intros P.
  apply (proj1 (@init_sync_registers_touches_only_cb_counters P (fun _ => 0xBAD) 0xFFB14008)).
  intros operand Hop. simpl. lia.
Defined.

(** X7. What the firmware writes into the mailbox: a step leaves
    [master_x], [master_y] and [dispatch_message_offset] of the go message
    alone, keeps the number of launch slots, and changes no launch message
    other than by zeroing [enables] of the slot it decoded, which it does
    only when notifying the dispatcher of a launch in DISPATCH_MODE_DEV.
    [CLEAR_PREVIOUS_LAUNCH_MESSAGE_ENTRY_FOR_WATCHER] of line 169, whose body
    is in a header that is not among the sources, is taken as empty, as it
    is without the watcher. *)
Theorem firmware_mailbox_footprint
    `{P : Platform} (s : machine) (i : nat) (lm : launch_msg_t) :
  launch (mailboxes s) !! i = Some lm ->
  let g := go_message (mailboxes s) in
  let g' := go_message (mailboxes (fw_step s)) in
  (master_x g' = master_x g /\ master_y g' = master_y g /\
   dispatch_message_offset g' = dispatch_message_offset g) /\
  length (launch (mailboxes (fw_step s))) = length (launch (mailboxes s)) /\
  (launch (mailboxes (fw_step s)) !! i = Some lm \/
   launch (mailboxes (fw_step s)) !! i = Some (clear_enables lm) /\
   pc s = L_notify /\ i = Z.to_nat (l_launch_msg_rd_ptr s) /\
   mode (kernel_config lm) = DISPATCH_MODE_DEV).
Proof.
  intros Hlm g g'. subst g g'.
  destruct (pc s) eqn:Hpc; unfold fw_step; rewrite Hpc;
    try (simpl; repeat split; auto; fail).
  - unfold wait_go. case_match; simpl; repeat split; auto.
  - unfold decode_launch, run_slave_eriscs. repeat case_match; simpl; repeat split; auto.
  - unfold run_kernel. repeat case_match; simpl; repeat split; auto.
  - unfold wait_slave_eriscs. case_match; simpl; repeat split; auto.
  - unfold notify_dispatcher.
    destruct (launch (mailboxes s) !! Z.to_nat (l_launch_msg_rd_ptr s)) as [lm0|] eqn:E0;
      [|simpl; repeat split; auto].
    destruct (mode (kernel_config lm0) =? DISPATCH_MODE_DEV) eqn:Em; simpl;
      [|repeat split; auto].
    rewrite length_insert. split; [repeat split|]. split; [reflexivity|].
    destruct (Nat.eq_dec i (Z.to_nat (l_launch_msg_rd_ptr s))) as [->|Hne].
    + right. rewrite Hlm in E0. injection E0 as <-.
      rewrite list_lookup_insert_eq by (eapply lookup_lt_Some; exact Hlm).
      apply Z.eqb_eq in Em. repeat split; auto.
    + left. rewrite list_lookup_insert_ne by auto. exact Hlm.
Qed.

Lemma firmware_mailbox_footprint_witness :
  let P := sample_platform true in
  let u := run (removelast one_launch) (main_init (power_on 1 0)) in
  launch (mailboxes u) !! 1%nat = Some (sample_launch_msg 1 0) /\
  master_y (go_message (mailboxes (fw_step u))) = master_y (go_message (mailboxes u)) /\
  length (launch (mailboxes (fw_step u))) = length (launch (mailboxes u)).
Proof.
  intros P u.
  assert (H1 : launch (mailboxes u) !! 1%nat = Some (sample_launch_msg 1 0))
    by (vm_compute; reflexivity).
  split; [exact H1|].
  destruct (@firmware_mailbox_footprint P u 1%nat _ H1) as ((_ & Hy & _) & Hl & _).
  split; [exact Hy | exact Hl].
Defined.

(** The writes of the others do not depend on what the firmware holds. *)
Lemma env_run_mailboxes `{P : Platform} (es : list env_action) (s u : machine) :
  mailboxes s = mailboxes u ->
  mailboxes (env_run es s) = mailboxes (env_run es u).
Proof.
  intros H. induction es as [|e es IH] using rev_ind; [exact H|].
  rewrite !env_run_snoc. destruct e; simpl; now rewrite IH.
Qed.

(** X8. A launch message whose [enables] is zero, as the firmware leaves
    the slot of a launch completed in DISPATCH_MODE_DEV, starts nothing when
    it is decoded: no slave is signalled, the mailbox and the registers are
    untouched and no kernel is called; the firmware goes straight to waiting
    for the slaves. *)
Theorem cleared_launch_message_runs_nothing
    `{P : Platform} (s : machine) (lm : launch_msg_t) (es : list env_action) :
  pc s = L_GD ->
  launch (mailboxes s) !! Z.to_nat (launch_msg_rd_ptr (mailboxes s))
  = Some (clear_enables lm) ->
  mailboxes (fw_step s) = mailboxes s /\
  let s' := fw_step (env_run es (fw_step s)) in
  pc s' = L_SEW /\ trace s' = trace s /\ regs s' = regs s /\
  mailboxes s' = mailboxes (env_run es s).
Proof.
  intros Hpc Hlm.
  assert (H1 : pc (fw_step s) = L_R /\ mailboxes (fw_step s) = mailboxes s /\
               regs (fw_step s) = regs s /\ trace (fw_step s) = trace s /\
               l_enables (fw_step s) = 0).
  { unfold fw_step, decode_launch. rewrite Hpc, Hlm. simpl.
    unfold run_slave_eriscs. rewrite Z.land_0_l. simpl. repeat split. }
  destruct H1 as (Hp1 & Hm1 & Hr1 & Ht1 & He1).
  split; [exact Hm1|].
  intros s'. subst s'.
  destruct (env_run_frame es (fw_step s)) as (Hp & Hr & Ht & _ & He & _).
  pose proof (env_run_mailboxes es _ _ Hm1) as Hm.
  set (u := env_run es (fw_step s)) in *.
  unfold fw_step, run_kernel. rewrite Hp, Hp1, He, He1, Z.land_0_l. simpl.
  repeat split; congruence.
Qed.

Lemma cleared_launch_message_runs_nothing_witness :
  let P := sample_platform true in
  let s := fw_step (go_posted true 0 0) in
  pc s = L_GD /\
  pc (fw_step (fw_step s)) = L_SEW /\ trace (fw_step (fw_step s)) = trace s.
Proof.
  intros P s.
  assert (H1 : pc s = L_GD) by reflexivity.
  assert (H2 : launch (mailboxes s) !! Z.to_nat (launch_msg_rd_ptr (mailboxes s))
               = Some (clear_enables (sample_launch_msg 7 0))) by reflexivity.
  split; [exact H1|].
  destruct (proj2 (@cleared_launch_message_runs_nothing P s _ [] H1 H2)) as (A & B & _).
  split; [exact A | exact B].
Defined.

(** X9. The acknowledgement of a launch in DISPATCH_MODE_DEV does not
    depend on [master_y]: it is one atomic increment by 1 with wrap 31, not
    linked, on the atomics command buffer and the unicast-write virtual
    channel of the NOC the launch message chose, and two go messages with
    the same [master_x] and [dispatch_message_offset] get it at the same
    address. *)
Theorem ack_ignores_master_y
    `{P : Platform} (s : machine) (g : go_msg_t) :
  pc s = L_notify ->
  launch_mode s = Some DISPATCH_MODE_DEV ->
  master_x g = master_x (go_message (mailboxes s)) ->
  dispatch_message_offset g = dispatch_message_offset (go_message (mailboxes s)) ->
  let s' := env_step (Host_write_go g) s in
  (exists addr,
      trace (fw_step s)
      = trace s ++ [Ev_mode_read DISPATCH_MODE_DEV;
                    Ev_atomic_inc (noc_index s) NCRISC_AT_CMD_BUF addr
                      NOC_UNICAST_WRITE_VC 1 31 false]) /\
  trace (fw_step s') = trace (fw_step s).
Proof.
  intros Hpc Hmode Hx Ho s'.
  pose proof (notify_dispatcher_ack s Hpc Hmode) as H1.
  assert (Hpc' : pc s' = L_notify) by exact Hpc.
  assert (Hmode' : launch_mode s' = Some DISPATCH_MODE_DEV) by exact Hmode.
  pose proof (notify_dispatcher_ack s' Hpc' Hmode') as H2.
  simpl in H1, H2.
  split; [eexists; exact H1|].
  rewrite H1, H2, Hx, Ho. reflexivity.
Qed.

Lemma ack_ignores_master_y_witness :
  let P := sample_platform true in
  let s := run (removelast one_launch) (main_init (power_on 1 0)) in
  pc s = L_notify /\
  trace (fw_step (env_step (Host_write_go (Build_go_msg 0 1 9 0)) s))
  = trace (fw_step s).
Proof.
  intros P s.
  assert (H1 : pc s = L_notify) by (vm_compute; reflexivity).
  assert (H2 : launch_mode s = Some DISPATCH_MODE_DEV) by (vm_compute; reflexivity).
  assert (H3 : master_x (Build_go_msg 0 1 9 0) = master_x (go_message (mailboxes s)))
    by (vm_compute; reflexivity).
  assert (H4 : dispatch_message_offset (Build_go_msg 0 1 9 0)
               = dispatch_message_offset (go_message (mailboxes s)))
    by (vm_compute; reflexivity).
  split; [exact H1|].
  exact (proj2 (@ack_ignores_master_y P s (Build_go_msg 0 1 9 0) H1 H2 H3 H4)).
Defined.

(* ===================================================================== *)
(** * bmm_op_multi_core_reuse.cpp: the program that is built              *)
(* ===================================================================== *)

Import BmmMultiCoreReuse.

Section CreateProgramFacts.
Variable DEBUG : bool.
Variable p : params.

Lemma wrap32_range (z : Z) : 0 <= wrap32 z < 2 ^ 32.
Proof. unfold wrap32. apply Z.mod_pos_bound. lia. Qed.

Lemma wrap32_small (z : Z) : 0 <= z < 2 ^ 32 -> wrap32 z = z.
Proof. intros H. unfold wrap32. now apply Z.mod_small. Qed.

Lemma wrap32_mul_l (a b : Z) : wrap32 (wrap32 a * b) = wrap32 (a * b).
Proof. unfold wrap32. now rewrite Z.mul_mod_idemp_l by lia. Qed.

Lemma wrap32_mul_r (a b : Z) : wrap32 (a * wrap32 b) = wrap32 (a * b).
Proof. unfold wrap32. now rewrite Z.mul_mod_idemp_r by lia. Qed.

(** The three sizes checked at lines 28-30 bound the end of the buffers. *)
Lemma l1_layout :
  in0_CB_size p <= 130 * 1024 -> in1_CB_size p <= 130 * 1024 ->
  out_CB_size p <= 540 * 1024 ->
  src1_cb_addr p = 200 * 1024 + in0_CB_size p /\
  output_cb_addr p = 200 * 1024 + in0_CB_size p + in1_CB_size p /\
  l1_valid_address_end p
  = 200 * 1024 + in0_CB_size p + in1_CB_size p + out_CB_size p /\
  l1_valid_address_end p <= 1000 * 1024.
Proof.
  intros H0 H1 H2.
  pose proof (wrap32_range (wrap32 (in0_block_tiles p * 2) * single_tile_size p)) as B0.
  pose proof (wrap32_range (wrap32 (in1_block_tiles p * 2) * single_tile_size p)) as B1.
  pose proof (wrap32_range (out_CB_tiles p * single_tile_size p)) as B2.
  fold (in0_CB_size p) in B0. fold (in1_CB_size p) in B1. fold (out_CB_size p) in B2.
  assert (E1 : src1_cb_addr p = 200 * 1024 + in0_CB_size p).
  { unfold src1_cb_addr, src0_cb_addr, l1_start. apply wrap32_small. lia. }
  assert (E2 : output_cb_addr p = 200 * 1024 + in0_CB_size p + in1_CB_size p).
  { unfold output_cb_addr. rewrite E1. apply wrap32_small. lia. }
  assert (E3 : l1_valid_address_end p
               = 200 * 1024 + in0_CB_size p + in1_CB_size p + out_CB_size p).
  { unfold l1_valid_address_end. rewrite E2. apply wrap32_small. lia. }
  repeat split; auto; lia.
Qed.

Lemma compute_cores_app (a b : list api_call) :
  compute_cores (a ++ b) = compute_cores a ++ compute_cores b.
Proof. unfold compute_cores. apply flat_map_app. Qed.

Lemma compute_cores_block (n y x : Z) :
  compute_cores (block_calls p n y x) = [core_of_block p n].
Proof. reflexivity. Qed.

Lemma inner_step_ok (y n x : Z) (calls : list api_call) :
  DEBUG && negb (l1_valid_address_end p <? 1024 * 1024) = false ->
  inner_step DEBUG p y (Ok (n, calls)) x
  = Ok (wrap32 (n + 1), calls ++ block_calls p n y x).
Proof.
  intros Hok. unfold inner_step, block_body, TT_ASSERT. simpl. now rewrite Hok.
Qed.

(** A pass of the loops that cannot stop at line 126. *)
Lemma inner_fold_ok (y : Z) (xs : list Z) (n0 : Z) (calls0 : list api_call) :
  DEBUG && negb (l1_valid_address_end p <? 1024 * 1024) = false ->
  0 <= n0 -> n0 + Z.of_nat (length xs) < 2 ^ 32 ->
  exists calls1,
    fold_left (inner_step DEBUG p y) xs (Ok (n0, calls0))
    = Ok (n0 + Z.of_nat (length xs), calls1) /\
    compute_cores calls1
    = compute_cores calls0 ++ map (core_of_block p) (seqZ n0 (Z.of_nat (length xs))) /\
    length calls1 = (length calls0 + 10 * length xs)%nat.
Proof.
  intros Hok. revert n0 calls0.
  induction xs as [|x xs IH]; intros n0 calls0 Hn0 Hlt.
  - exists calls0. simpl. rewrite Z.add_0_r, app_nil_r. repeat split. lia.
  - cbn [fold_left]. rewrite inner_step_ok by exact Hok.
    rewrite (wrap32_small (n0 + 1)) by (simpl length in Hlt; lia).
    destruct (IH (n0 + 1) (calls0 ++ block_calls p n0 y x)) as (calls1 & E & Hc & Hl);
      [lia | simpl length in Hlt; lia |].
    exists calls1. split; [|split].
    + rewrite E. f_equal. f_equal. simpl length. lia.
    + rewrite Hc, compute_cores_app, compute_cores_block, <- app_assoc.
      f_equal. simpl length.
      rewrite (seqZ_cons n0) by lia. simpl. f_equal. f_equal.
      f_equal; lia.
    + rewrite Hl, length_app. simpl. lia.
Qed.

Lemma outer_fold_ok (ys : list Z) (n0 : Z) (calls0 : list api_call) :
  DEBUG && negb (l1_valid_address_end p <? 1024 * 1024) = false ->
  per_core_N p <> 0 -> 0 <= N p / per_core_N p <= INT_MAX ->
  (0 < N p / per_core_N p -> num_cores_x p <> 0) ->
  0 <= n0 -> n0 + Z.of_nat (length ys) * (N p / per_core_N p) < 2 ^ 32 ->
  exists calls1,
    fold_left (outer_step DEBUG p) ys (Ok (n0, calls0))
    = Ok (n0 + Z.of_nat (length ys) * (N p / per_core_N p), calls1) /\
    compute_cores calls1
    = compute_cores calls0
      ++ map (core_of_block p)
           (seqZ n0 (Z.of_nat (length ys) * (N p / per_core_N p))) /\
    length calls1
    = (length calls0 + 10 * (length ys * Z.to_nat (N p / per_core_N p)))%nat.
Proof.
  intros Hok HpN Hcx Hncx. revert n0 calls0.
  induction ys as [|y ys IH]; intros n0 calls0 Hn0 Hlt.
  - exists calls0. simpl. rewrite Z.add_0_r, app_nil_r. repeat split. lia.
  - cbn [fold_left]. unfold outer_step at 2. cbn [bind].
    destruct (Z.eqb_spec (per_core_N p) 0) as [?|_]; [contradiction|].
    destruct (Z.ltb_spec INT_MAX (N p / per_core_N p)) as [?|_]; [lia|].
    assert (Hg : (0 <? N p / per_core_N p) && (num_cores_x p =? 0) = false).
    { destruct (Z.ltb_spec 0 (N p / per_core_N p)); [|reflexivity].
      destruct (Z.eqb_spec (num_cores_x p) 0); [|reflexivity].
      exfalso. now apply Hncx. }
    rewrite Hg.
    set (cx := N p / per_core_N p) in *.
    assert (Hlen : Z.of_nat (length (seqZ 0 cx)) = cx)
      by (rewrite length_seqZ; lia).
    simpl length in Hlt.
    destruct (inner_fold_ok y (seqZ 0 cx) n0 calls0 Hok Hn0) as (c1 & E1 & Hc1 & Hl1);
      [rewrite Hlen; nia|].
    unfold loop_state in *. rewrite E1, Hlen.
    destruct (IH (n0 + cx) c1) as (c2 & E2 & Hc2 & Hl2); [lia | nia |].
    exists c2. split; [|split].
    + rewrite E2. f_equal. f_equal. simpl length. lia.
    + rewrite Hc2, Hc1, Hlen, <- app_assoc. f_equal.
      rewrite <- map_app. f_equal.
      replace (Z.of_nat (length (y :: ys)) * cx)
        with (cx + Z.of_nat (length ys) * cx) by (simpl length; lia).
      rewrite seqZ_app by nia. reflexivity.
    + rewrite Hl2, Hl1, length_seqZ. simpl length. lia.
Qed.


Lemma outer_fold_undefined (ys : list Z) :
  fold_left (outer_step DEBUG p) ys Undefined = Undefined.
Proof. induction ys as [|y ys IH]; [reflexivity|exact IH]. Qed.

Lemma outer_fold_assert (ys : list Z) (l : Z) :
  fold_left (outer_step DEBUG p) ys (Assert_failed l) = Assert_failed l.
Proof. induction ys as [|y ys IH]; [reflexivity|exact IH]. Qed.

(** A first pass of the outer loop that goes through has met the
    conditions under which the inner loop is defined. *)
Lemma outer_fold_defined (y : Z) (ys : list Z) (st st' : loop_state) :
  fold_left (outer_step DEBUG p) (y :: ys) (Ok st) = Ok st' ->
  per_core_N p <> 0 /\ N p / per_core_N p <= INT_MAX /\
  (0 < N p / per_core_N p -> num_cores_x p <> 0).
Proof.
  cbn [fold_left]. unfold outer_step at 2. cbn [bind].
  destruct (Z.eqb_spec (per_core_N p) 0) as [?|Hn];
    [rewrite outer_fold_undefined; discriminate|].
  destruct (Z.ltb_spec INT_MAX (N p / per_core_N p)) as [?|Hc];
    [rewrite outer_fold_undefined; discriminate|].
  destruct (Z.ltb_spec 0 (N p / per_core_N p)) as [Hpos|Hnp];
    destruct (Z.eqb_spec (num_cores_x p) 0) as [Hz|Hnz]; simpl;
    try (rewrite outer_fold_undefined; discriminate); intros _; repeat split; auto; lia.
Qed.

(** The assertions of lines 28-30, when they are checked and pass, settle
    the one of line 126. *)
Lemma asserts_settle_line_126 (k : outcome (list api_call)) (calls : list api_call) :
  TT_ASSERT DEBUG 28 (in0_CB_size p <=? 130 * 1024)
    (TT_ASSERT DEBUG 29 (in1_CB_size p <=? 130 * 1024)
       (TT_ASSERT DEBUG 30 (out_CB_size p <=? 540 * 1024) k)) = Ok calls ->
  k = Ok calls /\
  DEBUG && negb (l1_valid_address_end p <? 1024 * 1024) = false.
Proof.
  unfold TT_ASSERT. destruct DEBUG; simpl; [|auto].
  destruct (Z.leb_spec (in0_CB_size p) (130 * 1024)); simpl; [|discriminate].
  destruct (Z.leb_spec (in1_CB_size p) (130 * 1024)); simpl; [|discriminate].
  destruct (Z.leb_spec (out_CB_size p) (540 * 1024)); simpl; [|discriminate].
  intros E. split; [exact E|].
  destruct (l1_layout ltac:(assumption) ltac:(assumption) ltac:(assumption))
    as (_ & _ & _ & Hend).
  destruct (Z.ltb_spec (l1_valid_address_end p) (1024 * 1024)); [reflexivity|lia].
Qed.

(** What a run of [create_program] that returns has done. *)
Lemma create_program_returns (calls : list api_call) :
  create_program DEBUG p = Ok calls ->
  is_u32 (M p) -> is_u32 (N p) -> is_u32 (per_core_M p) -> is_u32 (per_core_N p) ->
  let blocks := (M p / per_core_M p) * (N p / per_core_N p) in
  blocks < 2 ^ 32 ->
  compute_cores calls = map (core_of_block p) (seqZ 0 blocks) /\
  length calls = (10 * Z.to_nat blocks)%nat /\
  (0 < blocks -> num_cores_x p <> 0).
Proof.
  intros E HM HN HpM HpN blocks Hb. unfold create_program in E.
  apply asserts_settle_line_126 in E as [E Hok].
  destruct ((in0_block_w p =? 0) || (out_subblock_h p =? 0) || (out_subblock_w p =? 0)
            || (per_core_M p =? 0)) eqn:Ed; [discriminate|].
  destruct (Z.ltb_spec INT_MAX (M p / per_core_M p)) as [?|Hcy]; [discriminate|].
  destruct (fold_left (outer_step DEBUG p) (seqZ 0 (M p / per_core_M p)) (Ok (0, [])))
    as [st| |] eqn:Ef; try discriminate.
  simpl in E. injection E as <-.
  unfold is_u32 in *.
  assert (HpM0 : per_core_M p <> 0).
  { apply orb_false_iff in Ed as [_ Ed]. now apply Z.eqb_neq in Ed. }
  assert (Hcy0 : 0 <= M p / per_core_M p) by (apply Z.div_pos; lia).
  destruct (Z.eq_dec (M p / per_core_M p) 0) as [Hz|Hnz].
  - rewrite Hz in Ef. simpl in Ef. injection Ef as <-.
    unfold blocks. rewrite Hz. simpl. repeat split. lia.
  - assert (Hys : exists y ys, seqZ 0 (M p / per_core_M p) = y :: ys).
    { rewrite seqZ_cons by lia. eauto. }
    destruct Hys as (y & ys & Hys). rewrite Hys in Ef.
    destruct (outer_fold_defined _ _ _ _ Ef) as (HpN0 & Hcx & Hncx).
    rewrite <- Hys in Ef.
    assert (Hcx0 : 0 <= N p / per_core_N p) by (apply Z.div_pos; lia).
    assert (Hlen : Z.of_nat (length (seqZ 0 (M p / per_core_M p))) = M p / per_core_M p)
      by (rewrite length_seqZ; lia).
    destruct (outer_fold_ok (seqZ 0 (M p / per_core_M p)) 0 [] Hok HpN0
                (conj Hcx0 Hcx) Hncx (Z.le_refl 0)) as (c1 & E1 & Hc1 & Hl1);
      [rewrite Hlen; fold blocks; lia|].
    unfold loop_state in *. rewrite E1 in Ef. injection Ef as <-.
    rewrite Hlen in Hc1. simpl in Hc1, Hl1. rewrite Z.add_0_l. 
    split; [exact Hc1|]. split.
    + simpl. rewrite Hl1, length_seqZ. unfold blocks.
      rewrite Z2Nat.inj_mul by lia. lia.
    + intros Hpos. apply Hncx. unfold blocks in Hpos. nia.
Qed.

End CreateProgramFacts.

Section CreateProgramNoAssert.
Variable DEBUG : bool.
Variable p : params.
Hypothesis Hok : DEBUG && negb (l1_valid_address_end p <? 1024 * 1024) = false.

Lemma inner_fold_no_assert (y : Z) (xs : list Z) (o : outcome loop_state) :
  no_assert o -> no_assert (fold_left (inner_step DEBUG p y) xs o).
Proof.
  revert o. induction xs as [|x xs IH]; intros o Ho; [exact Ho|].
  cbn [fold_left]. apply IH.
  destruct o as [[n calls]| |].
  - rewrite inner_step_ok by exact Hok. intros l. discriminate.
  - destruct (Ho line eq_refl).
  - intros l. discriminate.
Qed.

Lemma outer_fold_no_assert (ys : list Z) (o : outcome loop_state) :
  no_assert o -> no_assert (fold_left (outer_step DEBUG p) ys o).
Proof.
  revert o. induction ys as [|y ys IH]; intros o Ho; [exact Ho|].
  cbn [fold_left]. apply IH.
  destruct o as [st| |].
  - unfold outer_step. cbn [bind].
    repeat case_match; try (intros l; discriminate).
    apply inner_fold_no_assert. intros l. discriminate.
  - destruct (Ho line eq_refl).
  - intros l. discriminate.
Qed.

End CreateProgramNoAssert.

(** X10. The assertion of line 126 is settled by those of lines 28-30:
    whatever its arguments and with or without DEBUG, [create_program] never
    stops at line 126.  When the three sizes are within the bounds of lines
    28-30, the buffers 0, 1 and 16 of a core lie one after the other from
    200 KiB on, each as long as the size passed for it, and end at most at
    1000 KiB; buffer 24 has the address and the size of buffer 16. *)
Theorem l1_assert_never_fails (DEBUG : bool) (p : params) :
  create_program DEBUG p <> Assert_failed 126 /\
  (in0_CB_size p <= 130 * 1024 -> in1_CB_size p <= 130 * 1024 ->
   out_CB_size p <= 540 * 1024 ->
   forall n y x core,
     core = core_of_block p n ->
     cbs_on core (block_calls p n y x)
     = [ (0, 200 * 1024, in0_CB_size p);
         (1, 200 * 1024 + in0_CB_size p, in1_CB_size p);
         (16, 200 * 1024 + in0_CB_size p + in1_CB_size p, out_CB_size p);
         (24, 200 * 1024 + in0_CB_size p + in1_CB_size p, out_CB_size p) ] /\
     0 <= in0_CB_size p /\ 0 <= in1_CB_size p /\ 0 <= out_CB_size p /\
     200 * 1024 + in0_CB_size p + in1_CB_size p + out_CB_size p <= 1000 * 1024).
Proof.
  split.
  - unfold create_program, TT_ASSERT.
    destruct DEBUG; simpl.
    + destruct (Z.leb_spec (in0_CB_size p) (130 * 1024)); simpl; [|discriminate].
      destruct (Z.leb_spec (in1_CB_size p) (130 * 1024)); simpl; [|discriminate].
      destruct (Z.leb_spec (out_CB_size p) (540 * 1024)); simpl; [|discriminate].
      assert (Hok : true && negb (l1_valid_address_end p <? 1024 * 1024) = false).
      { destruct (l1_layout p ltac:(assumption) ltac:(assumption) ltac:(assumption))
          as (_ & _ & _ & Hend).
        destruct (Z.ltb_spec (l1_valid_address_end p) (1024 * 1024)); [reflexivity|lia]. }
      repeat case_match; try discriminate.
      pose proof (outer_fold_no_assert true p Hok (seqZ 0 (M p / per_core_M p))
                    (Ok (0, [])) ltac:(intros l; discriminate)) as Hn.
      destruct (fold_left _ _ _) as [st|l|]; simpl; try discriminate.
      destruct (Hn l eq_refl).
    + repeat case_match; try discriminate.
      pose proof (outer_fold_no_assert false p eq_refl (seqZ 0 (M p / per_core_M p))
                    (Ok (0, [])) ltac:(intros l; discriminate)) as Hn.
      destruct (fold_left _ _ _) as [st|l|]; simpl; try discriminate.
      destruct (Hn l eq_refl).
  - intros H0 H1 H2 n y x core ->.
    destruct (l1_layout p H0 H1 H2) as (E1 & E2 & E3 & Hend).
    pose proof (wrap32_range (wrap32 (in0_block_tiles p * 2) * single_tile_size p)) as B0.
    pose proof (wrap32_range (wrap32 (in1_block_tiles p * 2) * single_tile_size p)) as B1.
    pose proof (wrap32_range (out_CB_tiles p * single_tile_size p)) as B2.
    fold (in0_CB_size p) in B0. fold (in1_CB_size p) in B1. fold (out_CB_size p) in B2.
    split; [|repeat split; lia].
    unfold cbs_on, block_calls. cbn [flat_map app].
    rewrite !Z.eqb_refl. cbn [andb app].
    rewrite <- E2, <- E1. reflexivity.
Qed.

Lemma l1_assert_never_fails_witness :
  let p := Build_params 2048 12 32 32 4 2 4 2 16 16 0x1000 0x2000 0x3000 in
  cbs_on (3, 0) (block_calls p 3 0 3)
  = [ (0, 204800, 131072); (1, 335872, 131072); (16, 466944, 524288);
      (24, 466944, 524288) ].
Proof.
  intros p.
  assert (H0 : in0_CB_size p <= 130 * 1024) by (vm_compute; discriminate).
  assert (H1 : in1_CB_size p <= 130 * 1024) by (vm_compute; discriminate).
  assert (H2 : out_CB_size p <= 540 * 1024) by (vm_compute; discriminate).
  exact (proj1 (proj2 (l1_assert_never_fails true p) H0 H1 H2 3 0 3 (3, 0) eq_refl)).
Defined.

Lemma core_of_block_small (p : params) (k : Z) :
  0 < num_cores_x p -> 0 <= k <= INT_MAX ->
  core_of_block p k = (k mod num_cores_x p, k / num_cores_x p).
Proof.
  intros Hn Hk. unfold core_of_block, int_of_u32, size_t_of_int, INT_MAX in *.
  pose proof (Z.mod_pos_bound k (num_cores_x p) Hn).
  pose proof (Z.mod_le k (num_cores_x p) ltac:(lia) Hn).
  assert (0 <= k / num_cores_x p <= k).
  { split; [apply Z.div_pos; lia|]. apply Z.div_le_upper_bound; [lia|].
    assert (k * 1 <= k * num_cores_x p) by (apply Z.mul_le_mono_nonneg_l; lia). lia. }
  destruct (Z.leb_spec (k mod num_cores_x p) (2 ^ 31 - 1)); [|lia].
  destruct (Z.leb_spec (k / num_cores_x p) (2 ^ 31 - 1)); [|lia].
  rewrite (Z.mod_small (k mod num_cores_x p) (2 ^ 64)) by lia.
  rewrite (Z.mod_small (k / num_cores_x p) (2 ^ 64)) by lia. reflexivity.
Qed.

Lemma cores_of_blocks (p : params) (num_cores_y blocks : Z) :
  0 < num_cores_x p ->
  blocks <= num_cores_x p * num_cores_y -> blocks <= 2 ^ 31 ->
  map (core_of_block p) (seqZ 0 blocks)
  = map (fun k => (k mod num_cores_x p, k / num_cores_x p)) (seqZ 0 blocks) /\
  NoDup (map (core_of_block p) (seqZ 0 blocks)) /\
  (forall c, In c (map (core_of_block p) (seqZ 0 blocks)) ->
             0 <= fst c < num_cores_x p /\ 0 <= snd c < num_cores_y).
Proof.
  intros Hn Hb H31.
  assert (E : map (core_of_block p) (seqZ 0 blocks)
              = map (fun k => (k mod num_cores_x p, k / num_cores_x p)) (seqZ 0 blocks)).
  { apply map_ext_in. intros k Hk.
    apply list_elem_of_In, elem_of_seqZ in Hk.
    apply core_of_block_small; unfold INT_MAX; lia. }
  split; [exact E|]. rewrite E. split.
  - apply NoDup_ListNoDup, Finite.Injective_map_NoDup;
      [|apply NoDup_ListNoDup, NoDup_seqZ].
    intros a b Hab. injection Hab as H1 H2.
    rewrite (Z.div_mod a (num_cores_x p)), (Z.div_mod b (num_cores_x p)) by lia.
    congruence.
  - intros c Hc. apply in_map_iff in Hc as (k & <- & Hk).
    apply list_elem_of_In, elem_of_seqZ in Hk. simpl.
    pose proof (Z.mod_pos_bound k (num_cores_x p) Hn).
    split; [lia|]. split; [apply Z.div_pos; lia|].
    apply Z.div_lt_upper_bound; lia.
Qed.

(** X11. When [create_program] returns and the blocks of the output,
    [(M / per_core_M) * (N / per_core_N)] of them, are no more than the
    cores of a grid [num_cores_x] by [num_cores_y] (of at most 2^31 cores),
    it has made ten calls per block (the four circular buffers, the two
    data movement kernels, the compute kernel arguments and the compute
    kernel, the two sets of runtime arguments), block number [k] is placed
    on core [(k mod num_cores_x, k / num_cores_x)], every core lies inside
    the grid and no two blocks share a core. *)
Theorem every_block_has_its_own_core
    (DEBUG : bool) (p : params) (calls : list api_call) (num_cores_y : Z) :
  create_program DEBUG p = Ok calls ->
  params_u32 p ->
  let blocks := (M p / per_core_M p) * (N p / per_core_N p) in
  blocks <= num_cores_x p * num_cores_y ->
  num_cores_x p * num_cores_y <= 2 ^ 31 ->
  length calls = (10 * Z.to_nat blocks)%nat /\
  compute_cores calls
  = map (fun k => (k mod num_cores_x p, k / num_cores_x p)) (seqZ 0 blocks) /\
  NoDup (compute_cores calls) /\
  (forall c, In c (compute_cores calls) ->
             0 <= fst c < num_cores_x p /\ 0 <= snd c < num_cores_y).
Proof.
  intros E Hu blocks Hb H31.
  destruct Hu as (_ & Hncx & HM & HN & _ & _ & _ & _ & HpM & HpN & _).
  destruct (create_program_returns DEBUG p calls E HM HN HpM HpN) as (Hc & Hl & Hnz);
    [fold blocks; lia|].
  fold blocks in Hc, Hl, Hnz.
  split; [exact Hl|]. rewrite Hc.
  destruct (Z.le_gt_cases blocks 0) as [Hz|Hpos].
  - rewrite seqZ_nil by lia. simpl.
    split; [reflexivity|]. split; [apply NoDup_nil_2 | intros c []].
  - apply cores_of_blocks; try lia.
    specialize (Hnz Hpos). unfold is_u32 in Hncx. lia.
Qed.

Lemma every_block_has_its_own_core_witness :
  let p := Build_params 2048 2 32 48 4 2 4 2 16 16 0x1000 0x2000 0x3000 in
  exists calls,
    create_program true p = Ok calls /\
    compute_cores calls = [(0, 0); (1, 0); (0, 1); (1, 1); (0, 2); (1, 2)].
Proof.
  intros p.
  assert (E : exists calls, create_program true p = Ok calls)
    by (vm_compute; eexists; reflexivity).
  destruct E as [calls E]. exists calls. split; [exact E|].
  assert (Hu : params_u32 p) by (unfold params_u32, is_u32; simpl; lia).
  assert (Hb : (M p / per_core_M p) * (N p / per_core_N p) <= num_cores_x p * 3)
    by (vm_compute; discriminate).
  assert (H31 : num_cores_x p * 3 <= 2 ^ 31) by (vm_compute; discriminate).
  exact (proj1 (proj2 (every_block_has_its_own_core true p calls 3 E Hu Hb H31))).
Defined.

(** X12. The tile counts the kernels are given agree.  When
    [out_subblock_h] divides [per_core_M], [out_subblock_w] divides
    [per_core_N] and twice [per_core_M * in0_block_w] and twice
    [per_core_N * in0_block_w] are below 2^32, the compute kernel's tiles
    per in0 block and per in1 block are [per_core_M * in0_block_w] and
    [per_core_N * in0_block_w], as in the reader's runtime arguments, and
    circular buffers 0 and 1 of every block are created with exactly twice
    as many tiles; the compute kernel's [in1_per_core_w] is [per_core_N];
    compute kernel and reader get the same number of blocks along K, and
    compute kernel and writer the same numbers of subblocks. *)
Theorem kernel_arguments_agree (p : params) (n y x : Z) :
  params_u32 p ->
  out_subblock_h p <> 0 -> out_subblock_w p <> 0 ->
  per_core_M p mod out_subblock_h p = 0 ->
  per_core_N p mod out_subblock_w p = 0 ->
  2 * (per_core_M p * in0_block_w p) < 2 ^ 32 ->
  2 * (per_core_N p * in0_block_w p) < 2 ^ 32 ->
  let in0_tiles := nth 2 (compute_kernel_args p) 0 in
  let in1_tiles := nth 5 (compute_kernel_args p) 0 in
  in0_tiles = per_core_M p * in0_block_w p /\
  in0_tiles = nth 7 (mm_reader_args p y x) 0 /\
  In (CreateCircularBuffer 0 (core_of_block p n) (2 * in0_tiles) (in0_CB_size p)
        src0_cb_addr)
     (block_calls p n y x) /\
  in1_tiles = per_core_N p * in0_block_w p /\
  in1_tiles = nth 15 (mm_reader_args p y x) 0 /\
  In (CreateCircularBuffer 1 (core_of_block p n) (2 * in1_tiles) (in1_CB_size p)
        (src1_cb_addr p))
     (block_calls p n y x) /\
  nth 6 (compute_kernel_args p) 0 = per_core_N p /\
  nth 7 (compute_kernel_args p) 0 = nth 16 (mm_reader_args p y x) 0 /\
  nth 1 (compute_kernel_args p) 0 = nth 10 (writer_args p y x) 0 /\
  nth 4 (compute_kernel_args p) 0 = nth 9 (writer_args p y x) 0.
Proof.
  intros Hu Hh Hw Dh Dw B0 B1 in0_tiles in1_tiles.
  destruct Hu as (_ & _ & _ & _ & _ & Hbw & _ & _ & HpM & HpN & _).
  unfold is_u32 in Hbw, HpM, HpN.
  assert (EM : out_subblock_h p * (per_core_M p / out_subblock_h p) = per_core_M p).
  { rewrite (Z.div_mod (per_core_M p) (out_subblock_h p)) at 2 by lia. lia. }
  assert (EN : out_subblock_w p * (per_core_N p / out_subblock_w p) = per_core_N p).
  { rewrite (Z.div_mod (per_core_N p) (out_subblock_w p)) at 2 by lia. lia. }
  assert (P0 : 0 <= per_core_M p * in0_block_w p) by (apply Z.mul_nonneg_nonneg; lia).
  assert (P1 : 0 <= per_core_N p * in0_block_w p) by (apply Z.mul_nonneg_nonneg; lia).
  assert (T0 : in0_tiles = per_core_M p * in0_block_w p).
  { unfold in0_tiles. cbn [nth compute_kernel_args].
    unfold in0_block_num_tiles, in0_num_subblocks. rewrite wrap32_mul_l.
    replace (out_subblock_h p * in0_block_w p * (per_core_M p / out_subblock_h p))
      with (in0_block_w p * (out_subblock_h p * (per_core_M p / out_subblock_h p)))
      by lia.
    rewrite EM, Z.mul_comm. apply wrap32_small. lia. }
  assert (T1 : in1_tiles = per_core_N p * in0_block_w p).
  { unfold in1_tiles. cbn [nth compute_kernel_args].
    unfold in1_block_num_tiles, in1_num_subblocks. rewrite wrap32_mul_l.
    replace (out_subblock_w p * in0_block_w p * (per_core_N p / out_subblock_w p))
      with (in0_block_w p * (out_subblock_w p * (per_core_N p / out_subblock_w p)))
      by lia.
    rewrite EN, Z.mul_comm. apply wrap32_small. lia. }
  assert (I0 : in0_block_tiles p = per_core_M p * in0_block_w p)
    by (apply wrap32_small; lia).
  assert (I1 : in1_block_tiles p = per_core_N p * in0_block_w p)
    by (apply wrap32_small; lia).
  assert (C0 : cb0_tiles p = 2 * in0_tiles).
  { unfold cb0_tiles. rewrite I0, T0, Z.mul_comm. apply wrap32_small. lia. }
  assert (C1 : cb1_tiles p = 2 * in1_tiles).
  { unfold cb1_tiles. rewrite I1, T1, Z.mul_comm. apply wrap32_small. lia. }
  split; [exact T0|].
  split.
  { rewrite T0. cbn [nth mm_reader_args]. rewrite Z.mul_comm.
    symmetry. apply wrap32_small. lia. }
  split.
  { rewrite <- C0. unfold block_calls. left. reflexivity. }
  split; [exact T1|].
  split.
  { rewrite T1. cbn [nth mm_reader_args]. symmetry. apply wrap32_small. lia. }
  split.
  { rewrite <- C1. unfold block_calls. right. left. reflexivity. }
  cbn [nth compute_kernel_args mm_reader_args writer_args].
  unfold in1_per_core_w, in0_num_subblocks, in1_num_subblocks, num_blocks.
  rewrite EN.
  split; [apply wrap32_small; exact HpN|].
  repeat split.
Qed.

Lemma kernel_arguments_agree_witness :
  let p := Build_params 2048 12 32 32 4 2 4 2 16 16 0x1000 0x2000 0x3000 in
  nth 2 (compute_kernel_args p) 0 = 32 /\ nth 7 (mm_reader_args p 1 1) 0 = 32 /\
  In (CreateCircularBuffer 0 (3, 0) 64 (in0_CB_size p) src0_cb_addr)
     (block_calls p 3 1 1).
Proof.
  intros p.
  assert (Hu : params_u32 p) by (unfold params_u32, is_u32; simpl; lia).
  assert (Hh : out_subblock_h p <> 0) by discriminate.
  assert (Hw : out_subblock_w p <> 0) by discriminate.
  assert (B0 : 2 * (per_core_M p * in0_block_w p) < 2 ^ 32) by (simpl; lia).
  assert (B1 : 2 * (per_core_N p * in0_block_w p) < 2 ^ 32) by (simpl; lia).
  destruct (kernel_arguments_agree p 3 1 1 Hu Hh Hw eq_refl eq_refl B0 B1)
    as (A & B & C & _).
  split; [exact A|]. split; [rewrite <- B; exact A | exact C].
Defined.

Section MatmulFacts.
Variables TILE_HEIGHT TILE_WIDTH : Z.
Hypothesis TILE_HEIGHT_pos : 0 < TILE_HEIGHT.
Hypothesis TILE_WIDTH_pos : 0 < TILE_WIDTH.

Lemma div_u32 (a d : Z) : is_u32 a -> 0 < d -> is_u32 (a / d).
Proof.
  unfold is_u32. intros Ha Hd. split; [apply Z.div_pos; lia|].
  apply Z.le_lt_trans with a; [|lia].
  apply Z.div_le_upper_bound; [lia|].
  assert (a * 1 <= a * d) by (apply Z.mul_le_mono_nonneg_l; lia). lia.
Qed.

Lemma matmul_create_program_runs (DEBUG : bool) (ashape bshape : shape4)
    (ncx a0 a1 a2 : Z) :
  is_u32 (dim2 ashape) -> is_u32 (dim3 bshape) -> 0 < ncx ->
  let p := matmul_params TILE_HEIGHT TILE_WIDTH ashape bshape ncx a0 a1 a2 in
  (M p / 16) * (N p / 16) < 2 ^ 32 ->
  exists calls, create_program DEBUG p = Ok calls.
Proof.
  intros Ha Hb Hn p Hblocks.
  assert (HM : is_u32 (M p)) by (apply div_u32; assumption).
  assert (HN : is_u32 (N p)) by (apply div_u32; assumption).
  assert (HM16 : is_u32 (M p / 16)) by (apply div_u32; [assumption|lia]).
  assert (HN16 : is_u32 (N p / 16)) by (apply div_u32; [assumption|lia]).
  unfold is_u32 in *.
  assert (Hok : DEBUG && negb (l1_valid_address_end p <? 1024 * 1024) = false)
    by (destruct DEBUG; reflexivity).
  assert (Hlen : Z.of_nat (length (seqZ 0 (M p / 16))) = M p / 16)
    by (rewrite length_seqZ; lia).
  assert (BM : M p / 16 < 2 ^ 28) by (apply Z.div_lt_upper_bound; lia).
  assert (BN : N p / 16 < 2 ^ 28) by (apply Z.div_lt_upper_bound; lia).
  assert (G1 : per_core_N p <> 0) by discriminate.
  assert (G2 : 0 <= N p / per_core_N p <= INT_MAX)
    by (change (per_core_N p) with 16; unfold INT_MAX; lia).
  assert (G3 : 0 < N p / per_core_N p -> num_cores_x p <> 0)
    by (intros _; change (num_cores_x p) with ncx; lia).
  assert (G4 : 0 + Z.of_nat (length (seqZ 0 (M p / 16))) * (N p / per_core_N p) < 2 ^ 32)
    by (rewrite Hlen; change (per_core_N p) with 16; lia).
  destruct (outer_fold_ok DEBUG p (seqZ 0 (M p / 16)) 0 [] Hok G1 G2 G3 (Z.le_refl 0) G4)
    as (c1 & E1 & _).
  exists c1. unfold create_program, TT_ASSERT.
  change (in0_CB_size p <=? 130 * 1024) with true.
  change (in1_CB_size p <=? 130 * 1024) with true.
  change (out_CB_size p <=? 540 * 1024) with true.
  rewrite !andb_false_r.
  change (in0_block_w p =? 0) with false. change (out_subblock_h p =? 0) with false.
  change (out_subblock_w p =? 0) with false. change (per_core_M p =? 0) with false.
  cbn [orb]. change (per_core_M p) with 16.
  destruct (Z.ltb_spec INT_MAX (M p / 16)) as [Hc|_]; [unfold INT_MAX in Hc; lia|].
  unfold loop_state in *. rewrite E1. reflexivity.
Qed.

End MatmulFacts.

(** X13. [matmul_multi_core_reuse_] does not trip over [create_program]
    when the count of line 268 does not wrap.  With the block sizes it
    passes (tiles of 2048 bytes, in0_block_w 2, subblocks 4 by 2, 16 by 16
    tiles per core), for shapes whose number of output blocks
    [(Mt / 16) * (Nt / 16)] is below 2^32, and a grid of at least one column
    and at most 2^31 cores that passes the check of line 269,
    [create_program] returns, with or without DEBUG; it has made ten calls
    per block and created the kernels of each block on a core of its own
    inside the grid. *)
Theorem matmul_blocks_fit_the_grid
    (TILE_HEIGHT TILE_WIDTH : Z) (DEBUG : bool) (ashape bshape : shape4)
    (num_cores_x num_cores_y in0 in1 out : Z) :
  0 < TILE_HEIGHT -> 0 < TILE_WIDTH ->
  is_u32 (dim2 ashape) -> is_u32 (dim3 bshape) ->
  0 < num_cores_x -> 0 <= num_cores_y ->
  num_cores_x * num_cores_y <= 2 ^ 31 ->
  let Mt := dim2 ashape / TILE_HEIGHT in
  let Nt := dim3 bshape / TILE_WIDTH in
  (Mt / 16) * (Nt / 16) < 2 ^ 32 ->
  num_blocks_total TILE_HEIGHT TILE_WIDTH ashape bshape
  <= wrap32 (num_cores_x * num_cores_y) ->
  exists calls,
    create_program DEBUG
      (matmul_params TILE_HEIGHT TILE_WIDTH ashape bshape num_cores_x in0 in1 out)
    = Ok calls /\
    length calls = (10 * Z.to_nat ((Mt / 16) * (Nt / 16)))%nat /\
    NoDup (compute_cores calls) /\
    (forall c, In c (compute_cores calls) ->
               0 <= fst c < num_cores_x /\ 0 <= snd c < num_cores_y).
Proof.
  intros HTH HTW Ha Hb Hx Hy H31 Mt Nt Hblocks Hassert.
  set (p := matmul_params TILE_HEIGHT TILE_WIDTH ashape bshape num_cores_x in0 in1 out).
  destruct (matmul_create_program_runs TILE_HEIGHT TILE_WIDTH HTH HTW DEBUG ashape bshape
              num_cores_x in0 in1 out Ha Hb Hx Hblocks) as [calls E].
  fold p in E. exists calls. split; [exact E|].
  assert (HM : is_u32 (M p)) by (apply div_u32; assumption).
  assert (HN : is_u32 (N p)) by (apply div_u32; assumption).
  assert (HM16 : is_u32 (M p / 16)) by (apply div_u32; [assumption|lia]).
  assert (HN16 : is_u32 (N p / 16)) by (apply div_u32; [assumption|lia]).
  assert (H16 : is_u32 16) by (unfold is_u32; lia).
  destruct (create_program_returns DEBUG p calls E HM HN H16 H16 Hblocks) as (Hc & Hl & _).
  change (M p / per_core_M p) with (Mt / 16) in Hc, Hl.
  change (N p / per_core_N p) with (Nt / 16) in Hc, Hl.
  split; [exact Hl|]. rewrite Hc.
  assert (Hle : (Mt / 16) * (Nt / 16) <= num_cores_x * num_cores_y).
  { unfold num_blocks_total in Hassert. fold Mt Nt in Hassert.
    unfold is_u32 in *. change (M p) with Mt in *. change (N p) with Nt in *.
    rewrite !wrap32_small in Hassert by nia. exact Hassert. }
  apply (cores_of_blocks p num_cores_y ((Mt / 16) * (Nt / 16)) Hx Hle). lia.
Qed.

Lemma matmul_blocks_fit_the_grid_witness :
  exists calls,
    create_program true (matmul_params 32 32 (1, 1, 1024, 64) (1, 1, 64, 1536) 2 0 0 0)
    = Ok calls /\
    length calls = 60%nat.
Proof.
  assert (H1 : (0 : Z) < 32) by lia.
  assert (Ha : is_u32 (dim2 (1, 1, 1024, 64)))
    by (unfold is_u32; vm_compute; split; [discriminate|reflexivity]).
  assert (Hb : is_u32 (dim3 (1, 1, 64, 1536)))
    by (unfold is_u32; vm_compute; split; [discriminate|reflexivity]).
  assert (Hx : (0 : Z) < 2) by lia.
  assert (Hy : (0 : Z) <= 3) by lia.
  assert (H31 : 2 * 3 <= 2 ^ 31) by lia.
  assert (Hbl : (dim2 (1, 1, 1024, 64) / 32 / 16) * (dim3 (1, 1, 64, 1536) / 32 / 16)
                < 2 ^ 32) by (vm_compute; reflexivity).
  assert (Has : num_blocks_total 32 32 (1, 1, 1024, 64) (1, 1, 64, 1536)
                <= wrap32 (2 * 3)) by (vm_compute; discriminate).
  destruct (matmul_blocks_fit_the_grid 32 32 true (1, 1, 1024, 64) (1, 1, 64, 1536)
              2 3 0 0 0 H1 H1 Ha Hb Hx Hy H31 Hbl Has) as (calls & E & Hl & _).
  exists calls. split; [exact E | exact Hl].
Defined.

Lemma mod_mod_mul (a h k : Z) :
  0 < h -> 0 < k -> a mod h = 0 -> (a / h) mod k = 0 -> a mod (k * h) = 0.
Proof.
  intros Hh Hk H1 H2.
  apply Z.mod_divide in H1; [|lia]. apply Z.mod_divide in H2; [|lia].
  destruct H1 as [q Hq]. subst a. rewrite Z.div_mul in H2 by lia.
  destruct H2 as [r Hr]. subst q.
  apply Z.mod_divide; [lia|]. exists r. lia.
Qed.

(** X14. The shapes that pass the assertions of [matmul_multi_core_reuse_]
    have the rows of A a multiple of 16 tiles, the columns of B a multiple
    of 16 tiles and the inner dimension, equal in A and B, a multiple of 2
    tiles; their batch dimensions multiply to 1 in 32-bit arithmetic, and
    are all 1 when they are below 2^16; and the shapes accepted by the bmm
    variant ([bcast_batch] false) are accepted by the matmul variant. *)
Theorem accepted_shapes
    (TILE_HEIGHT TILE_WIDTH : Z) (bcast_batch : bool) (ashape bshape : shape4) :
  0 < TILE_HEIGHT -> 0 < TILE_WIDTH ->
  shape_asserts TILE_HEIGHT TILE_WIDTH bcast_batch ashape bshape = true ->
  dim2 ashape mod (16 * TILE_HEIGHT) = 0 /\
  dim3 bshape mod (16 * TILE_WIDTH) = 0 /\
  dim3 ashape = dim2 bshape /\
  dim3 ashape mod (2 * TILE_WIDTH) = 0 /\
  wrap32 (dim0 ashape * dim1 ashape) = 1 /\
  wrap32 (dim0 bshape * dim1 bshape) = 1 /\
  (0 <= dim0 ashape < 2 ^ 16 -> 0 <= dim1 ashape < 2 ^ 16 ->
   0 <= dim0 bshape < 2 ^ 16 -> 0 <= dim1 bshape < 2 ^ 16 ->
   dim0 ashape = 1 /\ dim1 ashape = 1 /\ dim0 bshape = 1 /\ dim1 bshape = 1) /\
  shape_asserts TILE_HEIGHT TILE_WIDTH true ashape bshape = true.
Proof.
  intros HTH HTW H. unfold shape_asserts in *.
  repeat (apply andb_true_iff in H as [H ?]).
  repeat match goal with
         | H : (_ =? _) = true |- _ => apply Z.eqb_eq in H
         end.
  split; [now apply mod_mod_mul|]. split; [now apply mod_mod_mul|].
  split; [assumption|]. split; [now apply mod_mod_mul|].
  split; [assumption|]. split; [assumption|]. split.
  - intros A0 A1 B0 B1.
    assert (EA : dim0 ashape * dim1 ashape = 1).
    { rewrite <- (wrap32_small (dim0 ashape * dim1 ashape)); [assumption|]. nia. }
    assert (EB : dim0 bshape * dim1 bshape = 1).
    { rewrite <- (wrap32_small (dim0 bshape * dim1 bshape)); [assumption|]. nia. }
    nia.
  - repeat (apply andb_true_iff; split); apply Z.eqb_eq; assumption.
Qed.

Lemma accepted_shapes_witness :
  shape_asserts 32 32 false (1, 1, 1024, 64) (1, 1, 64, 1536) = true /\
  1024 mod (16 * 32) = 0 /\
  shape_asserts 32 32 true (1, 1, 1024, 64) (1, 1, 64, 1536) = true.
Proof.
  assert (H1 : (0 : Z) < 32) by lia.
  assert (H : shape_asserts 32 32 false (1, 1, 1024, 64) (1, 1, 64, 1536) = true)
    by (vm_compute; reflexivity).
  split; [exact H|].
  destruct (accepted_shapes 32 32 false (1, 1, 1024, 64) (1, 1, 64, 1536) H1 H1 H)
    as (A & _ & _ & _ & _ & _ & _ & B).
  split; [exact A | exact B].
Defined.

(* ===================================================================== *)
(** * program.hpp: filling a program                                      *)
(* ===================================================================== *)
Import ProgramHpp.
Import ProgramAdders.

Section AddersFacts.
Context {Kernel CircularBuffer Semaphore CoreCoord RISCV : Type}.

Lemma run_adds_snoc (cs : list (add_call Kernel CircularBuffer Semaphore))
    (c : add_call Kernel CircularBuffer Semaphore)
    (p : Program Kernel CircularBuffer Semaphore CoreCoord RISCV) :
  run_adds (cs ++ [c]) p = snd (run_add _ _ _ CoreCoord RISCV c (run_adds cs p)).
Proof. unfold run_adds. now rewrite fold_left_app. Qed.

Lemma run_adds_fields (cs : list (add_call Kernel CircularBuffer Semaphore))
    (p : Program Kernel CircularBuffer Semaphore CoreCoord RISCV) :
  kernels_ _ _ _ _ _ (run_adds cs p) = kernels_ _ _ _ _ _ p ++ added_kernels cs /\
  circular_buffers_ _ _ _ _ _ (run_adds cs p)
  = circular_buffers_ _ _ _ _ _ p ++ added_circular_buffers cs /\
  semaphores_ _ _ _ _ _ (run_adds cs p) = semaphores_ _ _ _ _ _ p ++ added_semaphores cs /\
  core_to_runtime_args_ _ _ _ _ _ (run_adds cs p) = core_to_runtime_args_ _ _ _ _ _ p.
Proof.
  induction cs as [|c cs IH] using rev_ind.
  - cbn. now rewrite !app_nil_r.
  - rewrite run_adds_snoc. destruct IH as (IK & IB & IS & IR).
    unfold added_kernels, added_circular_buffers, added_semaphores in *.
    rewrite !flat_map_app. cbn [flat_map].
    destruct c; cbn; rewrite IK, IB, IS, IR, ?app_nil_r, ?app_assoc; auto.
Qed.

End AddersFacts.

(** X15. Whatever sequence of [add_kernel], [add_circular_buffer] and
    [add_semaphore] calls is made on a program, [kernels()],
    [circular_buffers()] and [semaphores()] then return what they returned
    before followed by the added pointers of their kind in call order, and
    [runtime_args()] returns what it returned before; on a fresh
    [Program()] they return exactly the added pointers. *)
Theorem adders_append_in_call_order
    {Kernel CircularBuffer Semaphore CoreCoord RISCV : Type}
    (cs : list (add_call Kernel CircularBuffer Semaphore))
    (p : Program Kernel CircularBuffer Semaphore CoreCoord RISCV) :
  fst (kernels (run_adds cs p)) = fst (kernels p) ++ added_kernels cs /\
  fst (circular_buffers _ _ _ _ _ (run_adds cs p))
  = fst (circular_buffers _ _ _ _ _ p) ++ added_circular_buffers cs /\
  fst (semaphores _ _ _ _ _ (run_adds cs p))
  = fst (semaphores _ _ _ _ _ p) ++ added_semaphores cs /\
  fst (runtime_args _ _ _ _ _ (run_adds cs p)) = fst (runtime_args _ _ _ _ _ p) /\
  fst (kernels (run_adds cs (Program_default _ _ _ CoreCoord RISCV))) = added_kernels cs /\
  (length (fst (kernels (run_adds cs p)))
   + length (fst (circular_buffers _ _ _ _ _ (run_adds cs p)))
   + length (fst (semaphores _ _ _ _ _ (run_adds cs p))))%nat
  = (length (fst (kernels p)) + length (fst (circular_buffers _ _ _ _ _ p))
     + length (fst (semaphores _ _ _ _ _ p)) + length cs)%nat.
Proof.
  destruct (run_adds_fields cs p) as (IK & IB & IS & IR).
  destruct (run_adds_fields cs (Program_default _ _ _ CoreCoord RISCV)) as (DK & _).
  cbn [kernels circular_buffers semaphores runtime_args fst].
  split; [exact IK|]. split; [exact IB|]. split; [exact IS|]. split; [exact IR|].
  split; [exact DK|].
  rewrite IK, IB, IS, !length_app.
  assert (L : (length (added_kernels cs) + length (added_circular_buffers cs)
               + length (added_semaphores cs) = length cs)%nat).
  { clear. induction cs as [|c cs IH]; [reflexivity|].
    unfold added_kernels, added_circular_buffers, added_semaphores in *.
    cbn [flat_map]. rewrite !length_app. destruct c; cbn [length]; lia. }
  lia.
Qed.

(* ===================================================================== *)
(** * command_queue.hpp: the multicast encoding as a number               *)
(* ===================================================================== *)
Section MulticastArithmetic.
Variable bits : Z.
Hypothesis bits_nonneg : 0 <= bits.

(** A value below [2^n] and a value shifted by [n] share no bit. *)
Lemma lor_shiftl_add (a b n : Z) :
  0 <= n -> 0 <= a < 2 ^ n -> Z.lor a (Z.shiftl b n) = a + b * 2 ^ n.
Proof.
  intros Hn Ha. rewrite Z.shiftl_mul_pow2 by lia.
  symmetry. apply Z.add_nocarry_lor.
  apply Z.bits_inj'. intros k Hk.
  rewrite Z.land_spec, Z.bits_0.
  destruct (Z.lt_ge_cases k n) as [Hlt|Hge].
  - rewrite Z.mul_pow2_bits_low by lia. apply andb_false_r.
  - rewrite <- (Z.mod_small a (2 ^ n)) by lia.
    rewrite Z.mod_pow2_bits_high by lia. reflexivity.
Qed.

Lemma encoding_nested (x_start y_start x_end y_end : Z) :
  NOC_MULTICAST_ENCODING bits x_start y_start x_end y_end
  = Z.lor x_end
      (Z.shiftl (Z.lor y_end (Z.shiftl (Z.lor x_start (Z.shiftl y_start bits)) bits)) bits).
Proof.
  unfold NOC_MULTICAST_ENCODING.
  rewrite !Z.shiftl_lor, !Z.shiftl_shiftl by lia.
  try replace (bits + bits + bits) with (3 * bits) by lia.
  try replace (bits + bits) with (2 * bits) by lia.
  try replace (2 * bits + bits) with (3 * bits) by lia.
  try replace (bits + 2 * bits) with (3 * bits) by lia.
  apply Z.bits_inj'. intros k Hk. rewrite !Z.lor_spec.
  destruct (Z.testbit (Z.shiftl x_start (2 * bits)) k),
    (Z.testbit (Z.shiftl y_start (3 * bits)) k), (Z.testbit x_end k),
    (Z.testbit (Z.shiftl y_end bits) k); reflexivity.
Qed.

Lemma encoding_sum (x_start y_start x_end y_end : Z) :
  0 <= x_start < 2 ^ bits -> 0 <= y_start ->
  0 <= x_end < 2 ^ bits -> 0 <= y_end < 2 ^ bits ->
  NOC_MULTICAST_ENCODING bits x_start y_start x_end y_end
  = x_end + y_end * 2 ^ bits + x_start * 2 ^ (2 * bits) + y_start * 2 ^ (3 * bits).
Proof.
  intros Hxs Hys Hxe Hye. rewrite encoding_nested.
  rewrite !lor_shiftl_add by lia.
  replace (2 * bits) with (bits + bits) by lia.
  replace (3 * bits) with (bits + bits + bits) by lia.
  rewrite !Z.pow_add_r by lia. ring.
Qed.

Lemma encoding_spill_x_end (x_start y_start x_end y_end k : Z) :
  NOC_MULTICAST_ENCODING bits x_start y_start (Z.lor x_end (Z.shiftl k bits)) y_end
  = NOC_MULTICAST_ENCODING bits x_start y_start x_end (Z.lor y_end k).
Proof.
  unfold NOC_MULTICAST_ENCODING. rewrite !Z.shiftl_lor.
  apply Z.bits_inj'. intros j Hj. rewrite !Z.lor_spec.
  destruct (Z.testbit (Z.shiftl x_start (2 * bits)) j),
    (Z.testbit (Z.shiftl y_start (3 * bits)) j), (Z.testbit x_end j),
    (Z.testbit (Z.shiftl y_end bits) j), (Z.testbit (Z.shiftl k bits) j); reflexivity.
Qed.

Lemma encoding_spill_y_end (x_start y_start x_end y_end k : Z) :
  NOC_MULTICAST_ENCODING bits x_start y_start x_end (Z.lor y_end (Z.shiftl k bits))
  = NOC_MULTICAST_ENCODING bits (Z.lor x_start k) y_start x_end y_end.
Proof.
  unfold NOC_MULTICAST_ENCODING. rewrite !Z.shiftl_lor, Z.shiftl_shiftl by lia.
  replace (bits + bits) with (2 * bits) by lia.
  apply Z.bits_inj'. intros j Hj. rewrite !Z.lor_spec.
  destruct (Z.testbit (Z.shiftl x_start (2 * bits)) j),
    (Z.testbit (Z.shiftl y_start (3 * bits)) j), (Z.testbit x_end j),
    (Z.testbit (Z.shiftl y_end bits) j), (Z.testbit (Z.shiftl k (2 * bits)) j);
    reflexivity.
Qed.

Lemma encoding_spill_x_start (x_start y_start x_end y_end k : Z) :
  NOC_MULTICAST_ENCODING bits (Z.lor x_start (Z.shiftl k bits)) y_start x_end y_end
  = NOC_MULTICAST_ENCODING bits x_start (Z.lor y_start k) x_end y_end.
Proof.
  unfold NOC_MULTICAST_ENCODING. rewrite !Z.shiftl_lor, Z.shiftl_shiftl by lia.
  replace (bits + 2 * bits) with (3 * bits) by lia.
  apply Z.bits_inj'. intros j Hj. rewrite !Z.lor_spec.
  destruct (Z.testbit (Z.shiftl x_start (2 * bits)) j),
    (Z.testbit (Z.shiftl y_start (3 * bits)) j), (Z.testbit x_end j),
    (Z.testbit (Z.shiftl y_end bits) j), (Z.testbit (Z.shiftl k (3 * bits)) j);
    reflexivity.
Qed.

End MulticastArithmetic.

(** X16. For coordinates below 2^NOC_ADDR_NODE_ID_BITS the bitwise [|] of
    the macro adds nothing up twice: the encoding is the number
    [x_end + y_end * 2^b + x_start * 2^(2b) + y_start * 2^(3b)], so it grows
    with each coordinate and a rectangle starting at the origin is encoded
    by its end corner alone. *)
Theorem NOC_MULTICAST_ENCODING_is_positional
    (NOC_ADDR_NODE_ID_BITS x_start y_start x_end y_end : Z) :
  0 <= NOC_ADDR_NODE_ID_BITS ->
  0 <= x_start < 2 ^ NOC_ADDR_NODE_ID_BITS ->
  0 <= y_start < 2 ^ NOC_ADDR_NODE_ID_BITS ->
  0 <= x_end < 2 ^ NOC_ADDR_NODE_ID_BITS ->
  0 <= y_end < 2 ^ NOC_ADDR_NODE_ID_BITS ->
  let b := NOC_ADDR_NODE_ID_BITS in
  NOC_MULTICAST_ENCODING b x_start y_start x_end y_end
  = x_end + y_end * 2 ^ b + x_start * 2 ^ (2 * b) + y_start * 2 ^ (3 * b) /\
  NOC_MULTICAST_ENCODING b 0 0 x_end y_end = x_end + y_end * 2 ^ b /\
  NOC_MULTICAST_ENCODING b 0 0 x_end y_end
  <= NOC_MULTICAST_ENCODING b x_start y_start x_end y_end /\
  (forall x_start' y_start' x_end' y_end' : Z,
      0 <= x_start' < 2 ^ b -> 0 <= y_start' < 2 ^ b ->
      0 <= x_end' < 2 ^ b -> 0 <= y_end' < 2 ^ b ->
      (NOC_MULTICAST_ENCODING b x_start y_start x_end y_end
       < NOC_MULTICAST_ENCODING b x_start' y_start' x_end' y_end'
       <-> y_start < y_start'
           \/ y_start = y_start' /\
              (x_start < x_start'
               \/ x_start = x_start' /\
                  (y_end < y_end' \/ y_end = y_end' /\ x_end < x_end')))).
Proof.
  intros Hb Hxs Hys Hxe Hye b. subst b.
  set (b := NOC_ADDR_NODE_ID_BITS) in *. clearbody b.
  assert (P : 0 < 2 ^ b) by (apply Z.pow_pos_nonneg; lia).
  assert (P2 : 2 ^ (2 * b) = 2 ^ b * 2 ^ b).
  { replace (2 * b) with (b + b) by lia. apply Z.pow_add_r; lia. }
  assert (P3 : 2 ^ (3 * b) = 2 ^ b * 2 ^ b * 2 ^ b).
  { replace (3 * b) with (b + b + b) by lia. rewrite !Z.pow_add_r by lia. ring. }
  rewrite (encoding_sum b Hb x_start y_start x_end y_end) by lia.
  rewrite (encoding_sum b Hb 0 0 x_end y_end) by lia.
  split; [reflexivity|]. split; [ring|]. split; [nia|].
  intros xs' ys' xe' ye' Hxs' Hys' Hxe' Hye'.
  rewrite (encoding_sum b Hb xs' ys' xe' ye') by lia.
  rewrite P2, P3.
  set (B := 2 ^ b) in *. clearbody B.
  split.
  - intros H.
    destruct (Z.lt_trichotomy y_start ys') as [?|[->|?]]; [lia| |exfalso; nia].
    right. split; [reflexivity|].
    destruct (Z.lt_trichotomy x_start xs') as [?|[->|?]]; [lia| |exfalso; nia].
    right. split; [reflexivity|].
    destruct (Z.lt_trichotomy y_end ye') as [?|[->|?]]; [lia| |exfalso; nia].
    right. split; [reflexivity|]. nia.
  - intros [H|[-> [H|[-> [H|[-> H]]]]]]; nia.
Qed.

Lemma NOC_MULTICAST_ENCODING_is_positional_witness :
  NOC_MULTICAST_ENCODING 6 1 2 3 4 = 3 + 4 * 2 ^ 6 + 1 * 2 ^ (2 * 6) + 2 * 2 ^ (3 * 6).
Proof.
  assert (Hb : 0 <= 6) by lia.
  assert (H1 : 0 <= 1 < 2 ^ 6) by lia.
  assert (H2 : 0 <= 2 < 2 ^ 6) by lia.
  assert (H3 : 0 <= 3 < 2 ^ 6) by lia.
  assert (H4 : 0 <= 4 < 2 ^ 6) by lia.
  exact (proj1 (NOC_MULTICAST_ENCODING_is_positional 6 1 2 3 4 Hb H1 H2 H3 H4)).
Defined.

(** X17. The macro does not mask its arguments: the bits of a coordinate
    from position NOC_ADDR_NODE_ID_BITS up land in the next field, those of
    [x_end] in [y_end], those of [y_end] in [x_start] and those of
    [x_start] in [y_start]; so an [x_end] of 2^NOC_ADDR_NODE_ID_BITS is
    encoded as a [y_end] of 1 and two different rectangles share an
    encoding. *)
Theorem NOC_MULTICAST_ENCODING_spills
    (NOC_ADDR_NODE_ID_BITS x_start y_start x_end y_end k : Z) :
  0 <= NOC_ADDR_NODE_ID_BITS ->
  let b := NOC_ADDR_NODE_ID_BITS in
  NOC_MULTICAST_ENCODING b x_start y_start (Z.lor x_end (Z.shiftl k b)) y_end
  = NOC_MULTICAST_ENCODING b x_start y_start x_end (Z.lor y_end k) /\
  NOC_MULTICAST_ENCODING b x_start y_start x_end (Z.lor y_end (Z.shiftl k b))
  = NOC_MULTICAST_ENCODING b (Z.lor x_start k) y_start x_end y_end /\
  NOC_MULTICAST_ENCODING b (Z.lor x_start (Z.shiftl k b)) y_start x_end y_end
  = NOC_MULTICAST_ENCODING b x_start (Z.lor y_start k) x_end y_end /\
  NOC_MULTICAST_ENCODING b x_start y_start (2 ^ b) 0
  = NOC_MULTICAST_ENCODING b x_start y_start 0 1.
Proof.
  intros Hb b.
  split; [apply encoding_spill_x_end|].
  split; [now apply encoding_spill_y_end|].
  split; [now apply encoding_spill_x_start|].
  pose proof (encoding_spill_x_end b x_start y_start 0 0 1) as E.
  rewrite !Z.lor_0_l, Z.shiftl_mul_pow2, Z.mul_1_l in E by lia. exact E.
Qed.

Lemma NOC_MULTICAST_ENCODING_spills_witness :
  NOC_MULTICAST_ENCODING 6 1 2 (2 ^ 6) 0 = NOC_MULTICAST_ENCODING 6 1 2 0 1.
Proof.
  assert (Hb : 0 <= 6) by lia.
  exact (proj2 (proj2 (proj2 (NOC_MULTICAST_ENCODING_spills 6 1 2 0 0 0 Hb)))).
Defined.

(* ===================================================================== *)
(** * transpose.cpp                                                       *)
(* ===================================================================== *)
Import Transpose.

Section TransposeFacts.
Variable FACE_WIDTH : Z.
Variable DEBUG : bool.

(** With at most four dimensions [invoke] goes through the lambda, on the
    indices moved to the 4D shape. *)
Lemma invoke_low_rank (rank d1 d2 : Z) (bf8 sharded : bool) (a : tensor)
    (shape : Z -> Z) :
  0 < rank <= 4 -> 0 <= d1 < rank -> 0 <= d2 < rank ->
  let e1 := d1 + (4 - rank) in
  let e2 := d2 + (4 - rank) in
  invoke FACE_WIDTH DEBUG rank d1 d2 bf8 sharded a shape
  = Through_launch
      (bf8 && negb ((e1 =? 0) && (e2 =? 1) || (e2 =? 0) && (e1 =? 1)
                    || ((e1 =? 2) && (e2 =? 3) || (e2 =? 2) && (e1 =? 3)))
           && negb sharded)
      (launch FACE_WIDTH DEBUG a shape e1 e2) (rank <? 4).
Proof.
  intros Hr H1 H2 e1 e2. unfold invoke.
  destruct (Z.ltb_spec rank 4) as [Hlt|Hge].
  - assert (R : wrap32 (4 - rank) = 4 - rank) by (apply Z.mod_small; lia).
    rewrite R.
    assert (E1 : wrap32 (d1 + (4 - rank)) = e1) by (apply Z.mod_small; lia).
    assert (E2 : wrap32 (d2 + (4 - rank)) = e2) by (apply Z.mod_small; lia).
    rewrite E1, E2. reflexivity.
  - assert (rank = 4) by lia. subst rank. cbn [Z.gtb Z.compare Pos.compare Pos.compare_cont].
    unfold e1, e2. replace (4 - 4) with 0 by lia. rewrite !Z.add_0_r. reflexivity.
Qed.

Lemma four_cases (e : Z) : 0 <= e <= 3 -> e = 0 \/ e = 1 \/ e = 2 \/ e = 3.
Proof. lia. Qed.

(** The lambda on two axes of a 4D shape. *)
Lemma launch_in_range (a : tensor) (shape : Z -> Z) (e1 e2 : Z) :
  0 <= e1 <= 3 -> 0 <= e2 <= 3 ->
  let r := launch FACE_WIDTH DEBUG a shape e1 e2 in
  (r = Moved_to_mem_config /\ (e1 = e2 \/ shape e1 = 1 /\ shape e2 = 1))
  \/ (exists d, r = Transposed (transpose_ FACE_WIDTH a d)
                /\ axes d = (Z.min e1 e2, Z.max e1 e2)
                /\ e1 <> e2 /\ ~ (shape e1 = 1 /\ shape e2 = 1)).
Proof.
  intros H1 H2 r. subst r. unfold launch.
  destruct (Z.eqb_spec (shape e1) 1) as [S1|S1];
    destruct (Z.eqb_spec (shape e2) 1) as [S2|S2];
    destruct (four_cases e1 H1) as [-> | [-> | [-> | ->]]];
    destruct (four_cases e2 H2) as [-> | [-> | [-> | ->]]];
    cbn -[transpose_];
    first [ left; split; [reflexivity | first [left; reflexivity | right; split; assumption]]
          | right; eexists; split; [reflexivity|];
            split; [reflexivity|]; split; [lia | intros [? ?]; contradiction] ].
Qed.

End TransposeFacts.

Lemma axes_inj (d d' : TransposeOpDim) : axes d = axes d' -> d = d'.
Proof. destruct d, d'; cbn; intros E; first [reflexivity | discriminate E]. Qed.

Lemma transpose__inj (FACE_WIDTH : Z) (a : tensor) (d d' : TransposeOpDim) :
  transpose_ FACE_WIDTH a d = transpose_ FACE_WIDTH a d' -> d = d'.
Proof.
  unfold transpose_.
  destruct d, d'; try reflexivity;
    destruct (get_layout a); repeat case_match; intros E;
    first [reflexivity | discriminate E].
Qed.

Lemma launch_sym (FACE_WIDTH : Z) (DEBUG : bool) (a : tensor) (shape : Z -> Z)
    (e1 e2 : Z) :
  0 <= e1 <= 3 -> 0 <= e2 <= 3 ->
  launch FACE_WIDTH DEBUG a shape e2 e1 = launch FACE_WIDTH DEBUG a shape e1 e2.
Proof.
  intros H1 H2.
  destruct (launch_in_range FACE_WIDTH DEBUG a shape e1 e2 H1 H2)
    as [[E C]|(d & E & A & N & S)];
    destruct (launch_in_range FACE_WIDTH DEBUG a shape e2 e1 H2 H1)
    as [[E' C']|(d' & E' & A' & N' & S')]; cbv zeta in *.
  - congruence.
  - exfalso. destruct C as [C|[C1 C2]]; [congruence | apply S'; now split].
  - exfalso. destruct C' as [C|[C1 C2]]; [congruence | apply S; now split].
  - rewrite E, E'. replace d' with d; [reflexivity|].
    apply axes_inj. rewrite A, A', Z.min_comm, Z.max_comm. reflexivity.
Qed.

(** X18. For a tensor of at most four dimensions and two normalised indices
    below its rank, [ExecuteTranspose::invoke] goes through the lambda and
    neither TT_FATAL on the dimensions nor the final
    [TT_ASSERT(false, "Unsupported transpose dims")] is reached, with
    assertions on or off; the tensor is only moved exactly when the two
    axes are equal or both have extent 1, and otherwise [transpose_] is
    called with the enumerator that names the two axes (N = 0, C = 1,
    H = 2, W = 3 in the shape brought to rank 4); the result does not
    depend on the order of the two indices. *)
Theorem transpose_dims_always_supported
    (FACE_WIDTH : Z) (DEBUG : bool) (rank d1 d2 : Z) (bf8 sharded : bool)
    (a : tensor) (shape : Z -> Z) :
  0 < rank <= 4 -> 0 <= d1 < rank -> 0 <= d2 < rank ->
  let e1 := d1 + (4 - rank) in
  let e2 := d2 + (4 - rank) in
  exists typecast r,
    invoke FACE_WIDTH DEBUG rank d1 d2 bf8 sharded a shape
    = Through_launch typecast r (rank <? 4) /\
    (forall msg, r <> TT_FATAL msg) /\
    (forall msg, r <> Assert_false msg) /\
    (r = Moved_to_mem_config <-> e1 = e2 \/ shape e1 = 1 /\ shape e2 = 1) /\
    (r <> Moved_to_mem_config ->
     exists d, r = Transposed (transpose_ FACE_WIDTH a d)
               /\ axes d = (Z.min e1 e2, Z.max e1 e2)) /\
    invoke FACE_WIDTH DEBUG rank d2 d1 bf8 sharded a shape
    = invoke FACE_WIDTH DEBUG rank d1 d2 bf8 sharded a shape /\
    invoke FACE_WIDTH (negb DEBUG) rank d1 d2 bf8 sharded a shape
    = invoke FACE_WIDTH DEBUG rank d1 d2 bf8 sharded a shape.
Proof.
  intros Hr H1 H2 e1 e2.
  assert (R1 : 0 <= e1 <= 3) by (unfold e1; lia).
  assert (R2 : 0 <= e2 <= 3) by (unfold e2; lia).
  pose proof (invoke_low_rank FACE_WIDTH DEBUG rank d1 d2 bf8 sharded a shape Hr H1 H2)
    as I.
  pose proof (invoke_low_rank FACE_WIDTH DEBUG rank d2 d1 bf8 sharded a shape Hr H2 H1)
    as I'.
  pose proof (invoke_low_rank FACE_WIDTH (negb DEBUG) rank d1 d2 bf8 sharded a shape
                Hr H1 H2) as I''.
  cbv zeta in I, I', I''. fold e1 e2 in I, I', I''.
  eexists _, _. split; [exact I|].
  pose proof (launch_in_range FACE_WIDTH DEBUG a shape e1 e2 R1 R2) as L.
  pose proof (launch_in_range FACE_WIDTH (negb DEBUG) a shape e1 e2 R1 R2) as L'.
  cbv zeta in L, L'.
  split; [|split; [|split; [|split; [|split]]]].
  - intros msg. destruct L as [[E _]|(d & E & _)]; rewrite E; [discriminate|].
    unfold transpose_. repeat case_match; discriminate.
  - intros msg. destruct L as [[E _]|(d & E & _)]; rewrite E; [discriminate|].
    unfold transpose_. repeat case_match; discriminate.
  - destruct L as [[E C]|(d & E & A & N & S)]; rewrite E.
    + split; [intros _; exact C | reflexivity].
    + split; [discriminate|]. intros [C|[C1 C2]]; [contradiction|].
      exfalso. apply S. now split.
  - intros NM. destruct L as [[E C]|(d & E & A & N & S)]; [contradiction|].
    exists d. now split.
  - rewrite I, I'. rewrite (launch_sym FACE_WIDTH DEBUG a shape e1 e2 R1 R2).
    f_equal.
    destruct (four_cases e1 R1) as [E1 | [E1 | [E1 | E1]]];
      destruct (four_cases e2 R2) as [E2 | [E2 | [E2 | E2]]];
      rewrite E1, E2; reflexivity.
  - rewrite I, I''. f_equal.
    destruct L as [[E C]|(d & E & A & N & S)];
      destruct L' as [[E' C']|(d' & E' & A' & N' & S')].
    + congruence.
    + exfalso. destruct C as [C|[C1 C2]]; [contradiction | apply S'; now split].
    + exfalso. destruct C' as [C|[C1 C2]]; [contradiction | apply S; now split].
    + rewrite E, E'. replace d' with d; [reflexivity|].
      apply axes_inj. congruence.
Qed.

Lemma transpose_dims_always_supported_witness :
  exists typecast r,
    invoke 16 true 3 0 2 false false
      (Build_tensor TILE 2 64 32 32 32 false false true) (fun _ => 32)
    = Through_launch typecast r true /\
    (forall msg, r <> TT_FATAL msg) /\
    (forall msg, r <> Assert_false msg).
Proof.
  assert (Hr : 0 < 3 <= 4) by lia.
  assert (H1 : 0 <= 0 < 3) by lia.
  assert (H2 : 0 <= 2 < 3) by lia.
  destruct (transpose_dims_always_supported 16 true 3 0 2 false false
              (Build_tensor TILE 2 64 32 32 32 false false true) (fun _ => 32)
              Hr H1 H2) as (typecast & r & E & F & A & _).
  exists typecast, r. split; [exact E|]. split; [exact F | exact A].
Defined.

(** X19. For a tensor of at most four dimensions, the BFLOAT8_B input is
    converted to BFLOAT16 (and the output back) exactly when it is not
    sharded and the two axes are neither H and W nor N and C; then the
    device operation, if it runs at all, runs along HC, never along WH or
    CN; and with equal indices the conversion is made although the tensor
    is only moved. *)
Theorem typecast_exactly_off_wh_and_cn
    (FACE_WIDTH : Z) (DEBUG : bool) (rank d1 d2 : Z) (bf8 sharded : bool)
    (a : tensor) (shape : Z -> Z) (typecast squeeze : bool) (r : launched) :
  0 < rank <= 4 -> 0 <= d1 < rank -> 0 <= d2 < rank ->
  invoke FACE_WIDTH DEBUG rank d1 d2 bf8 sharded a shape
  = Through_launch typecast r squeeze ->
  let e1 := d1 + (4 - rank) in
  let e2 := d2 + (4 - rank) in
  (typecast = true <->
   bf8 = true /\ sharded = false
   /\ (Z.min e1 e2, Z.max e1 e2) <> axes WH /\ (Z.min e1 e2, Z.max e1 e2) <> axes CN) /\
  (typecast = true -> forall d, runs_along d r -> d = HC) /\
  (bf8 = true -> sharded = false -> d1 = d2 ->
   typecast = true /\ r = Moved_to_mem_config).
Proof.
  intros Hr H1 H2 I e1 e2.
  assert (R1 : 0 <= e1 <= 3) by (unfold e1; lia).
  assert (R2 : 0 <= e2 <= 3) by (unfold e2; lia).
  rewrite (invoke_low_rank FACE_WIDTH DEBUG rank d1 d2 bf8 sharded a shape Hr H1 H2) in I.
  cbv zeta in I. fold e1 e2 in I. injection I as T L _.
  assert (C : typecast = true <->
              bf8 = true /\ sharded = false
              /\ (Z.min e1 e2, Z.max e1 e2) <> axes WH
              /\ (Z.min e1 e2, Z.max e1 e2) <> axes CN).
  { rewrite <- T. clear T L.
    destruct (four_cases e1 R1) as [E1 | [E1 | [E1 | E1]]];
      destruct (four_cases e2 R2) as [E2 | [E2 | [E2 | E2]]];
      rewrite E1, E2; destruct bf8, sharded; cbn;
      (split; [ intros X; first [discriminate X
                                | repeat split; first [reflexivity | discriminate]]
              | intros (X1 & X2 & X3 & X4);
                first [reflexivity | discriminate X1 | discriminate X2
                      | exfalso; apply X3; reflexivity
                      | exfalso; apply X4; reflexivity] ]). }
  split; [exact C|]. split.
  - intros Ht d [via E]. apply C in Ht. destruct Ht as (_ & _ & NW' & NC).
    destruct (launch_in_range FACE_WIDTH DEBUG a shape e1 e2 R1 R2)
      as [[E' _]|(d' & E' & A & _)]; cbv zeta in E'; rewrite L in E'.
    + rewrite E in E'. discriminate E'.
    + rewrite E in E'. injection E' as E'.
      assert (D : d' = d).
      { unfold transpose_ in E'.
        destruct d'; try discriminate E';
          destruct (get_layout a); repeat case_match; congruence. }
      subst d'. rewrite <- A in NW', NC.
      destruct d; try reflexivity;
        first [exfalso; apply NW'; reflexivity | exfalso; apply NC; reflexivity
              | exfalso; unfold transpose_ in E'; discriminate E'].
  - intros Hb Hs Hd. split.
    + apply C. split; [exact Hb|]. split; [exact Hs|].
      assert (e1 = e2) by (unfold e1, e2; lia).
      rewrite <- H, Z.min_id, Z.max_id. cbn. split; intros X; injection X; lia.
    + rewrite <- L. unfold launch.
      assert (e1 = e2) by (unfold e1, e2; lia). rewrite <- H.
      destruct (Z.leb_spec e1 3); [|lia]. cbn [negb].
      rewrite Z.eqb_refl. reflexivity.
Qed.

Lemma typecast_exactly_off_wh_and_cn_witness :
  invoke 16 false 4 1 2 true false
    (Build_tensor TILE 1 64 32 32 32 false false true) (fun _ => 32)
  = Through_launch true (Transposed (Run false HC)) false /\
  (forall d, runs_along d (Transposed (Run false HC)) -> d = HC).
Proof.
  assert (Hr : 0 < 4 <= 4) by lia.
  assert (H1 : 0 <= 1 < 4) by lia.
  assert (H2 : 0 <= 2 < 4) by lia.
  assert (I : invoke 16 false 4 1 2 true false
                (Build_tensor TILE 1 64 32 32 32 false false true) (fun _ => 32)
              = Through_launch true (Transposed (Run false HC)) false)
    by (vm_compute; reflexivity).
  split; [exact I|].
  exact (proj1 (proj2 (typecast_exactly_off_wh_and_cn 16 false 4 1 2 true false
                         (Build_tensor TILE 1 64 32 32 32 false false true)
                         (fun _ => 32) true false (Transposed (Run false HC))
                         Hr H1 H2 I)) eq_refl).
Defined.

(** X20. For a tensor of at most four dimensions, whenever [invoke] ends in
    [ttnn::permute], the permutation [transpose_] hands over is the one
    [transpose_nd] builds for rank 4 from the two axes: the identity with
    the two axes exchanged; this happens exactly for the axis pairs NH, NW
    and CW. *)
Theorem permute_paths_swap_the_two_axes
    (FACE_WIDTH : Z) (DEBUG : bool) (rank d1 d2 : Z) (bf8 sharded : bool)
    (a : tensor) (shape : Z -> Z) (typecast squeeze : bool) (r : launched) :
  0 < rank <= 4 -> 0 <= d1 < rank -> 0 <= d2 < rank ->
  invoke FACE_WIDTH DEBUG rank d1 d2 bf8 sharded a shape
  = Through_launch typecast r squeeze ->
  let e1 := d1 + (4 - rank) in
  let e2 := d2 + (4 - rank) in
  (forall permutation, r = Transposed (Permute permutation) ->
     transpose_nd 4 e1 e2 = Some permutation) /\
  ((exists permutation, r = Transposed (Permute permutation)) <->
   ~ (shape e1 = 1 /\ shape e2 = 1)
   /\ ((Z.min e1 e2, Z.max e1 e2) = axes NH \/ (Z.min e1 e2, Z.max e1 e2) = axes NW
       \/ (Z.min e1 e2, Z.max e1 e2) = axes CW)).
Proof.
  intros Hr H1 H2 I e1 e2.
  assert (R1 : 0 <= e1 <= 3) by (unfold e1; lia).
  assert (R2 : 0 <= e2 <= 3) by (unfold e2; lia).
  rewrite (invoke_low_rank FACE_WIDTH DEBUG rank d1 d2 bf8 sharded a shape Hr H1 H2) in I.
  cbv zeta in I. fold e1 e2 in I. injection I as _ L _.
  destruct (launch_in_range FACE_WIDTH DEBUG a shape e1 e2 R1 R2)
    as [[E C]|(d & E & A & N & S)]; cbv zeta in E; rewrite L in E.
  - split.
    + intros p Ep. rewrite Ep in E. discriminate E.
    + split.
      * intros [p Ep]. rewrite Ep in E. discriminate E.
      * intros [NS Ax]. exfalso. destruct C as [C|C]; [|contradiction].
        rewrite <- C, Z.min_id, Z.max_id in Ax. cbn in Ax.
        destruct Ax as [X|[X|X]]; injection X; lia.
  - split.
    + intros p Ep. rewrite Ep in E. injection E as E.
      destruct (four_cases e1 R1) as [E1 | [E1 | [E1 | E1]]];
        destruct (four_cases e2 R2) as [E2 | [E2 | [E2 | E2]]];
        rewrite E1, E2 in *; try lia; cbn in A;
        destruct d; try discriminate A;
        unfold transpose_ in E;
        first [ injection E as ->; vm_compute; reflexivity
              | destruct (get_layout a); repeat case_match; discriminate E ].
    + split.
      * intros [p Ep]. split; [exact S|]. rewrite <- A. rewrite Ep in E.
        injection E as E. unfold transpose_ in E.
        destruct d; first [ left; reflexivity | right; left; reflexivity
                          | right; right; reflexivity
                          | destruct (get_layout a); repeat case_match; discriminate E ].
      * intros [_ Ax]. rewrite <- A in Ax. rewrite E.
        destruct Ax as [X|[X|X]]; apply axes_inj in X; subst d; eexists; reflexivity.
Qed.

Lemma permute_paths_swap_the_two_axes_witness :
  transpose_nd 4 (0 + (4 - 3)) (2 + (4 - 3)) = Some [0; 3; 2; 1].
Proof.
  assert (Hr : 0 < 3 <= 4) by lia.
  assert (H1 : 0 <= 0 < 3) by lia.
  assert (H2 : 0 <= 2 < 3) by lia.
  assert (I : invoke 16 true 3 0 2 false false
                (Build_tensor TILE 2 64 32 32 32 false false true) (fun _ => 32)
              = Through_launch false (Transposed (Permute [0; 3; 2; 1])) true)
    by (vm_compute; reflexivity).
  exact (proj1 (permute_paths_swap_the_two_axes 16 true 3 0 2 false false
                  (Build_tensor TILE 2 64 32 32 32 false false true) (fun _ => 32)
                  false true (Transposed (Permute [0; 3; 2; 1])) Hr H1 H2 I)
               [0; 3; 2; 1] eq_refl).
Defined.

(** X21. For a tensor of more than four dimensions [invoke] hands
    [ttnn::permute] the permutation of [transpose_nd]; for two indices
    below the rank it has one entry per dimension, holds each index at the
    place of the other and every other dimension at its own place, is a
    rearrangement of 0 .. rank-1, is the same for the two orders of the
    indices, and exchanging the two places again gives the identity back;
    an index at or above the rank makes the swap read outside the vector. *)
Theorem transpose_nd_exchanges_two_axes
    (FACE_WIDTH : Z) (DEBUG : bool) (rank dim1 dim2 : Z) (bf8 sharded : bool)
    (a : tensor) (shape : Z -> Z) :
  4 < rank -> 0 <= dim1 -> 0 <= dim2 ->
  invoke FACE_WIDTH DEBUG rank dim1 dim2 bf8 sharded a shape
  = Through_transpose_nd (transpose_nd rank dim1 dim2) /\
  (dim1 < rank -> dim2 < rank ->
   exists permutation,
     transpose_nd rank dim1 dim2 = Some permutation /\
     length permutation = Z.to_nat rank /\
     permutation !! Z.to_nat dim1 = Some dim2 /\
     permutation !! Z.to_nat dim2 = Some dim1 /\
     (forall i, 0 <= i < rank -> i <> dim1 -> i <> dim2 ->
                permutation !! Z.to_nat i = Some i) /\
     Permutation permutation (seqZ 0 rank) /\
     transpose_nd rank dim2 dim1 = Some permutation /\
     swap permutation (Z.to_nat dim1) (Z.to_nat dim2) = Some (seqZ 0 rank)) /\
  (rank <= dim1 \/ rank <= dim2 -> transpose_nd rank dim1 dim2 = None).
Proof.
  intros Hr H1 H2. split; [|split].
  - unfold invoke. destruct (Z.ltb_spec rank 4); [lia|].
    destruct (Z.gtb_spec rank 4); [reflexivity|lia].
  - intros L1 L2. unfold transpose_nd, swap.
    set (v := seqZ 0 rank).
    set (i := Z.to_nat dim1). set (j := Z.to_nat dim2).
    assert (Vi : v !! i = Some dim1).
    { unfold v, i. rewrite lookup_seqZ_lt by lia. f_equal. lia. }
    assert (Vj : v !! j = Some dim2).
    { unfold v, j. rewrite lookup_seqZ_lt by lia. f_equal. lia. }
    assert (Lv : length v = Z.to_nat rank) by apply length_seqZ.
    assert (Li : (i < length v)%nat) by (unfold i; lia).
    assert (Lj : (j < length v)%nat) by (unfold j; lia).
    rewrite Vi, Vj.
    set (w := <[j := dim1]> (<[i := dim2]> v)).
    assert (Wj : w !! j = Some dim1).
    { unfold w. apply list_lookup_insert_eq. now rewrite length_insert. }
    assert (Wi : w !! i = Some dim2).
    { unfold w. destruct (decide (i = j)) as [E|NE].
      - assert (dim1 = dim2) by (unfold i, j in E; lia). subst dim2.
        rewrite <- E. apply list_lookup_insert_eq. now rewrite length_insert.
      - rewrite list_lookup_insert_ne by congruence.
        now apply list_lookup_insert_eq. }
    exists w. split; [reflexivity|].
    split; [unfold w; now rewrite !length_insert|].
    split; [exact Wi|]. split; [exact Wj|].
    split; [|split; [|split]].
    + intros k Hk N1 N2. unfold w.
      rewrite !list_lookup_insert_ne by (unfold i, j; lia).
      unfold v. rewrite lookup_seqZ_lt by lia. f_equal. lia.
    + unfold w. now apply Permutation_insert_swap.
    + f_equal. unfold w. apply list_eq. intros k.
      rewrite !list_lookup_insert, !length_insert.
      repeat case_match; try reflexivity;
        repeat match goal with
               | H : _ /\ _ |- _ => destruct H
               end; subst; congruence.
    + rewrite Wi, Wj. f_equal. apply list_eq. intros k.
      rewrite !list_lookup_insert, !length_insert. unfold w.
      rewrite !list_lookup_insert, !length_insert.
      repeat case_match; try reflexivity;
        repeat match goal with
               | H : _ /\ _ |- _ => destruct H
               end; subst; try congruence;
        repeat match goal with
               | H : ~ (_ /\ _) |- _ => exfalso; apply H; split; [reflexivity | lia]
               end.
  - intros Hout. unfold transpose_nd, swap.
    destruct Hout as [O|O].
    + rewrite (lookup_seqZ_ge 0 rank (Z.to_nat dim1)) by lia. reflexivity.
    + rewrite (lookup_seqZ_ge 0 rank (Z.to_nat dim2)) by lia.
      destruct (seqZ 0 rank !! Z.to_nat dim1); reflexivity.
Qed.

Lemma transpose_nd_exchanges_two_axes_witness :
  transpose_nd 6 1 4 = Some [0; 4; 2; 3; 1; 5] /\ transpose_nd 6 1 6 = None.
Proof.
  assert (Hr : 4 < 6) by lia.
  assert (H1 : 0 <= 1) by lia.
  assert (H6 : 0 <= 6) by lia.
  split; [vm_compute; reflexivity|].
  apply (proj2 (proj2 (transpose_nd_exchanges_two_axes 16 false 6 1 6 false false
                         (Build_tensor TILE 2 64 32 32 32 false false true)
                         (fun _ => 32) Hr H1 H6))).
  right. lia.
Defined.
